(** * Uganda spatial-interpolation pipeline: embedding and verified properties

    Shallow embedding of the interpolation and raster-assembly code of
    [src/app.py] and [src/run_enhanced_uganda_analysis.py].

    Conventions of the embedding:
    - Python/numpy floating-point numbers are modelled as exact rationals
      ([Q], compared with [==]); rounding, NaN and infinities are outside
      the model.  The one exception is the module [F64], which rounds every
      operation of the two IDW loops to float64.
    - Python dictionaries are finite maps ([gmap]); the output directory is
      a finite map from file path to raster.
    - An exception that escapes a function is the [Raised] alternative of
      [outcome]; a [try ... except] is a match on it.
    - [pykrige], [scipy.interpolate.Rbf] and [pandas.to_datetime] are
      library code: they are Section variables. *)

From Stdlib Require Import QArith Qround Qminmax Qabs Qpower Lqa Ascii String.
From stdpp Require Import gmap strings list fin_maps sorting pretty.

Local Open Scope string_scope.
Local Open Scope list_scope.

(** * Part I: the embedding *)

(** ** Exceptions *)

(** A Python computation either returns a value or raises. *)
Inductive outcome (A : Type) : Type :=
| Returned (a : A)
| Raised (e : string).
Arguments Returned {A} a.
Arguments Raised {A} e.

#[export] Instance outcome_ret : MRet outcome := fun A a => Returned a.
#[export] Instance outcome_bind : MBind outcome := fun A B k m =>
  match m with
  | Returned a => k a
  | Raised e => Raised e
  end.

(** A [for] loop whose body may raise: the first exception ends the loop. *)
Fixpoint foldM {S A : Type} (body : S -> A -> outcome S) (l : list A) (s : S)
  : outcome S :=
  match l with
  | [] => Returned s
  | x :: t => s' ← body s x; foldM body t s'
  end.

(** A list comprehension whose element expression may raise. *)
Fixpoint traverse {A B : Type} (f : A -> outcome B) (l : list A)
  : outcome (list B) :=
  match l with
  | [] => Returned []
  | x :: t => y ← f x; ys ← traverse f t; Returned (y :: ys)
  end.

(** pandas' [unique()]: the distinct values of a list, first occurrences
    kept. *)
Fixpoint distinct {A : Type} (eqb : A -> A -> bool) (l : list A) : list A :=
  match l with
  | [] => []
  | x :: t => x :: List.filter (fun y => negb (eqb x y)) (distinct eqb t)
  end.

(** [enumerate(l, start)] *)
Definition enumerate {A : Type} (start : nat) (l : list A) : list (nat * A) :=
  zip (seq start (length l)) l.

(** ** Python string operations used by the sources *)
Module PyStr.

(** [str.lower] on ASCII letters. *)
Definition lower_ascii (c : ascii) : ascii :=
  let n := nat_of_ascii c in
  if (65 <=? n)%nat && (n <=? 90)%nat then ascii_of_nat (n + 32) else c.

Fixpoint lower (s : string) : string :=
  match s with
  | EmptyString => EmptyString
  | String c s' => String (lower_ascii c) (lower s')
  end.

(** [pat in s] for strings: some suffix of [s] starts with [pat]. *)
Fixpoint contains (pat s : string) : bool :=
  String.prefix pat s ||
  match s with
  | EmptyString => false
  | String _ s' => contains pat s'
  end.

(** [any(pattern in s for pattern in patterns)] *)
Definition any_in (patterns : list string) (s : string) : bool :=
  existsb (fun pattern => contains pattern s) patterns.

(** Truthiness of a string: only the empty string is falsy. *)
Definition truthy (s : string) : bool :=
  match s with EmptyString => false | _ => true end.

(** [s.split(sep)] for a non-empty [sep]: the pieces between the leftmost
    non-overlapping occurrences of [sep].  [skip] counts the characters of
    a matched separator still to be dropped. *)
Fixpoint split_aux (sep : string) (skip : nat) (s : string) : list string :=
  match s with
  | EmptyString => [EmptyString]
  | String c s' =>
      match skip with
      | S k => split_aux sep k s'
      | O =>
          if String.prefix sep s
          then EmptyString :: split_aux sep (String.length sep - 1) s'
          else match split_aux sep 0 s' with
               | piece :: pieces => String c piece :: pieces
               | [] => [String c EmptyString]
               end
      end
  end.

Definition split (sep s : string) : list string := split_aux sep 0 s.

(** [s.replace(old, new)] for a non-empty [old]. *)
Fixpoint replace_aux (old new : string) (skip : nat) (s : string) : string :=
  match s with
  | EmptyString => EmptyString
  | String c s' =>
      match skip with
      | S k => replace_aux old new k s'
      | O =>
          if String.prefix old s
          then new +:+ replace_aux old new (String.length old - 1) s'
          else String c (replace_aux old new 0 s')
      end
  end.

Definition replace (old new s : string) : string := replace_aux old new 0 s.

(** [l[i]]: raises [IndexError] out of range. *)
Definition index {A : Type} (l : list A) (i : nat) : outcome A :=
  match l !! i with
  | Some x => Returned x
  | None => Raised "IndexError"
  end.

(** [l[-1]] on the result of a [split], which is never empty. *)
Definition last_piece (l : list string) : string := List.last l EmptyString.

(** [os.path.basename]: what follows the last slash. *)
Fixpoint basename (p : string) : string :=
  match p with
  | EmptyString => EmptyString
  | String c p' =>
      if contains "/" p' then basename p'
      else if Ascii.eqb c "/" then p' else p
  end.

(** [os.path.dirname]: what precedes the last slash. *)
Fixpoint dirname (p : string) : string :=
  match p with
  | EmptyString => EmptyString
  | String c p' =>
      if contains "/" p' then String c (dirname p')
      else EmptyString
  end.

(** [s.endswith(suffix)] *)
Definition endswith (suffix s : string) : bool :=
  String.prefix (String.rev suffix) (String.rev s).

End PyStr.

(** ** numpy *)

(** A matrix is a list of rows: [z[i, j]] is row [i], column [j]. *)
Definition matrix := list (list Q).

Module Np.
Local Open Scope Q_scope.

(** Python's [int(x)] on a float: truncation toward zero. *)
Definition py_int (x : Q) : Z := Z.quot (Qnum x) (Zpos (Qden x)).

(** [a.min()] and [a.max()]; there is no value for an empty array. *)
Definition amin (l : list Q) : option Q :=
  match l with
  | [] => None
  | x :: t => Some (fold_left Qmin t x)
  end.

Definition amax (l : list Q) : option Q :=
  match l with
  | [] => None
  | x :: t => Some (fold_left Qmax t x)
  end.

(** [np.sum] *)
Definition sum (l : list Q) : Q := fold_right Qplus 0 l.

(** [np.linspace(start, stop, num)]: [num] evenly spaced samples, both end
    points included; a single sample is [start]; a negative [num] raises. *)
Definition linspace (start stop : Q) (num : Z) : outcome (list Q) :=
  if (num <? 0)%Z then Raised "ValueError"
  else
    match Z.to_nat num with
    | O => Returned []
    | S O => Returned [start]
    | S (S _ as div) =>
        let step := (stop - start) / inject_Z (Z.of_nat div) in
        Returned
          (map (fun i => start + inject_Z (Z.of_nat i) * step) (seq 0 div)
             ++ [stop])
    end.

(** [np.zeros((h, w))] *)
Definition zeros (h w : nat) : matrix := replicate h (replicate w 0).

(** [z[i, j]] *)
Definition at_ (z : matrix) (i j : nat) : option Q :=
  row ← z !! i; row !! j.

End Np.

(** ** Inverse distance weighting: shared arithmetic

    Both sources take the Euclidean distance [d] from a grid node to each
    sample and weight the sample by [1 / d ** 2].  In exact arithmetic
    [sqrt(s) ** 2 = s], so the model carries the squared distance [s] and
    the square of the floor [1e-10]. *)
Module IDW.
Local Open Scope Q_scope.

Definition dist_sq (x y sx sy : Q) : Q :=
  (sx - x) * (sx - x) + (sy - y) * (sy - y).

(** [1e-10 ** 2] *)
Definition floor_sq : Q := 1 # 100000000000000000000.

(** [weights = 1 / (distances ** 2)] *)
Definition weights_of (distances_sq : list Q) : list Q :=
  map (fun s => 1 / s) distances_sq.

(** [np.sum(weights * values) / np.sum(weights)] *)
Definition weighted_average (weights values : list Q) : Q :=
  Np.sum (zip_with Qmult weights values) / Np.sum weights.

End IDW.

(** ** [src/app.py] *)
Module App.
Import PyStr.
Local Open Scope Q_scope.

(** *** [detect_coordinate_columns] *)

Definition lat_patterns : list string := ["lat"; "latitude"; "y"; "northing"].
Definition lon_patterns : list string :=
  ["lon"; "long"; "longitude"; "x"; "easting"].

Definition is_lat (col : string) : bool := any_in lat_patterns (lower col).
Definition is_lon (col : string) : bool := any_in lon_patterns (lower col).

(** The dictionary [{'latitude': lat_col, 'longitude': lon_col}]. *)
Record coord_columns := CoordColumns { latitude : string; longitude : string }.

(** One iteration of [for col in df.columns]; the loop state is the pair
    [(lat_col, lon_col)], [None] being Python's [None]. *)
Definition detect_step (st : option string * option string) (col : string)
  : option string * option string :=
  if is_lat col then (Some col, snd st)
  else if is_lon col then (fst st, Some col)
  else st.

Definition detect_loop (columns : list string)
  : option string * option string :=
  fold_left detect_step columns (None, None).

Definition detect_coordinate_columns (columns : list string)
  : option coord_columns :=
  match detect_loop columns with
  | (Some lat_col, Some lon_col) =>
      if truthy lat_col && truthy lon_col
      then Some (CoordColumns lat_col lon_col)
      else None
  | _ => None
  end.

(** *** [get_all_variables] *)

(** A column of the loaded table: numeric dtype or object dtype; [None]
    is a missing value. *)
Inductive series :=
| NumSeries (data : list (option Q))
| ObjSeries (data : list (option string)).

Definition is_numeric_dtype (s : series) : bool :=
  match s with NumSeries _ => true | ObjSeries _ => false end.

Definition len (s : series) : nat :=
  match s with
  | NumSeries d => length d
  | ObjSeries d => length d
  end.

(** [dropna] on the data of a column. *)
Definition dropna {A : Type} (d : list (option A)) : list A := omap id d.

(** [col_data.count()]: the number of non-missing values. *)
Definition count (s : series) : nat :=
  match s with
  | NumSeries d => length (dropna d)
  | ObjSeries d => length (dropna d)
  end.

(** [col_data.nunique()]: the number of distinct non-missing values. *)
Definition nunique (s : series) : nat :=
  match s with
  | NumSeries d => length (distinct Qeq_bool (dropna d))
  | ObjSeries d => length (distinct String.eqb (dropna d))
  end.

(** A truth value as the JSON encoder sees it: the [bool] of Python, which
    it writes as [true] or [false], or the [numpy.bool_] that a comparison
    of a numpy number yields, which it refuses. *)
Inductive flag :=
| PyBool (b : bool)
| NumpyBool (b : bool).

Definition truth (f : flag) : bool :=
  match f with
  | PyBool b => b
  | NumpyBool b => b
  end.

(** [a and b]: the left operand itself when it is false, the right operand
    otherwise. *)
Definition py_and (a b : flag) : flag := if truth a then b else a.

(** The dictionary [variable_info]; an absent key is [None].  The summary
    statistics (min, max, mean, std) are left out. *)
Record variable_info := VariableInfo {
  name : string;
  is_numeric : bool;
  total_count : nat;
  non_null_count : nat;
  null_count : nat;
  unique_values : nat;
  suitable_for_interpolation : option flag
}.

(** The dictionary of one column (lines 540-567).  [col_data.count()] is a
    numpy integer, so [col_data.count() >= 10] is a numpy boolean;
    [col_data.nunique()] is an [int] of Python, so
    [col_data.nunique() > 5] is a [bool] of Python. *)
Definition describe_column (col : string) (col_data : series)
  : variable_info :=
  let is_numeric := is_numeric_dtype col_data in
  {| name := col;
     is_numeric := is_numeric;
     total_count := len col_data;
     non_null_count := count col_data;
     null_count := len col_data - count col_data;
     unique_values := nunique col_data;
     suitable_for_interpolation :=
       if is_numeric then
         if (0 <? count col_data)%nat
         then Some (py_and (NumpyBool (10 <=? count col_data)%nat)
                           (PyBool (5 <? nunique col_data)%nat))
         else None
       else None |}.

(** [v.get('suitable_for_interpolation', False)] where a truth value is
    asked for. *)
Definition get_suitable (v : variable_info) : bool :=
  match suitable_for_interpolation v with
  | Some f => truth f
  | None => false
  end.

(** What a route answers: status 200 with a JSON body, or, from the
    [except Exception] clause of the route, status 500 with the text of the
    exception. *)
Inductive response (A : Type) :=
| Ok (body : A)
| ServerError.
Arguments Ok {A} body.
Arguments ServerError {A}.

(** Whether [jsonify] can encode the dictionary of a column: every value is
    a [str], an [int], a [float] or a [bool] of Python, except for a flag
    that is a numpy boolean, on which the encoder raises [TypeError]. *)
Definition serializable (v : variable_info) : bool :=
  match suitable_for_interpolation v with
  | Some (NumpyBool _) => false
  | _ => true
  end.

(** The fields ['variables'] and ['numeric_variables'] of the response
    (lines 537-589): the response is built by [jsonify] after the loop over
    the columns, inside the [try] of the route. *)
Definition get_all_variables (df : list (string * series))
  : response (list variable_info * list variable_info) :=
  let variables := map (fun '(col, col_data) => describe_column col col_data) df in
  let numeric_variables :=
    List.filter (fun v => is_numeric v && get_suitable v) variables in
  if forallb serializable variables
  then Ok (variables, numeric_variables)
  else ServerError.

(** *** [run_interpolation]: the work done for one variable *)

Record sample := Sample { s_lat : Q; s_lon : Q; s_value : Q }.

Section Interpolation.
(** [OrdinaryKriging(x, y, values, variogram_model).execute('grid', gx, gy)] *)
Variable kriging :
  string -> list Q -> list Q -> list Q -> list Q -> list Q -> outcome matrix.

Definition require {A : Type} (o : option A) (e : string) : outcome A :=
  match o with Some a => Returned a | None => Raised e end.

(** Lines 326-335: bounding box, 10% buffer, [resolution] nodes per axis. *)
Definition build_grid (lats lons : list Q) (resolution : Z)
  : outcome (list Q * list Q) :=
  lat_min ← require (Np.amin lats) "ValueError";
  lat_max ← require (Np.amax lats) "ValueError";
  lon_min ← require (Np.amin lons) "ValueError";
  lon_max ← require (Np.amax lons) "ValueError";
  let lat_buffer := (lat_max - lat_min) * (1 # 10) in
  let lon_buffer := (lon_max - lon_min) * (1 # 10) in
  grid_lats ← Np.linspace (lat_min - lat_buffer) (lat_max + lat_buffer) resolution;
  grid_lons ← Np.linspace (lon_min - lon_buffer) (lon_max + lon_buffer) resolution;
  Returned (grid_lats, grid_lons).

(** Lines 354-357: the estimate at the node [(glat, glon)];
    [np.maximum(distances, 1e-10)] is the floor. *)
Definition idw_cell (lats lons values : list Q) (glat glon : Q) : Q :=
  let distances_sq :=
    zip_with (fun la lo => Qmax (IDW.dist_sq glat glon la lo) IDW.floor_sq)
      lats lons in
  IDW.weighted_average (IDW.weights_of distances_sq) values.

(** Lines 351-357: [interpolated[i, j]] for all nodes of the mesh. *)
Definition idw (lats lons values grid_lats grid_lons : list Q) : matrix :=
  map (fun glat => map (fun glon => idw_cell lats lons values glat glon)
                     grid_lons) grid_lats.

(** Lines 338-357: dispatch on the lower-cased method name. *)
Definition interpolate (method : string)
    (lats lons values grid_lats grid_lons : list Q) : outcome matrix :=
  if String.eqb (lower method) "kriging"
  then kriging "linear" lons lats values grid_lons grid_lats
  else Returned (idw lats lons values grid_lats grid_lons).

Inductive var_result :=
| VarError (msg : string)
| VarSuccess (method_used : string) (interpolated : matrix)
    (grid_bounds : Q * Q * Q * Q).

(** One iteration of [for variable in config['variables']] for a column
    that exists; [var_data] are the rows with coordinates and a value. *)
Definition interpolate_variable (method : string) (resolution : Z)
    (var_data : list sample) : outcome var_result :=
  if (length var_data <? 10)%nat
  then Returned (VarError "Insufficient data points")
  else
    let lats := map s_lat var_data in
    let lons := map s_lon var_data in
    let values := map s_value var_data in
    '(grid_lats, grid_lons) ← build_grid lats lons resolution;
    let attempt : outcome var_result :=
      interpolated ← interpolate method lats lons values grid_lats grid_lons;
      west ← require (Np.amin grid_lons) "ValueError";
      south ← require (Np.amin grid_lats) "ValueError";
      east ← require (Np.amax grid_lons) "ValueError";
      north ← require (Np.amax grid_lats) "ValueError";
      Returned (VarSuccess (lower method) interpolated
                  (west, south, east, north)) in
    match attempt with
    | Returned r => Returned r
    | Raised e => Returned (VarError e)
    end.

End Interpolation.

End App.

(** ** [src/run_enhanced_uganda_analysis.py] *)
Module Enhanced.
Import PyStr.
Local Open Scope Q_scope.

(** *** Data *)

(** A cell of the table read by [pd.read_csv]: a float or a string; a
    missing value is the absence of the key in the row. *)
Inductive cell := Num (q : Q) | Str (s : string).

Record table := Table {
  columns : list string;
  rows : list (gmap string cell)
}.

(** A calendar day, as produced by [.dt.date]. *)
Record date := Date { year : nat; month : nat; day : nat }.

Definition date_eqb (d1 d2 : date) : bool :=
  (year d1 =? year d2)%nat && (month d1 =? month d2)%nat
  && (day d1 =? day d2)%nat.

Definition date_leb (d1 d2 : date) : bool :=
  (year d1 <? year d2)%nat
  || ((year d1 =? year d2)%nat
      && ((month d1 <? month d2)%nat
          || ((month d1 =? month d2)%nat && (day d1 <=? day d2)%nat))).

Fixpoint zeros_str (k : nat) : string :=
  match k with O => EmptyString | S k' => String "0" (zeros_str k') end.

(** ["%0<width>d" % n] *)
Definition pad (width n : nat) : string :=
  let digits := pretty n in
  zeros_str (width - String.length digits) +:+ digits.

(** [str(date)]: ISO format. *)
Definition date_str (d : date) : string :=
  pad 4 (year d) +:+ "-" +:+ pad 2 (month d) +:+ "-" +:+ pad 2 (day d).

(** A row of [uganda_clean]: coordinates present and numeric, date parsed. *)
Record record := Rec {
  r_lat : Q;
  r_lon : Q;
  r_date : date;
  r_vals : gmap string cell
}.

(** The configuration constants at the head of the function. *)
Record config := Config {
  max_days_per_variable : nat;
  interpolation_method : string;
  grid_resolution : Q;
  variogram_model : string;
  buffer_percent : Q
}.

Definition default_config : config :=
  Config 30 "kriging" (5 # 1000) "spherical" (2 # 10).

Definition output_dir : string := "/app/outputs/uganda_enhanced_analysis".

Definition target_variables : list string :=
  ["NDVI"; "pm25"; "no2"; "WRND"; "EH"; "EM"; "T2M"; "RH"; "LST"; "ET";
   "TP"; "BLH"].

(** [os.path.join(output_dir, name)] *)
Definition join (dir name : string) : string := dir +:+ "/" +:+ name.

(** *** Rasters *)

(** The affine transform [| a b c ; d e f |] of a raster. *)
Record affine := Affine { af_a : Q; af_b : Q; af_c : Q;
                          af_d : Q; af_e : Q; af_f : Q }.

(** [rasterio.transform.from_bounds]:
    [Affine.translation(west, north) *
     Affine.scale((east - west) / width, (south - north) / height)]. *)
Definition from_bounds (west south east north : Q) (width height : nat)
  : affine :=
  Affine ((east - west) / inject_Z (Z.of_nat width)) 0 west
         0 ((south - north) / inject_Z (Z.of_nat height)) north.

(** [transform * (col, row)]: the map coordinates [(x, y)] of the upper
    left corner of pixel [(row, col)]. *)
Definition pixel_corner (t : affine) (row col : nat) : Q * Q :=
  let c := inject_Z (Z.of_nat col) in
  let r := inject_Z (Z.of_nat row) in
  (af_a t * c + af_b t * r + af_c t, af_d t * c + af_e t * r + af_f t).

(** A GeoTIFF in the output directory; [count] is [length bands]. *)
Record raster := Raster {
  height : nat;
  width : nat;
  transform : affine;
  bands : list matrix;
  descriptions : list string
}.

Definition require {A : Type} (o : option A) (e : string) : outcome A :=
  match o with Some a => Returned a | None => Raised e end.

(** [rasterio.open(path)] for reading. *)
Definition open_ (fs : gmap string raster) (path : string) : outcome raster :=
  require (fs !! path) "RasterioIOError".

(** A numpy array of two dimensions: its shape (rows, columns) and its
    values, row by row. *)
Record array := Array { a_shape : nat * nat; a_values : matrix }.

(** [src.read(1)]: the first band, as an array of the shape of the file. *)
Definition read1 (src : raster) : outcome array :=
  match bands src !! 0%nat with
  | Some data => Returned (Array (height src, width src) data)
  | None => Raised "IndexError"
  end.

(** [rasterio.open(path, 'w', **profile)] with [profile] copied from
    [template] and [count] updated: a fresh file of zero-filled bands. *)
Definition create (fs : gmap string raster) (path : string)
    (template : raster) (count : nat) : gmap string raster :=
  <[path := {| height := height template;
               width := width template;
               transform := transform template;
               bands := replicate count
                          (Np.zeros (height template) (width template));
               descriptions := replicate count EmptyString |}]> fs.

(** What [dst.write(data, i)] stores in a band of [h] rows and [w] columns:
    the values of [data] when the array has that shape; an array of another
    shape is not refused, GDAL resamples it to the shape of the file
    ([resample], its [RasterIO] on a buffer smaller or larger than the
    window). *)
Definition fit (resample : nat -> nat -> array -> matrix) (h w : nat)
    (data : array) : matrix :=
  if (fst (a_shape data) =? h)%nat && (snd (a_shape data) =? w)%nat
  then a_values data
  else resample h w data.

(** [dst.write(data, i)] then [dst.set_band_description(i, description)];
    band indexes are 1-based. *)
Definition write_band (resample : nat -> nat -> array -> matrix)
    (dst : raster) (i : nat) (data : array) (description : string)
  : outcome raster :=
  if (1 <=? i)%nat && (i <=? length (bands dst))%nat
  then Returned {| height := height dst;
                   width := width dst;
                   transform := transform dst;
                   bands := <[(i - 1)%nat :=
                                fit resample (height dst) (width dst) data]>
                              (bands dst);
                   descriptions :=
                     <[(i - 1)%nat := description]> (descriptions dst) |}
  else Raised "IndexError".

(** *** The interpolation grid (lines 107-124) *)

Record grid := Grid { grid_lat : list Q; grid_lon : list Q }.

(** [min(int((hi - lo + 2*buffer) / grid_resolution) + 1, 400)]; a cell
    size of zero makes the quotient infinite or undefined, and [int]
    raises on it. *)
Definition axis_count (lo hi buffer resolution : Q) : outcome Z :=
  if Qeq_bool resolution 0 then Raised "OverflowError"
  else Returned
         (Z.min (Np.py_int ((hi - lo + 2 * buffer) / resolution) + 1) 400).

Definition build_grid (cfg : config) (valid_data : list record)
  : outcome grid :=
  lat_min ← require (Np.amin (map r_lat valid_data)) "ValueError";
  lat_max ← require (Np.amax (map r_lat valid_data)) "ValueError";
  lon_min ← require (Np.amin (map r_lon valid_data)) "ValueError";
  lon_max ← require (Np.amax (map r_lon valid_data)) "ValueError";
  let lat_buffer := (lat_max - lat_min) * buffer_percent cfg in
  let lon_buffer := (lon_max - lon_min) * buffer_percent cfg in
  n_lat ← axis_count lat_min lat_max lat_buffer (grid_resolution cfg);
  n_lon ← axis_count lon_min lon_max lon_buffer (grid_resolution cfg);
  grid_lat ← Np.linspace (lat_min - lat_buffer) (lat_max + lat_buffer) n_lat;
  grid_lon ← Np.linspace (lon_min - lon_buffer) (lon_max + lon_buffer) n_lon;
  Returned (Grid grid_lat grid_lon).

(** *** [perform_interpolation] (lines 145-172) *)

(** Arithmetic on the values raises on a string. *)
Definition as_float (c : cell) : outcome Q :=
  match c with Num q => Returned q | Str _ => Raised "TypeError" end.

(** Lines 165-168: the estimate at the node [(glon, glat)];
    [distances[distances == 0] = 1e-10] is the floor. *)
Definition idw_cell (coords : list (Q * Q)) (values : list Q)
    (glon glat : Q) : Q :=
  let distances_sq :=
    map (fun '(lon, lat) =>
           let s := IDW.dist_sq glon glat lon lat in
           if Qeq_bool s 0 then IDW.floor_sq else s) coords in
  IDW.weighted_average (IDW.weights_of distances_sq) values.

(** Lines 162-169: [z[i, j]] is the estimate at
    [(grid_lon[j], grid_lat[i])]. *)
Definition idw (g : grid) (coords : list (Q * Q)) (values : list Q)
  : matrix :=
  map (fun glat => map (fun glon => idw_cell coords values glon glat)
                     (grid_lon g)) (grid_lat g).

Section Pipeline.
(** [pd.to_datetime(.., dayfirst=True, errors='coerce')] on one cell;
    [None] is [NaT]. *)
Variable to_datetime : cell -> option date.
(** [OrdinaryKriging(x, y, values, variogram_model).execute('grid', gx, gy)] *)
Variable kriging :
  string -> list Q -> list Q -> list cell -> list Q -> list Q ->
  outcome matrix.
(** [Rbf(x, y, values, function='multiquadric')] evaluated on the mesh of
    [gx] and [gy]. *)
Variable rbf :
  list Q -> list Q -> list cell -> list Q -> list Q -> outcome matrix.
(** The resampling of GDAL's [RasterIO], by which [dst.write] fills a band
    of [h] rows and [w] columns from an array of another shape. *)
Variable resample : nat -> nat -> array -> matrix.

(** The body of the [try]; falling off the end of the [if]/[elif] chain
    returns [None]. *)
Definition interpolation_body (cfg : config) (g : grid)
    (coords : list (Q * Q)) (values : list cell)
  : outcome (option matrix) :=
  let method := interpolation_method cfg in
  if String.eqb method "kriging" then
    z ← kriging (variogram_model cfg) (map fst coords) (map snd coords)
          values (grid_lon g) (grid_lat g);
    Returned (Some z)
  else if String.eqb method "rbf" then
    z ← rbf (map fst coords) (map snd coords) values
          (grid_lon g) (grid_lat g);
    Returned (Some z)
  else if String.eqb method "idw" then
    floats ← traverse as_float values;
    (if (length coords =? length floats)%nat
     then Returned (Some (idw g coords floats))
     else Raised "ValueError")
  else Returned None.

(** [except Exception: return None] *)
Definition perform_interpolation (cfg : config) (g : grid)
    (coords : list (Q * Q)) (values : list cell)
  : outcome (option matrix) :=
  match interpolation_body cfg g coords values with
  | Returned z => Returned z
  | Raised _ => Returned None
  end.


(** *** Step 1: loading (lines 52-83) *)

Record dataset := Dataset {
  available_vars : list string;
  uganda_clean : list record
}.

Definition is_uganda (row : gmap string cell) : bool :=
  match row !! "country" with
  | Some (Str s) => String.eqb s "Uganda"
  | _ => false
  end.

(** [dropna(subset=['lat', 'lon'])], the date conversion with
    [dropna(subset=['date'])], and the [:.3f] formatting of the extreme
    coordinates, which raises when a remaining coordinate is a string. *)
Definition clean_row (row : gmap string cell) : outcome (option record) :=
  match row !! "lat", row !! "lon" with
  | Some lat, Some lon =>
      match row !! "date" ≫= to_datetime with
      | Some d =>
          match lat, lon with
          | Num la, Num lo => Returned (Some (Rec la lo d row))
          | _, _ => Raised "ValueError"
          end
      | None => Returned None
      end
  | _, _ => Returned None
  end.

Definition has_column (df : table) (col : string) : bool :=
  bool_decide (col ∈ columns df).

(** The body of the [try] of step 1; [input] is what [pd.read_csv] finds
    at [input_csv] ([None]: no readable file). *)
Definition load (input : option table) : outcome dataset :=
  df ← require input "FileNotFoundError";
  if negb (has_column df "country") then Raised "KeyError"
  else
    let uganda_df := List.filter is_uganda (rows df) in
    let available := List.filter (has_column df) target_variables in
    if negb (forallb (has_column df) ["id"; "country"; "lat"; "lon"; "date"])
    then Raised "KeyError"
    else
      cleaned ← traverse clean_row uganda_df;
      Returned (Dataset available (omap id cleaned)).

(** *** Step 2: one day of one variable (lines 175-224) *)

Record interpolation_log := Log {
  log_variable : string;
  successful_interpolations : nat;
  failed_interpolations : nat;
  daily_files : list string
}.

(** What the loop over the days updates: the output directory, the
    variable's log and [daily_raster_files]. *)
Record day_state := DayState {
  ds_fs : gmap string raster;
  ds_log : interpolation_log;
  ds_files : list string
}.

Definition count_failure (st : day_state) : day_state :=
  let log := ds_log st in
  DayState (ds_fs st)
    (Log (log_variable log) (successful_interpolations log)
       (S (failed_interpolations log)) (daily_files log))
    (ds_files st).

Definition count_success (st : day_state) (output_file : string)
    (r : raster) : day_state :=
  let log := ds_log st in
  DayState (<[output_file := r]> (ds_fs st))
    (Log (log_variable log) (S (successful_interpolations log))
       (failed_interpolations log) (daily_files log ++ [output_file]))
    (ds_files st ++ [output_file]).

Definition daily_file (variable : string) (d : date) : string :=
  join output_dir ("uganda_" +:+ variable +:+ "_daily_" +:+ date_str d +:+ ".tif").

(** Lines 198-216: the single-band GeoTIFF of one day. *)
Definition encode (g : grid) (z : matrix) (variable : string) (d : date)
  : outcome raster :=
  west ← require (Np.amin (grid_lon g)) "ValueError";
  south ← require (Np.amin (grid_lat g)) "ValueError";
  east ← require (Np.amax (grid_lon g)) "ValueError";
  north ← require (Np.amax (grid_lat g)) "ValueError";
  Returned {| height := length (grid_lat g);
              width := length (grid_lon g);
              transform := from_bounds west south east north
                             (length (grid_lon g)) (length (grid_lat g));
              bands := [z];
              descriptions :=
                ["Uganda " +:+ variable +:+ " - " +:+ date_str d] |}.

Definition cell_of (variable : string) (r : record) : option cell :=
  r_vals r !! variable.

(** One iteration of [for day_idx, date in enumerate(selected_dates)].  The
    rows of [valid_data] all carry a value of [variable], so [values] is as
    long as [coords]. *)

Definition process_day (cfg : config) (g : grid) (variable : string)
    (valid_data : list record) (st : day_state) (d : date) : day_state :=
  let daily_data := List.filter (fun r => date_eqb (r_date r) d) valid_data in
  if (length daily_data <? 5)%nat then count_failure st
  else
    let coords := map (fun r => (r_lon r, r_lat r)) daily_data in
    let values := omap (cell_of variable) daily_data in
    let attempt : outcome (option raster) :=
      z ← perform_interpolation cfg g coords values;
      match z with
      | None => Returned None
      | Some z => r ← encode g z variable d; Returned (Some r)
      end in
    match attempt with
    | Returned (Some r) => count_success st (daily_file variable d) r
    | Returned None => count_failure st
    | Raised _ => count_failure st
    end.

(** *** Geostack assembly (lines 236-251 and 323-347) *)

(** One iteration of [for i, raster_file in enumerate(files, 1)]. *)
Definition stack_step (geostack_file : string) (describe : string -> string)
    (fs : gmap string raster) (item : nat * string)
  : outcome (gmap string raster) :=
  let '(i, raster_file) := item in
  src ← open_ fs raster_file;
  data ← read1 src;
  dst ← open_ fs geostack_file;
  dst' ← write_band resample dst i data (describe raster_file);
  Returned (<[geostack_file := dst']> fs).

Definition assemble (geostack_file : string) (describe : string -> string)
    (fs : gmap string raster) (files : list string)
  : outcome (gmap string raster) :=
  match files with
  | [] => Returned fs
  | first :: _ =>
      template ← open_ fs first;
      foldM (stack_step geostack_file describe) (enumerate 1 files)
        (create fs geostack_file template (length files))
  end.

(** [os.path.basename(f).split('_daily_')[-1].replace('.tif', '')] *)
Definition date_of_file (raster_file : string) : string :=
  replace ".tif" "" (last_piece (split "_daily_" (basename raster_file))).

Definition variable_geostack_file (variable : string) : string :=
  join output_dir ("uganda_" +:+ variable +:+ "_geostack.tif").

(** *** Steps 2-4 for one variable (lines 95-312) *)

Record run_state := RunState {
  fs : gmap string raster;
  variables_processed : list string;
  processing_results : gmap string interpolation_log
}.

Definition has_value (variable : string) (r : record) : bool :=
  bool_decide (is_Some (r_vals r !! variable)).

(** [sorted(valid_data['date'].dt.date.unique())] *)
Definition unique_dates (valid_data : list record) : list date :=
  merge_sort (fun d1 d2 => date_leb d1 d2)
    (distinct date_eqb (map r_date valid_data)).

(** The plots of step 4 are files of another kind and are left out. *)
Definition process_variable (cfg : config) (clean : list record)
    (st : run_state) (variable : string) : outcome run_state :=
  let valid_data := List.filter (has_value variable) clean in
  if (length valid_data <? 10)%nat then Returned st
  else
    g ← build_grid cfg valid_data;
    let dates := unique_dates valid_data in
    let selected_dates := take (max_days_per_variable cfg) dates in
    let days :=
      fold_left (process_day cfg g variable valid_data) selected_dates
        (DayState (fs st) (Log variable 0 0 []) []) in
    fs' ← assemble (variable_geostack_file variable)
            (fun raster_file => variable +:+ " - " +:+ date_of_file raster_file)
            (ds_fs days) (ds_files days);
    Returned (RunState fs'
                (variables_processed st ++ [variable])
                (<[variable := ds_log days]> (processing_results st))).

(** *** Step 5: the multi-variable geostack and its catalog
    (lines 317-372) *)

(** [fnmatch(name, 'uganda_*_daily_*.tif')] *)
Definition fnmatch_daily (name : string) : bool :=
  String.prefix "uganda_" name && endswith ".tif" name
  && contains "_daily_" (String.substring 7 (String.length name - 11) name).

(** [sorted(glob(os.path.join(output_dir, 'uganda_*_daily_*.tif')))] *)
Definition glob_daily (fs : gmap string raster) : list string :=
  merge_sort (fun p1 p2 => String.leb p1 p2)
    (List.filter
       (fun p => String.eqb (dirname p) output_dir && fnmatch_daily (basename p))
       (map fst (map_to_list fs))).

Definition multi_geostack_file : string :=
  join output_dir "uganda_all_variables_geostack.tif".

(** Lines 334-342: the band description of the multi-variable stack. *)
Definition multi_description (raster_file : string) : string :=
  let filename := basename raster_file in
  let parts :=
    split "_" (replace ".tif" "" (replace "_daily_" "_"
                                    (replace "uganda_" "" filename))) in
  match parts with
  | variable :: d :: _ => variable +:+ " - " +:+ d
  | _ => filename
  end.

Record band_entry := BandEntry {
  band_number : nat;
  filename : string;
  variable : string;
  date_field : string
}.

(** The catalog dictionary without its time stamp; [variables] is the
    list of a set, whose order is not specified. *)
Record catalog := Catalog {
  catalog_geostack_file : string;
  total_bands : nat;
  variables : list string;
  band_catalog : list band_entry
}.

(** [os.path.basename(f).split('_')[1]] *)
Definition variable_of_file (f : string) : outcome string :=
  index (split "_" (basename f)) 1.

(** One element of the comprehension over [enumerate(all_daily_rasters)]. *)
Definition catalog_entry (item : nat * string) : outcome band_entry :=
  let '(i, f) := item in
  v ← variable_of_file f;
  d ← index (split "_daily_" (basename f)) 1;
  Returned (BandEntry (i + 1) (basename f) v (replace ".tif" "" d)).

Definition build_catalog (all_daily_rasters : list string) : outcome catalog :=
  vars ← traverse variable_of_file all_daily_rasters;
  entries ← traverse catalog_entry (enumerate 0 all_daily_rasters);
  Returned (Catalog multi_geostack_file (length all_daily_rasters)
              (elements (list_to_set vars : gset string)) entries).

Definition create_multi_geostack (fs : gmap string raster)
  : outcome (gmap string raster * option catalog) :=
  let all_daily_rasters := glob_daily fs in
  match all_daily_rasters with
  | [] => Returned (fs, None)
  | _ :: _ =>
      fs' ← assemble multi_geostack_file multi_description fs all_daily_rasters;
      cat ← build_catalog all_daily_rasters;
      Returned (fs', Some cat)
  end.

(** *** The whole function *)

(** What a run leaves behind: the output directory, [results_summary]
    and the catalog, if one was written. *)
Record run_report := RunReport {
  final_fs : gmap string raster;
  total_records : nat;
  report_variables : list string;
  report_results : gmap string interpolation_log;
  report_catalog : option catalog
}.

Definition total_successful (rep : run_report) : nat :=
  map_fold (fun _ log acc => (successful_interpolations log + acc)%nat) 0%nat
    (report_results rep).

Definition total_failed (rep : run_report) : nat :=
  map_fold (fun _ log acc => (failed_interpolations log + acc)%nat) 0%nat
    (report_results rep).

(** [run_enhanced_uganda_analysis] under configuration [cfg], with
    [input] at [input_csv] and [fs0] in the output directory.  The
    result is the returned boolean and, when the steps after loading
    ran, what they left behind. *)
Definition run (cfg : config) (input : option table)
    (fs0 : gmap string raster) : outcome (bool * option run_report) :=
  match load input with
  | Raised _ => Returned (false, None)
  | Returned data =>
      st ← foldM (process_variable cfg (uganda_clean data))
             (available_vars data) (RunState fs0 [] ∅);
      '(fs', cat) ← create_multi_geostack (fs st);
      Returned (true,
                Some (RunReport fs' (length (uganda_clean data))
                        (variables_processed st) (processing_results st)
                        cat))
  end.

Definition run_enhanced_uganda_analysis :=
  run default_config.

End Pipeline.

End Enhanced.

(** ** float64 arithmetic, and the two IDW loops in it

    The numbers of numpy are binary64: an operation returns its exact
    result rounded to the nearest number with a significand of 53 bits,
    and to the one with an even significand when two are equally near.
    This module rounds that way over an unbounded exponent: overflow,
    underflow, infinities and NaN are outside the model.  It embeds the
    arithmetic of the two IDW loops a second time, every operation
    rounded as numpy rounds it. *)
Module F64.
Local Open Scope Q_scope.

(** [2 ** z] *)
Definition pow2 (z : Z) : Q := 2 ^ z.

(** The exponent [k] with [2 ** k <= x < 2 ** (k + 1)], for [0 < x]: the
    difference of the bit lengths of numerator and denominator, or one
    less. *)
Definition ilog2 (x : Q) : Z :=
  let k := (Z.log2 (Qnum x) - Z.log2 (Zpos (Qden x)))%Z in
  if Qle_bool (pow2 k) x then k else (k - 1)%Z.

(** The nearest integer, the even one of two that are equally near. *)
Definition round_half_even (x : Q) : Z :=
  let f := Qfloor x in
  match Qcompare (x - inject_Z f) (1 # 2) with
  | Lt => f
  | Gt => (f + 1)%Z
  | Eq => if Z.even f then f else (f + 1)%Z
  end.

(** The float64 nearest to [x]: [x] is scaled so that its integer part
    has 53 bits, rounded to an integer, and scaled back. *)
Definition rnd (x : Q) : Q :=
  if Qeq_bool x 0 then 0
  else
    let e := (ilog2 (Qabs x) - 52)%Z in
    inject_Z (round_half_even (x / pow2 e)) * pow2 e.


(** [x + y], [x - y], [x * y] and [x / y] on floats. *)
Definition fadd (x y : Q) : Q := rnd (x + y).
Definition fsub (x y : Q) : Q := rnd (x - y).
Definition fmul (x y : Q) : Q := rnd (x * y).
Definition fdiv (x y : Q) : Q := rnd (x / y).

(** [np.sqrt]: the square root rounded to the nearest float64.  With [x]
    scaled by a power of 4 so that the root has 53 bits before the point,
    [m] is the integer part of the root, and the root lies below or above
    [m + 1/2] as the scaled [x] lies below or above its square. *)
Definition fsqrt (x : Q) : Q :=
  if Qle_bool x 0 then 0
  else
    let e := (ilog2 x / 2 - 52)%Z in
    let t := x / pow2 (2 * e) in
    let m := Z.sqrt (Qfloor t) in
    let half := inject_Z m + (1 # 2) in
    let m' :=
      match Qcompare t (half * half) with
      | Lt => m
      | Gt => (m + 1)%Z
      | Eq => if Z.even m then m else (m + 1)%Z
      end in
    inject_Z m' * pow2 e.

(** The literal [1e-10]. *)
Definition tiny : Q := rnd (1 # 10000000000).

(** [np.sum] on an array of fewer than eight elements: one accumulator,
    the elements added in sequence.  On longer arrays numpy keeps eight
    accumulators and adds them pairwise, so the order of the additions
    depends on the length. *)
Definition np_sum (l : list Q) : Q :=
  match l with
  | [] => 0
  | a :: l' => fold_left fadd l' a
  end.

(** An order of additions: the numbers at the leaves, one rounded
    addition at every node. *)
Inductive tree :=
| Leaf (a : Q)
| Node (l r : tree).


Fixpoint eval (t : tree) : Q :=
  match t with
  | Leaf a => a
  | Node l r => fadd (eval l) (eval r)
  end.



Section IDW.
(** [np.sum] *)
Variable sum : list Q -> Q.

(** [np.sum(weights * values) / np.sum(weights)] *)
Definition weighted_average (weights values : list Q) : Q :=
  fdiv (sum (zip_with fmul weights values)) (sum weights).

(** The Euclidean distance between [(x, y)] and [(sx, sy)], as [cdist]
    and as [np.sqrt((..) ** 2 + (..) ** 2)] compute it. *)
Definition euclidean (x y sx sy : Q) : Q :=
  let dx := fsub x sx in
  let dy := fsub y sy in
  fsqrt (fadd (fmul dx dx) (fmul dy dy)).

(** [weights = 1 / (distances ** 2)] *)
Definition weights_of (distances : list Q) : list Q :=
  map (fun d => fdiv 1 (fmul d d)) distances.

(** Lines 165-167 of [run_enhanced_uganda_analysis.py]: the weights of
    the samples at the node [(glon, glat)]. *)
Definition enhanced_weights (coords : list (Q * Q)) (glon glat : Q)
  : list Q :=
  let distances :=
    map (fun '(lon, lat) =>
           let d := euclidean glon glat lon lat in
           if Qeq_bool d 0 then tiny else d) coords in
  weights_of distances.

(** Line 168. *)
Definition enhanced_idw_cell (coords : list (Q * Q)) (values : list Q)
    (glon glat : Q) : Q :=
  weighted_average (enhanced_weights coords glon glat) values.

(** Lines 162-169. *)
Definition enhanced_idw (g : Enhanced.grid) (coords : list (Q * Q))
    (values : list Q) : matrix :=
  map (fun glat => map (fun glon => enhanced_idw_cell coords values glon glat)
                     (Enhanced.grid_lon g)) (Enhanced.grid_lat g).




End IDW.


End F64.

(** ** Vocabulary of the statements *)
Module Spec.

(** [x] is the last element of [l] that satisfies [p]. *)
Definition last_match {A : Type} (p : A -> bool) (l : list A) (x : A) : Prop :=
  exists pre post,
    l = pre ++ x :: post /\ p x = true /\ Forall (fun y => p y = false) post.

(** A column that the detector can take for the longitude: it matches a
    longitude pattern and no latitude pattern. *)
Definition lon_only (col : string) : bool :=
  negb (App.is_lat col) && App.is_lon col.

(** Every raster of the directory has a first band. *)
Definition readable (fs : gmap string Enhanced.raster) : Prop :=
  forall path r, fs !! path = Some r -> Enhanced.bands r <> [].

(** What holds of the state of the loop over the days of [variable]: the
    directory is readable and [daily_raster_files] lists files that are in
    it, each named after the variable and a day. *)
Definition day_inv (variable : string) (st : Enhanced.day_state) : Prop :=
  readable (Enhanced.ds_fs st)
  /\ forall f, In f (Enhanced.ds_files st) ->
               is_Some (Enhanced.ds_fs st !! f)
               /\ exists d, f = Enhanced.daily_file variable d.

End Spec.

(** ** Concrete inputs used by the examples of Part II *)
Module Examples.
Import Enhanced.
Local Open Scope Q_scope.

Definition day1 : date := Date 2024 1 15.

(** A row of [uganda_clean] that carries a value of [NDVI]. *)
Definition ndvi_row (lat lon v : Q) (d : date) : record :=
  Rec lat lon d {[ "NDVI" := Num v ]}.

(** Scenario D: samples fifty degrees apart at a cell size of 0.005. *)
Definition scenario_d : list record :=
  [ndvi_row 0 0 1 day1; ndvi_row 50 50 2 day1].

(** Samples that share one latitude. *)
Definition flat_latitude : list record :=
  [ndvi_row 1 0 1 day1; ndvi_row 1 (1 # 100) 2 day1].

(** Samples with extent on both axes. *)
Definition small_square : list record :=
  [ndvi_row 0 0 1 day1; ndvi_row (1 # 100) (1 # 100) 2 day1].

(** The configuration with inverse distance weighting selected. *)
Definition idw_config : config :=
  Config 30 "idw" (5 # 1000) "spherical" (2 # 10).

(** Stand-ins for the libraries where they are not called. *)
Definition no_kriging
  : string -> list Q -> list Q -> list cell -> list Q -> list Q ->
    outcome matrix :=
  fun _ _ _ _ _ _ => Raised "unavailable".
Definition no_rbf
  : list Q -> list Q -> list cell -> list Q -> list Q -> outcome matrix :=
  fun _ _ _ _ _ => Raised "unavailable".
(** A resampler that keeps the upper left value of the array, for runs in
    which the library does not matter. *)
Definition no_resample : nat -> nat -> array -> matrix :=
  fun h w data =>
    replicate h (replicate w (default 0 (Np.at_ (a_values data) 0 0))).
Definition no_app_kriging
  : string -> list Q -> list Q -> list Q -> list Q -> list Q ->
    outcome matrix :=
  fun _ _ _ _ _ _ => Raised "unavailable".

(** A numeric column with twelve values, six of them distinct, and one
    missing value. *)
Definition twelve_values : list (option Q) :=
  [Some 1; Some 2; Some 3; Some 4; Some 5; Some 6; None;
   Some 1; Some 2; Some 3; Some 4; Some 5; Some (12 # 2)].

(** A numeric column with two values and eleven missing ones. *)
Definition two_values_of_twelve : list (option Q) :=
  [Some 40; None; None; None; None; None; None;
   None; None; None; None; None; Some 55].

(** A table of thirteen rows with a column of text and a numeric column of
    twelve values. *)
Definition dense_table : list (string * App.series) :=
  [("site"%string, App.ObjSeries (replicate 13 (Some "a"%string)));
   ("pm25"%string, App.NumSeries twelve_values)].

(** The same table with one more numeric column, of two values. *)
Definition sparse_table : list (string * App.series) :=
  dense_table ++ [("ozone"%string, App.NumSeries two_values_of_twelve)].

(** A configuration whose method is none of the three known names. *)
Definition nearest_config : config :=
  Config 30 "nearest" (5 # 1000) "spherical" (2 # 10).

(** A date parser that reads every string as [day1]. *)
Definition parse_day1 (c : cell) : option date :=
  match c with Str _ => Some day1 | Num _ => None end.

Definition csv_row (id lat lon v : Q) : gmap string cell :=
  {[ "id" := Num id; "country" := Str "Uganda"; "lat" := Num lat;
     "lon" := Num lon; "date" := Str "15/01/2024"; "NDVI" := Num v ]}.

Definition csv_columns : list string :=
  ["id"; "country"; "lat"; "lon"; "date"; "NDVI"].

(** Scenario B: three samples of one variable. *)
Definition three_points : table :=
  Table csv_columns
    [csv_row 1 0 0 (1 # 2); csv_row 2 (1 # 100) 0 (1 # 3);
     csv_row 3 0 (1 # 100) (1 # 4)].

(** A single-band raster of one pixel. *)
Definition pixel (v : Q) : raster :=
  Raster 1 1 (from_bounds 0 0 1 1 1 1) [[[v]]] ["pixel"].

(** An output directory with the rasters of two variables. *)
Definition two_rasters : gmap string raster :=
  {[ join output_dir "uganda_pm25_daily_2024-01-15.tif" := pixel 7;
     join output_dir "uganda_NDVI_daily_2024-01-16.tif" := pixel 3 ]}.

(** The same directory when the raster of [pm25] has two rows and two
    columns: the two variables were written on grids of different sizes. *)
Definition two_sizes : gmap string raster :=
  {[ join output_dir "uganda_pm25_daily_2024-01-15.tif" :=
       Raster 2 2 (from_bounds 0 0 1 1 2 2) [[[7; 8]; [9; 10]]]
         ["pm25 - 2024-01-15"];
     join output_dir "uganda_NDVI_daily_2024-01-16.tif" := pixel 3 ]}.

(** Ten samples of one day: the value is 1 along the southern edge
    (latitude 0) and 9 along the northern edge (latitude 0.01). *)
Definition south_north : table :=
  Table csv_columns
    [csv_row 1 0 0 1; csv_row 2 0 (2 # 1000) 1; csv_row 3 0 (4 # 1000) 1;
     csv_row 4 0 (6 # 1000) 1; csv_row 5 0 (1 # 100) 1;
     csv_row 6 (1 # 100) 0 9; csv_row 7 (1 # 100) (2 # 1000) 9;
     csv_row 8 (1 # 100) (4 # 1000) 9; csv_row 9 (1 # 100) (6 # 1000) 9;
     csv_row 10 (1 # 100) (1 # 100) 9].

(** The [(lon, lat)] pairs and the values of these samples. *)
Definition south_north_coords : list (Q * Q) :=
  [(0, 0); (2 # 1000, 0); (4 # 1000, 0); (6 # 1000, 0); (1 # 100, 0);
   (0, 1 # 100); (2 # 1000, 1 # 100); (4 # 1000, 1 # 100);
   (6 # 1000, 1 # 100); (1 # 100, 1 # 100)].
Definition south_north_values : list Q := [1; 1; 1; 1; 1; 9; 9; 9; 9; 9].

(** The value returned by a run, and a raster it left in the output
    directory. *)
Definition returned_flag (out : outcome (bool * option run_report))
  : option bool :=
  match out with Returned (b, _) => Some b | Raised _ => None end.

Definition written_raster (out : outcome (bool * option run_report))
    (path : string) : option raster :=
  match out with
  | Returned (_, Some rep) => final_fs rep !! path
  | _ => None
  end.

(** The multi-variable stack and the catalog rows left by step 5. *)
Definition stack_and_catalog
    (out : outcome (gmap string raster * option catalog))
  : option (list matrix * list (nat * string * string * string)) :=
  match out with
  | Returned (fs', Some cat) =>
      stack ← fs' !! multi_geostack_file;
      Some (bands stack,
            map (fun e => (band_number e, filename e, variable e, date_field e))
              (band_catalog cat))
  | _ => None
  end.

Definition two_coords : list (Q * Q) := [(0, 0); (1, 1)].
Definition two_values : list Q := [3; 5].
Definition unit_grid : grid := Grid [0; 1] [0; 1].

End Examples.

(** ** [src/app.py]: the other routes *)
Module Routes.
Import PyStr.
Local Open Scope Q_scope.

(** *** [csv_info]: the candidate columns (lines 103-105) *)

Definition lat_terms : list string := ["lat"; "y"; "northing"].
Definition lon_terms : list string := ["lon"; "lng"; "x"; "easting"].
Definition date_terms : list string :=
  ["date"; "time"; "day"; "month"; "year"].

(** [[col for col in df.columns if any(term in col.lower() for term in terms)]] *)
Definition candidates (terms columns : list string) : list string :=
  List.filter (fun col => any_in terms (lower col)) columns.

(** The dictionary ['auto_detected'] of the response. *)
Record auto_detected := AutoDetected {
  lat_candidates : list string;
  lon_candidates : list string;
  date_candidates : list string
}.

Definition csv_info_auto_detected (columns : list string) : auto_detected :=
  AutoDetected (candidates lat_terms columns) (candidates lon_terms columns)
    (candidates date_terms columns).

(** *** [variable_selection]: variables and coordinate candidates
    (lines 160-182) *)

(** An entry of [numeric_variables]; the percentages and the summary
    statistics are left out. *)
Record numeric_variable := NumericVariable {
  nv_name : string;
  nv_data_points : nat
}.

(** The dictionary [coordinate_candidates]. *)
Record coordinate_candidates := CoordinateCandidates {
  cand_latitude : list string;
  cand_longitude : list string
}.

Definition selection_lat_terms : list string := ["lat"; "latitude"; "y"].
Definition selection_lon_terms : list string :=
  ["lon"; "longitude"; "long"; "x"].

(** One iteration of [for col, info in column_info.items()]; the columns of
    a table read by pandas have distinct names, so the dictionary iterates
    over them in table order. *)
Definition selection_step
    (acc : list numeric_variable * coordinate_candidates)
    (item : string * App.series)
  : list numeric_variable * coordinate_candidates :=
  let '(col, col_data) := item in
  let '(numeric_variables, cands) := acc in
  if App.is_numeric_dtype col_data then
    let numeric_variables :=
      numeric_variables ++ [NumericVariable col (App.count col_data)] in
    let col_lower := lower col in
    if any_in selection_lat_terms col_lower then
      (numeric_variables,
       CoordinateCandidates (cand_latitude cands ++ [col]) (cand_longitude cands))
    else if any_in selection_lon_terms col_lower then
      (numeric_variables,
       CoordinateCandidates (cand_latitude cands) (cand_longitude cands ++ [col]))
    else (numeric_variables, cands)
  else acc.

(** The fields ['variables'] and ['coordinates'] of the response. *)
Definition variable_selection (df : list (string * App.series))
  : list numeric_variable * coordinate_candidates :=
  fold_left selection_step df ([], CoordinateCandidates [] []).

(** *** [get_all_variables]: the coordinate columns (lines 555-576) *)

Record coordinate_column := CoordinateColumn {
  cc_name : string;
  cc_type : string;
  cc_range : Q * Q
}.

Definition coordinate_terms : list string :=
  ["lat"; "lon"; "x"; "y"; "north"; "east"].

(** ['latitude' if 'lat' in col_lower else 'longitude' if 'lon' in col_lower
    else 'coordinate'] *)
Definition coordinate_type (col_lower : string) : string :=
  if contains "lat" col_lower then "latitude"
  else if contains "lon" col_lower then "longitude"
  else "coordinate".

(** [-90 <= clean_data.min() <= 90 and -180 <= clean_data.max() <= 180] *)
Definition looks_like_coordinates (lo hi : Q) : bool :=
  Qle_bool (-90) lo && Qle_bool lo 90 && Qle_bool (-180) hi && Qle_bool hi 180.

(** What one column adds to [coordinate_columns]. *)
Definition coordinate_entry (col : string) (col_data : App.series)
  : option coordinate_column :=
  match col_data with
  | App.NumSeries d =>
      let clean_data := App.dropna d in
      match Np.amin clean_data, Np.amax clean_data with
      | Some lo, Some hi =>
          let col_lower := lower col in
          let is_coordinate := any_in coordinate_terms col_lower in
          if is_coordinate || looks_like_coordinates lo hi
          then Some (CoordinateColumn col (coordinate_type col_lower) (lo, hi))
          else None
      | _, _ => None
      end
  | App.ObjSeries _ => None
  end.

(** The list [coordinate_columns] when the loop over the columns ends. *)
Definition collect_coordinate_columns (df : list (string * App.series))
  : list coordinate_column :=
  omap (fun '(col, col_data) => coordinate_entry col col_data) df.

(** The field ['coordinate_columns'] of the response: the three lists are
    encoded by one call of [jsonify], so there is no such field when the
    route answers 500. *)
Definition coordinate_columns (df : list (string * App.series))
  : App.response (list coordinate_column) :=
  match App.get_all_variables df with
  | App.Ok _ => App.Ok (collect_coordinate_columns df)
  | App.ServerError => App.ServerError
  end.

(** *** [process_csv] (lines 196-240) *)

(** [df.dropna(how='all')]: the rows with a value in some column. *)
Definition has_some_value (columns : list string)
    (row : gmap string Enhanced.cell) : bool :=
  existsb (fun col => bool_decide (is_Some (row !! col))) columns.

Definition dropna_all (df : Enhanced.table) : Enhanced.table :=
  Enhanced.Table (Enhanced.columns df)
    (List.filter (has_some_value (Enhanced.columns df)) (Enhanced.rows df)).

(** The JSON body of the answer; of ['info'] and ['summary'] only the
    shape is kept. *)
Inductive process_result :=
| InfoResult (n_rows n_columns : nat) (columns : list string)
| SummaryResult (n_rows n_columns : nat)
| ExportResult (original_rows cleaned_rows : nat) (output_file : string)
| ErrorResult (msg : string).

(** [data] is what [DATA_DIR] holds, [outputs] what [OUTPUTS_DIR] holds;
    the result is the HTTP status, the body and the new [OUTPUTS_DIR]. *)
Definition process_csv (filename operation : string)
    (data outputs : gmap string Enhanced.table)
  : nat * process_result * gmap string Enhanced.table :=
  match data !! filename with
  | None => (404%nat, ErrorResult "File not found", outputs)
  | Some df =>
      let n_rows := length (Enhanced.rows df) in
      let n_columns := length (Enhanced.columns df) in
      if String.eqb operation "info" then
        (200%nat, InfoResult n_rows n_columns (Enhanced.columns df), outputs)
      else if String.eqb operation "summary" then
        (200%nat, SummaryResult n_rows n_columns, outputs)
      else if String.eqb operation "export_clean" then
        let df_clean := dropna_all df in
        let output_file := "cleaned_" +:+ filename in
        (200%nat,
         ExportResult n_rows (length (Enhanced.rows df_clean)) output_file,
         <[output_file := df_clean]> outputs)
      else (200%nat, ErrorResult "Unknown operation", outputs)
  end.

(** *** [run_interpolation]: the request handler (lines 248-401)

    The interpolation libraries are taken to be installed, so the imports
    at the head of the [try] succeed.  The error messages are kept without
    their variable part. *)

(** The JSON body of the request, the defaults of [variables], [method]
    and [resolution] applied; for the three names an absent key and
    [null] are [None]. *)
Record request := Request {
  rq_filename : option string;
  rq_lat_column : option string;
  rq_lon_column : option string;
  rq_variables : list string;
  rq_method : string;
  rq_resolution : Z
}.

(** Truthiness of an optional string: [None] and [''] are falsy. *)
Definition given (o : option string) : bool :=
  match o with Some s => truthy s | None => false end.

(** A table read by [pd.read_csv] all of whose columns have a numeric
    dtype; a missing value is the absence of the key in the row. *)
Record frame := Frame {
  fr_columns : list string;
  fr_rows : list (gmap string Q)
}.

Definition has (col : string) (row : gmap string Q) : bool :=
  bool_decide (is_Some (row !! col)).

(** The coordinates and the value of a row of [var_data]. *)
Definition to_sample (lat_column lon_column variable : string)
    (row : gmap string Q) : option App.sample :=
  la ← row !! lat_column;
  lo ← row !! lon_column;
  v ← row !! variable;
  Some (App.Sample la lo v).

(** An entry of [results]. *)
Inductive entry :=
| EntryError (msg : string)
| EntrySuccess (n_points : nat) (value_range : Q * Q) (method_used : string)
    (output_file : string) (grid_bounds : Q * Q * Q * Q).

(** A single-band GeoTIFF of [OUTPUTS_DIR]. *)
Record geotiff := GeoTiff {
  gt_height : Z;
  gt_width : Z;
  gt_bounds : Q * Q * Q * Q;
  gt_band : matrix
}.

(** What the loop over the variables updates. *)
Record loop_state := LoopState {
  ls_results : gmap string entry;
  ls_output_files : list string;
  ls_outputs : gmap string geotiff
}.

(** The answer: an error with its HTTP status, or the body of status 200
    with the coordinate columns of [config]. *)
Inductive reply :=
| ErrorReply (status : nat) (msg : string)
| Completed (results : gmap string entry) (output_files : list string)
    (lat_column lon_column : string).

(** [dst.write(interpolated, 1)] accepts an array of the declared size. *)
Definition shape_ok (z : matrix) (resolution : Z) : bool :=
  (Z.of_nat (length z) =? resolution)%Z
  && forallb (fun row => (Z.of_nat (length row) =? resolution)%Z) z.

Section Handler.
(** [OrdinaryKriging(x, y, values, variogram_model).execute('grid', gx, gy)] *)
Variable kriging :
  string -> list Q -> list Q -> list Q -> list Q -> list Q -> outcome matrix.
(** [str(uuid.uuid4())[:8]] as drawn in the iteration of the [i]-th
    variable. *)
Variable run_id : nat -> string.

(** [f"{filename.replace('.csv', '')}_{variable}_{run_id}.tif"] *)
Definition output_name (filename variable : string) (i : nat) : string :=
  replace ".csv" "" filename +:+ "_" +:+ variable +:+ "_" +:+ run_id i +:+ ".tif".

(** One iteration of [for variable in config['variables']]; an exception
    that escapes the inner [try] is [Raised]. *)
Definition handle_variable (filename method : string) (resolution : Z)
    (lat_column lon_column : string) (columns : list string)
    (df_clean : list (gmap string Q)) (st : loop_state) (item : nat * string)
  : outcome loop_state :=
  let '(i, variable) := item in
  if negb (bool_decide (variable ∈ columns)) then Returned st
  else
    let var_data := List.filter (has variable) df_clean in
    let samples := omap (to_sample lat_column lon_column variable) var_data in
    let values := map App.s_value samples in
    r ← App.interpolate_variable kriging method resolution samples;
    let failed msg :=
      LoopState (<[variable := EntryError msg]> (ls_results st))
        (ls_output_files st) (ls_outputs st) in
    match r with
    | App.VarError msg => Returned (failed msg)
    | App.VarSuccess method_used interpolated bounds =>
        let output_file := output_name filename variable i in
        if shape_ok interpolated resolution then
          match Np.amin values, Np.amax values with
          | Some lo, Some hi =>
              Returned
                (LoopState
                   (<[variable :=
                        EntrySuccess (length values) (lo, hi) method_used
                          output_file bounds]> (ls_results st))
                   (ls_output_files st ++ [output_file])
                   (<[output_file :=
                        GeoTiff resolution resolution bounds interpolated]>
                      (ls_outputs st)))
          | _, _ => Returned (failed "ValueError")
          end
        else Returned (failed "ValueError")
    end.

(** The loop; an escaping exception ends it and keeps what was written. *)
Fixpoint handle_all (filename method : string) (resolution : Z)
    (lat_column lon_column : string) (columns : list string)
    (df_clean : list (gmap string Q)) (items : list (nat * string))
    (st : loop_state) : loop_state * option string :=
  match items with
  | [] => (st, None)
  | item :: rest =>
      match handle_variable filename method resolution lat_column lon_column
              columns df_clean st item with
      | Returned st' =>
          handle_all filename method resolution lat_column lon_column columns
            df_clean rest st'
      | Raised e => (st, Some e)
      end
  end.

(** Lines 280-287: the coordinate columns of [config] after detection. *)
Definition coordinates_of (rq : request) (df : frame)
  : option (string * string) :=
  match rq_lat_column rq, rq_lon_column rq with
  | Some lat_column, Some lon_column =>
      if truthy lat_column && truthy lon_column
      then Some (lat_column, lon_column)
      else option_map (fun c => (App.latitude c, App.longitude c))
             (App.detect_coordinate_columns (fr_columns df))
  | _, _ =>
      option_map (fun c => (App.latitude c, App.longitude c))
        (App.detect_coordinate_columns (fr_columns df))
  end.

(** [data] is what [DATA_DIR] holds and [outputs] what [OUTPUTS_DIR]
    holds; the result is the answer and the new [OUTPUTS_DIR]. *)
Definition run_interpolation (rq : request) (data : gmap string frame)
    (outputs : gmap string geotiff) : reply * gmap string geotiff :=
  match rq_filename rq with
  | None => (ErrorReply 400 "Missing filename parameter", outputs)
  | Some filename =>
      if negb (truthy filename)
      then (ErrorReply 400 "Missing filename parameter", outputs)
      else
        match rq_variables rq with
        | [] => (ErrorReply 400 "No variables selected for interpolation",
                 outputs)
        | _ :: _ =>
            match data !! filename with
            | None => (ErrorReply 500 "Interpolation failed", outputs)
            | Some df =>
                match coordinates_of rq df with
                | None =>
                    (ErrorReply 400 "Could not detect coordinate columns",
                     outputs)
                | Some (lat_column, lon_column) =>
                    if negb (bool_decide (lat_column ∈ fr_columns df))
                       || negb (bool_decide (lon_column ∈ fr_columns df))
                    then (ErrorReply 400 "Coordinate columns not found",
                          outputs)
                    else
                      let df_clean :=
                        List.filter
                          (fun row => has lat_column row && has lon_column row)
                          (fr_rows df) in
                      if (length df_clean <? 10)%nat
                      then (ErrorReply 400 "Insufficient coordinate data",
                            outputs)
                      else
                        let '(st, raised) :=
                          handle_all filename (rq_method rq)
                            (rq_resolution rq) lat_column lon_column
                            (fr_columns df) df_clean
                            (enumerate 0 (rq_variables rq))
                            (LoopState ∅ [] outputs) in
                        match raised with
                        | None =>
                            (Completed (ls_results st) (ls_output_files st)
                               lat_column lon_column,
                             ls_outputs st)
                        | Some _ =>
                            (ErrorReply 500 "Interpolation failed",
                             ls_outputs st)
                        end
                end
            end
        end
  end.

End Handler.

End Routes.

(** ** Vocabulary of the statements about the request handler *)
Module RouteSpec.
Local Open Scope Q_scope.

(** A raster of the declared size whose band has that size. *)
Definition raster_ok (resolution : Z) (t : Routes.geotiff) : Prop :=
  Routes.gt_height t = resolution
  /\ Routes.gt_width t = resolution
  /\ Routes.shape_ok (Routes.gt_band t) resolution = true.

(** What a success entry of [results] says, against the list of output
    files and the output directory. *)
Definition entry_ok (method : string) (resolution : Z)
    (output_files : list string) (outputs : gmap string Routes.geotiff)
    (e : Routes.entry) : Prop :=
  match e with
  | Routes.EntryError _ => True
  | Routes.EntrySuccess n_points value_range method_used output_file _ =>
      (10 <= n_points)%nat
      /\ fst value_range <= snd value_range
      /\ method_used = PyStr.lower method
      /\ In output_file output_files
      /\ exists t, outputs !! output_file = Some t /\ raster_ok resolution t
  end.

(** The checks that precede the loop over the variables. *)
Definition validated (rq : Routes.request) (data : gmap string Routes.frame)
    (lat_column lon_column : string) : Prop :=
  exists filename df,
    Routes.rq_filename rq = Some filename
    /\ filename <> ""%string
    /\ Routes.rq_variables rq <> []
    /\ data !! filename = Some df
    /\ Routes.coordinates_of rq df = Some (lat_column, lon_column)
    /\ lat_column ∈ Routes.fr_columns df
    /\ lon_column ∈ Routes.fr_columns df
    /\ (10 <= length (List.filter
                        (fun row => Routes.has lat_column row
                                    && Routes.has lon_column row)
                        (Routes.fr_rows df)))%nat.

End RouteSpec.

(** ** Vocabulary of the statements about file names *)
Module Names.

(** Every character of [s] satisfies [p]. *)
Fixpoint all_chars (p : ascii -> bool) (s : string) : bool :=
  match s with
  | EmptyString => true
  | String c s' => p c && all_chars p s'
  end.

(** A digit or a dash. *)
Definition date_char (c : ascii) : bool :=
  let n := nat_of_ascii c in
  ((48 <=? n)%nat && (n <=? 57)%nat) || (n =? 45)%nat.

Definition differs (c0 c : ascii) : bool := negb (Ascii.eqb c c0).

(** A character that the file name patterns do not look for. *)
Definition simple_char (c : ascii) : bool :=
  differs "/" c && differs "_" c && differs "." c && differs "u" c.

(** A variable name that can be read back from the name of its daily
    rasters. *)
Definition simple_name (v : string) : bool :=
  all_chars simple_char v && negb (String.eqb v "daily").

End Names.

(** ** Concrete inputs used by the examples of Part III *)
Module Samples.
Import Enhanced.
Local Open Scope Q_scope.

Definition day2 : date := Date 2024 1 16.

(** Rows of [uganda_clean] for one variable: ten samples on a first day,
    two on a second. *)
Definition two_days : list record :=
  [Examples.ndvi_row 0 0 1 Examples.day1;
   Examples.ndvi_row 0 (2 # 1000) 1 Examples.day1;
   Examples.ndvi_row 0 (4 # 1000) 1 Examples.day1;
   Examples.ndvi_row 0 (6 # 1000) 1 Examples.day1;
   Examples.ndvi_row 0 (1 # 100) 1 Examples.day1;
   Examples.ndvi_row (1 # 100) 0 9 Examples.day1;
   Examples.ndvi_row (1 # 100) (2 # 1000) 9 Examples.day1;
   Examples.ndvi_row (1 # 100) (4 # 1000) 9 Examples.day1;
   Examples.ndvi_row (1 # 100) (6 # 1000) 9 Examples.day1;
   Examples.ndvi_row (1 # 100) (1 # 100) 9 Examples.day1;
   Examples.ndvi_row 0 0 2 day2;
   Examples.ndvi_row (1 # 100) (1 # 100) 3 day2].

(** The state before the first variable, with an empty output directory. *)
Definition fresh : run_state := RunState ∅ [] ∅.

(** What loading makes of [Examples.three_points]. *)
Definition three_points_data : dataset :=
  Dataset ["NDVI"]
    [Rec 0 0 Examples.day1 (Examples.csv_row 1 0 0 (1 # 2));
     Rec (1 # 100) 0 Examples.day1 (Examples.csv_row 2 (1 # 100) 0 (1 # 3));
     Rec 0 (1 # 100) Examples.day1 (Examples.csv_row 3 0 (1 # 100) (1 # 4))].

(** A table with a row that has no value at all. *)
Definition with_empty_row : table :=
  Table ["site"; "pm25"]
    [{[ "site" := Str "a"; "pm25" := Num 12 ]}; ∅; {[ "pm25" := Num 7 ]}].

(** A table of ten sites with coordinates and [pm25]; the column [no2]
    has two values. *)
Definition site (lat lon v : Q) : gmap string Q :=
  {[ "lat" := lat; "lon" := lon; "pm25" := v ]}.

Definition ten_sites : Routes.frame :=
  Routes.Frame ["lat"; "lon"; "pm25"; "no2"]
    [<["no2" := 40]> (site 0 30 10); <["no2" := 41]> (site 0 31 12);
     site 0 32 14; site 1 30 16; site 1 31 18; site 1 32 20;
     site 2 30 22; site 2 31 24; site 2 32 26; site 3 31 28].

(** A request that names no coordinate column, with a method other than
    kriging and three nodes per axis. *)
Definition idw_request : Routes.request :=
  Routes.Request (Some "sites.csv") None None ["pm25"; "no2"; "ozone"] "IDW" 3.

Definition one_run_id (i : nat) : string := "0a1b2c3d".

(** The status, the keys of [results] with their kind, and the output
    files of an answer. *)
Definition summary (answer : Routes.reply * gmap string Routes.geotiff)
  : nat * list (string * bool) * list string :=
  match fst answer with
  | Routes.ErrorReply status _ => (status, [], [])
  | Routes.Completed results output_files _ _ =>
      (200%nat,
       map (fun v => (v, match results !! v with
                         | Some (Routes.EntrySuccess _ _ _ _ _) => true
                         | _ => false
                         end))
         (List.filter (fun v => bool_decide (is_Some (results !! v)))
            ["pm25"; "no2"; "ozone"]),
       output_files)
  end.

(** An input file without the [date] column. *)
Definition no_date : table :=
  Table ["id"; "country"; "lat"; "lon"; "NDVI"]
    [{[ "id" := Num 1; "country" := Str "Uganda"; "lat" := Num 0;
        "lon" := Num 0; "NDVI" := Num 1 ]}].

End Samples.

(** * Part II: properties *)

Local Open Scope Q_scope.

(** ** Extremes of an array *)

Lemma Qmin_cases (x y : Q) : Qmin x y = x \/ Qmin x y = y.
Proof.
  unfold Qmin, GenericMinMax.gmin. destruct (x ?= y); auto.
Qed.

Lemma Qmax_cases (x y : Q) : Qmax x y = x \/ Qmax x y = y.
Proof.
  unfold Qmax, GenericMinMax.gmax. destruct (x ?= y); auto.
Qed.

Lemma fold_min_le_init (l : list Q) (x : Q) : fold_left Qmin l x <= x.
Proof.
  revert x. induction l as [|y l IH]; intros x; simpl.
  - apply Qle_refl.
  - eapply Qle_trans; [apply IH | apply Q.le_min_l].
Qed.

Lemma fold_min_le_elem (l : list Q) (x y : Q) :
  In y l -> fold_left Qmin l x <= y.
Proof.
  revert x. induction l as [|z l IH]; intros x Hin; simpl in *.
  - contradiction.
  - destruct Hin as [-> | Hin].
    + eapply Qle_trans; [apply fold_min_le_init | apply Q.le_min_r].
    + apply IH, Hin.
Qed.

Lemma fold_min_In (l : list Q) (x : Q) : In (fold_left Qmin l x) (x :: l).
Proof.
  revert x. induction l as [|y l IH]; intros x; simpl.
  - auto.
  - destruct (IH (Qmin x y)) as [H | H].
    + destruct (Qmin_cases x y) as [E | E]; rewrite !E in H |- *; auto.
    + auto.
Qed.

Lemma fold_max_ge_init (l : list Q) (x : Q) : x <= fold_left Qmax l x.
Proof.
  revert x. induction l as [|y l IH]; intros x; simpl.
  - apply Qle_refl.
  - eapply Qle_trans; [apply Q.le_max_l | apply IH].
Qed.

Lemma fold_max_ge_elem (l : list Q) (x y : Q) :
  In y l -> y <= fold_left Qmax l x.
Proof.
  revert x. induction l as [|z l IH]; intros x Hin; simpl in *.
  - contradiction.
  - destruct Hin as [-> | Hin].
    + eapply Qle_trans; [apply Q.le_max_r | apply fold_max_ge_init].
    + apply IH, Hin.
Qed.

Lemma fold_max_In (l : list Q) (x : Q) : In (fold_left Qmax l x) (x :: l).
Proof.
  revert x. induction l as [|y l IH]; intros x; simpl.
  - auto.
  - destruct (IH (Qmax x y)) as [H | H].
    + destruct (Qmax_cases x y) as [E | E]; rewrite !E in H |- *; auto.
    + auto.
Qed.

Lemma amin_lower_bound (l : list Q) (m x : Q) :
  Np.amin l = Some m -> In x l -> m <= x.
Proof.
  destruct l as [|y l]; simpl; [discriminate|].
  intros [= <-] [-> | Hin].
  - apply fold_min_le_init.
  - apply fold_min_le_elem, Hin.
Qed.

Lemma amin_In (l : list Q) (m : Q) : Np.amin l = Some m -> In m l.
Proof.
  destruct l as [|y l]; simpl; [discriminate|].
  intros [= <-]. apply fold_min_In.
Qed.

Lemma amax_upper_bound (l : list Q) (m x : Q) :
  Np.amax l = Some m -> In x l -> x <= m.
Proof.
  destruct l as [|y l]; simpl; [discriminate|].
  intros [= <-] [-> | Hin].
  - apply fold_max_ge_init.
  - apply fold_max_ge_elem, Hin.
Qed.

Lemma amax_In (l : list Q) (m : Q) : Np.amax l = Some m -> In m l.
Proof.
  destruct l as [|y l]; simpl; [discriminate|].
  intros [= <-]. apply fold_max_In.
Qed.

Lemma amin_le_amax (l : list Q) (lo hi : Q) :
  Np.amin l = Some lo -> Np.amax l = Some hi -> lo <= hi.
Proof.
  intros Hlo Hhi. eapply amin_lower_bound; [exact Hlo|].
  apply amax_In, Hhi.
Qed.

Lemma amin_is_Some (l : list Q) : l <> [] -> exists m, Np.amin l = Some m.
Proof. destruct l; [congruence | simpl; eauto]. Qed.

Lemma amax_is_Some (l : list Q) : l <> [] -> exists m, Np.amax l = Some m.
Proof. destruct l; [congruence | simpl; eauto]. Qed.

(** ** [np.linspace] and [int] *)

Lemma py_int_nonneg (x : Q) : 0 <= x -> (0 <= Np.py_int x)%Z.
Proof.
  intros Hx. unfold Np.py_int. apply Z.quot_pos; [|lia].
  unfold Qle in Hx. simpl in Hx. lia.
Qed.

Lemma linspace_length (start stop : Q) (num : Z) :
  (0 <= num)%Z ->
  exists l, Np.linspace start stop num = Returned l
            /\ length l = Z.to_nat num.
Proof.
  intros Hnum. unfold Np.linspace.
  destruct (Z.ltb_spec num 0) as [Hneg | _]; [lia|].
  destruct (Z.to_nat num) as [|[|n]]; eexists; split; try reflexivity.
  rewrite length_app, length_map, length_seq. simpl. lia.
Qed.

Lemma linspace_single (start stop : Q) :
  Np.linspace start stop 1 = Returned [start].
Proof. reflexivity. Qed.

(** With at least two samples over a non-empty interval the samples start
    at [start], end at [stop] and stay in between. *)
Lemma linspace_range (start stop : Q) (num : Z) (l : list Q) :
  (2 <= num)%Z -> start < stop ->
  Np.linspace start stop num = Returned l ->
  (exists x rest, l = x :: rest /\ x == start)
  /\ In stop l
  /\ (forall x, In x l -> start <= x <= stop).
Proof.
  intros Hnum Hlt. unfold Np.linspace.
  destruct (Z.ltb_spec num 0) as [Hneg | _]; [lia|].
  destruct (Z.to_nat num) as [|[|n]] eqn:En; [lia | lia |].
  intros [= <-].
  set (div := S n). set (step := (stop - start) / inject_Z (Z.of_nat div)).
  assert (Hdiv : 0 < inject_Z (Z.of_nat div)).
  { replace 0 with (inject_Z 0) by reflexivity. rewrite <- Zlt_Qlt. lia. }
  assert (Hstep : 0 < step).
  { unfold step. apply Qlt_shift_div_l; [exact Hdiv | rewrite Qmult_0_l; lra]. }
  assert (Hfull : inject_Z (Z.of_nat div) * step == stop - start).
  { unfold step. field. lra. }
  split; [|split].
  - cbn [seq map app]. eexists _, _. split; [reflexivity|].
    change (inject_Z (Z.of_nat 0)) with 0. ring.
  - change (In stop (map (fun i => start + inject_Z (Z.of_nat i) * step)
                       (seq 0 div) ++ [stop])).
    apply in_or_app. right. left. reflexivity.
  - intros x Hx.
    change (In x (map (fun i => start + inject_Z (Z.of_nat i) * step)
                    (seq 0 div) ++ [stop])) in Hx.
    apply in_app_or in Hx. destruct Hx as [Hx | [<- | []]].
    + apply in_map_iff in Hx. destruct Hx as (i & <- & Hi).
      apply in_seq in Hi.
      assert (Hi0 : 0 <= inject_Z (Z.of_nat i)).
      { replace 0 with (inject_Z 0) by reflexivity. rewrite <- Zle_Qle. lia. }
      assert (Hidiv : inject_Z (Z.of_nat i) <= inject_Z (Z.of_nat div)).
      { rewrite <- Zle_Qle. lia. }
      assert (H1 : 0 <= inject_Z (Z.of_nat i) * step).
      { apply Qmult_le_0_compat; lra. }
      assert (H2 : inject_Z (Z.of_nat i) * step
                   <= inject_Z (Z.of_nat div) * step).
      { apply Qmult_le_compat_r; lra. }
      lra.
    + lra.
Qed.

Lemma linspace_extremes (start stop : Q) (num : Z) (l : list Q) :
  (2 <= num)%Z -> start < stop ->
  Np.linspace start stop num = Returned l ->
  exists lo hi, Np.amin l = Some lo /\ Np.amax l = Some hi
                /\ lo == start /\ hi == stop.
Proof.
  intros Hnum Hlt Hl.
  destruct (linspace_range _ _ _ _ Hnum Hlt Hl)
    as ((x & rest & -> & Hx) & Hstop & Hall).
  destruct (amin_is_Some (x :: rest)) as (lo & Hlo); [discriminate|].
  destruct (amax_is_Some (x :: rest)) as (hi & Hhi); [discriminate|].
  exists lo, hi. repeat split; try assumption.
  - pose proof (amin_lower_bound _ _ x Hlo (or_introl eq_refl)).
    pose proof (Hall lo (amin_In _ _ Hlo)). lra.
  - pose proof (amax_upper_bound _ _ stop Hhi Hstop).
    pose proof (Hall hi (amax_In _ _ Hhi)). lra.
Qed.

Lemma linspace_degenerate (start stop : Q) (num : Z) (l : list Q) :
  start == stop ->
  Np.linspace start stop num = Returned l ->
  forall x, In x l -> x == start.
Proof.
  intros Heq. unfold Np.linspace.
  destruct (num <? 0)%Z; [discriminate|].
  destruct (Z.to_nat num) as [|[|n]]; intros [= <-] x Hx.
  - destruct Hx.
  - destruct Hx as [<- | []]. reflexivity.
  - destruct Hx as [<- | Hx].
    { assert (E : stop - start == 0) by lra.
      unfold Qdiv. rewrite E. ring. }
    apply in_app_or in Hx. destruct Hx as [Hx | [<- | []]].
    + apply in_map_iff in Hx. destruct Hx as (i & <- & _).
      assert (E : stop - start == 0) by lra.
      unfold Qdiv. rewrite E. ring.
    + lra.
Qed.

(** ** Inversion of the exception monad *)

Lemma bind_Returned {A B : Type} (m : outcome A) (k : A -> outcome B) (b : B) :
  m ≫= k = Returned b -> exists a, m = Returned a /\ k a = Returned b.
Proof. destruct m as [a|e]; simpl; [eauto | discriminate]. Qed.

Lemma app_require_Returned {A : Type} (o : option A) (e : string) (a : A) :
  App.require o e = Returned a -> o = Some a.
Proof. destruct o; simpl; congruence. Qed.

Lemma require_Returned {A : Type} (o : option A) (e : string) (a : A) :
  Enhanced.require o e = Returned a -> o = Some a.
Proof. destruct o; simpl; congruence. Qed.

Ltac inv_bind H :=
  let a := fresh "a" in
  let Ha := fresh "H" a in
  apply bind_Returned in H; destruct H as (a & Ha & H).

(** ** The buffered axis of a grid *)

(** One axis of either grid builder: the interval [lo, hi] of the samples,
    widened by [f] times its length on each side and sampled [num] times. *)
Lemma buffered_axis (lo hi f : Q) (num : Z) (l : list Q) :
  0 < f -> lo <= hi ->
  Np.linspace (lo - (hi - lo) * f) (hi + (hi - lo) * f) num = Returned l ->
  (lo < hi -> (2 <= num)%Z ->
   exists a b, Np.amin l = Some a /\ Np.amax l = Some b /\ a < lo /\ hi < b)
  /\ (lo == hi -> forall x, In x l -> x == lo).
Proof.
  intros Hf Hle Hl. split.
  - intros Hlt Hnum.
    assert (Hbuf : 0 < (hi - lo) * f).
    { apply Qmult_lt_0_compat; lra. }
    assert (Hwide : lo - (hi - lo) * f < hi + (hi - lo) * f) by lra.
    destruct (linspace_extremes _ _ _ _ Hnum Hwide Hl)
      as (a & b & Ha & Hb & Ea & Eb).
    exists a, b. repeat split; try assumption; lra.
  - intros Heq x Hx.
    assert (Hbuf : (hi - lo) * f == 0).
    { assert (E : hi - lo == 0) by lra. rewrite E. ring. }
    assert (Hsame : lo - (hi - lo) * f == hi + (hi - lo) * f) by lra.
    assert (Hx' := linspace_degenerate _ _ _ _ Hsame Hl x Hx). lra.
Qed.

Lemma axis_count_Returned (lo hi buffer resolution : Q) (n : Z) :
  Enhanced.axis_count lo hi buffer resolution = Returned n ->
  n = Z.min (Np.py_int ((hi - lo + 2 * buffer) / resolution) + 1) 400.
Proof.
  unfold Enhanced.axis_count. destruct (Qeq_bool resolution 0); congruence.
Qed.

Lemma axis_count_range (lo hi buffer resolution : Q) :
  0 < resolution -> lo <= hi -> 0 <= buffer ->
  exists n, Enhanced.axis_count lo hi buffer resolution = Returned n
            /\ (1 <= n <= 400)%Z.
Proof.
  intros Hres Hle Hbuf. unfold Enhanced.axis_count.
  destruct (Qeq_bool resolution 0) eqn:E.
  { apply Qeq_bool_eq in E. lra. }
  eexists. split; [reflexivity|].
  assert (0 <= (hi - lo + 2 * buffer) / resolution).
  { apply Qle_shift_div_l; [exact Hres | rewrite Qmult_0_l; lra]. }
  pose proof (py_int_nonneg _ H). lia.
Qed.

Lemma linspace_Returned_length (start stop : Q) (num : Z) (l : list Q) :
  Np.linspace start stop num = Returned l ->
  (0 <= num)%Z /\ length l = Z.to_nat num.
Proof.
  intros Hl. destruct (Z.ltb_spec num 0) as [Hneg | Hpos].
  - unfold Np.linspace in Hl.
    destruct (Z.ltb_spec num 0); [discriminate | lia].
  - split; [exact Hpos|].
    destruct (linspace_length start stop num Hpos) as (l' & Hl' & Hlen).
    congruence.
Qed.

(** ** The grid of the enhanced pipeline *)

Lemma build_grid_inv (cfg : Enhanced.config) (valid_data : list Enhanced.record)
    (g : Enhanced.grid) :
  Enhanced.build_grid cfg valid_data = Returned g ->
  exists lat_min lat_max lon_min lon_max n_lat n_lon,
    Np.amin (map Enhanced.r_lat valid_data) = Some lat_min
    /\ Np.amax (map Enhanced.r_lat valid_data) = Some lat_max
    /\ Np.amin (map Enhanced.r_lon valid_data) = Some lon_min
    /\ Np.amax (map Enhanced.r_lon valid_data) = Some lon_max
    /\ Enhanced.axis_count lat_min lat_max
         ((lat_max - lat_min) * Enhanced.buffer_percent cfg)
         (Enhanced.grid_resolution cfg) = Returned n_lat
    /\ Enhanced.axis_count lon_min lon_max
         ((lon_max - lon_min) * Enhanced.buffer_percent cfg)
         (Enhanced.grid_resolution cfg) = Returned n_lon
    /\ Np.linspace (lat_min - (lat_max - lat_min) * Enhanced.buffer_percent cfg)
         (lat_max + (lat_max - lat_min) * Enhanced.buffer_percent cfg) n_lat
       = Returned (Enhanced.grid_lat g)
    /\ Np.linspace (lon_min - (lon_max - lon_min) * Enhanced.buffer_percent cfg)
         (lon_max + (lon_max - lon_min) * Enhanced.buffer_percent cfg) n_lon
       = Returned (Enhanced.grid_lon g).
Proof.
  unfold Enhanced.build_grid. intros H.
  inv_bind H. apply require_Returned in Ha.
  inv_bind H. apply require_Returned in Ha0.
  inv_bind H. apply require_Returned in Ha1.
  inv_bind H. apply require_Returned in Ha2.
  inv_bind H. inv_bind H. inv_bind H. inv_bind H.
  injection H as <-. simpl.
  exists a, a0, a1, a2, a3, a4. repeat split; assumption.
Qed.

(** With a positive cell size and a non-negative buffer the grid builder
    returns a grid for every non-empty set of samples. *)
Lemma build_grid_total :
  forall (cfg : Enhanced.config) (valid_data : list Enhanced.record),
    0 < Enhanced.grid_resolution cfg ->
    0 <= Enhanced.buffer_percent cfg ->
    valid_data <> [] ->
    exists g, Enhanced.build_grid cfg valid_data = Returned g.
Proof.
  intros cfg valid_data Hres Hbuf Hne.
  assert (Hlat : map Enhanced.r_lat valid_data <> []).
  { destruct valid_data; [congruence | discriminate]. }
  assert (Hlon : map Enhanced.r_lon valid_data <> []).
  { destruct valid_data; [congruence | discriminate]. }
  destruct (amin_is_Some _ Hlat) as (lat_min & Hlat_min).
  destruct (amax_is_Some _ Hlat) as (lat_max & Hlat_max).
  destruct (amin_is_Some _ Hlon) as (lon_min & Hlon_min).
  destruct (amax_is_Some _ Hlon) as (lon_max & Hlon_max).
  pose proof (amin_le_amax _ _ _ Hlat_min Hlat_max) as Hlat_le.
  pose proof (amin_le_amax _ _ _ Hlon_min Hlon_max) as Hlon_le.
  destruct (axis_count_range lat_min lat_max
              ((lat_max - lat_min) * Enhanced.buffer_percent cfg)
              (Enhanced.grid_resolution cfg) Hres Hlat_le)
    as (n_lat & Hn_lat & Hr_lat).
  { apply Qmult_le_0_compat; lra. }
  destruct (axis_count_range lon_min lon_max
              ((lon_max - lon_min) * Enhanced.buffer_percent cfg)
              (Enhanced.grid_resolution cfg) Hres Hlon_le)
    as (n_lon & Hn_lon & Hr_lon).
  { apply Qmult_le_0_compat; lra. }
  destruct (linspace_length
              (lat_min - (lat_max - lat_min) * Enhanced.buffer_percent cfg)
              (lat_max + (lat_max - lat_min) * Enhanced.buffer_percent cfg)
              n_lat) as (glat & Hglat & _); [lia|].
  destruct (linspace_length
              (lon_min - (lon_max - lon_min) * Enhanced.buffer_percent cfg)
              (lon_max + (lon_max - lon_min) * Enhanced.buffer_percent cfg)
              n_lon) as (glon & Hglon & _); [lia|].
  exists (Enhanced.Grid glat glon).
  unfold Enhanced.build_grid.
  rewrite Hlat_min, Hlat_max, Hlon_min, Hlon_max. simpl.
  rewrite Hn_lat. simpl. rewrite Hn_lon. simpl.
  rewrite Hglat. simpl. rewrite Hglon. reflexivity.
Qed.

(** The number of nodes of an axis is the clamped count. *)
Lemma axis_nodes (lo hi buffer resolution start stop : Q) (n : Z) (l : list Q) :
  Enhanced.axis_count lo hi buffer resolution = Returned n ->
  Np.linspace start stop n = Returned l ->
  Z.of_nat (length l)
  = Z.min (Np.py_int ((hi - lo + 2 * buffer) / resolution) + 1) 400.
Proof.
  intros Hn Hl. apply axis_count_Returned in Hn.
  destruct (linspace_Returned_length _ _ _ _ Hl) as [Hpos Hlen].
  rewrite Hlen, Z2Nat.id by exact Hpos. exact Hn.
Qed.

(** C3. Whatever the cell size and the samples, the grid builder of the
    enhanced pipeline returns a grid, and the grid has between 1 and 400
    nodes on each axis: the count implied by the buffered extent and the
    cell size is clamped to 400. *)
Theorem C3_grid_capped_at_400 :
  forall (cfg : Enhanced.config) (valid_data : list Enhanced.record),
    0 < Enhanced.grid_resolution cfg ->
    0 <= Enhanced.buffer_percent cfg ->
    valid_data <> [] ->
    exists g, Enhanced.build_grid cfg valid_data = Returned g
              /\ (1 <= length (Enhanced.grid_lat g) <= 400)%nat
              /\ (1 <= length (Enhanced.grid_lon g) <= 400)%nat.
Proof.
  intros cfg valid_data Hres Hbuf Hne.
  destruct (build_grid_total cfg valid_data Hres Hbuf Hne) as (g & Hg).
  exists g. split; [exact Hg|].
  destruct (build_grid_inv _ _ _ Hg)
    as (lat_min & lat_max & lon_min & lon_max & n_lat & n_lon
        & Hlat_min & Hlat_max & Hlon_min & Hlon_max
        & Hn_lat & Hn_lon & Hglat & Hglon).
  pose proof (amin_le_amax _ _ _ Hlat_min Hlat_max) as Hlat_le.
  pose proof (amin_le_amax _ _ _ Hlon_min Hlon_max) as Hlon_le.
  pose proof (axis_nodes _ _ _ _ _ _ _ _ Hn_lat Hglat) as Hlat.
  pose proof (axis_nodes _ _ _ _ _ _ _ _ Hn_lon Hglon) as Hlon.
  assert (Hq : forall lo hi, lo <= hi ->
            (0 <= Np.py_int
                    ((hi - lo + 2 * ((hi - lo) * Enhanced.buffer_percent cfg))
                     / Enhanced.grid_resolution cfg))%Z).
  { intros lo hi Hle. apply py_int_nonneg.
    assert (0 <= (hi - lo) * Enhanced.buffer_percent cfg)
      by (apply Qmult_le_0_compat; lra).
    apply Qle_shift_div_l; [exact Hres | rewrite Qmult_0_l; lra]. }
  specialize (Hq lat_min lat_max Hlat_le) as Hqlat.
  specialize (Hq lon_min lon_max Hlon_le) as Hqlon.
  lia.
Qed.

(** The grid of scenario D: the cell size asks for 14001 nodes per axis and
    the builder returns a grid of at most 400 by 400. *)
Lemma C3_scenario_d_witness :
  (Np.py_int ((50 - 0 + 2 * ((50 - 0) * (2 # 10))) / (5 # 1000)) + 1 = 14001)%Z
  /\ exists g,
       Enhanced.build_grid Enhanced.default_config Examples.scenario_d
         = Returned g
       /\ (1 <= length (Enhanced.grid_lat g) <= 400)%nat
       /\ (1 <= length (Enhanced.grid_lon g) <= 400)%nat.
Proof.
  split; [reflexivity|].
  apply (C3_grid_capped_at_400 Enhanced.default_config Examples.scenario_d).
  - reflexivity.
  - discriminate.
  - discriminate.
Defined.

Lemma app_build_grid_inv (lats lons : list Q) (resolution : Z)
    (grid_lats grid_lons : list Q) :
  App.build_grid lats lons resolution = Returned (grid_lats, grid_lons) ->
  exists lat_min lat_max lon_min lon_max,
    Np.amin lats = Some lat_min /\ Np.amax lats = Some lat_max
    /\ Np.amin lons = Some lon_min /\ Np.amax lons = Some lon_max
    /\ Np.linspace (lat_min - (lat_max - lat_min) * (1 # 10))
         (lat_max + (lat_max - lat_min) * (1 # 10)) resolution
       = Returned grid_lats
    /\ Np.linspace (lon_min - (lon_max - lon_min) * (1 # 10))
         (lon_max + (lon_max - lon_min) * (1 # 10)) resolution
       = Returned grid_lons.
Proof.
  unfold App.build_grid. intros H.
  inv_bind H. apply app_require_Returned in Ha.
  inv_bind H. apply app_require_Returned in Ha0.
  inv_bind H. apply app_require_Returned in Ha1.
  inv_bind H. apply app_require_Returned in Ha2.
  inv_bind H. inv_bind H. injection H as <- <-.
  exists a, a0, a1, a2. repeat split; assumption.
Qed.

(** The claim fails where an axis has no extent: with every sample at
    latitude 1 the grid of the enhanced pipeline has the single latitude 1,
    so its extent does not strictly contain the samples' latitude. *)
Lemma C4_zero_extent_counterexample :
  exists g lo,
    Enhanced.build_grid Enhanced.default_config Examples.flat_latitude
    = Returned g
    /\ 0 < Enhanced.buffer_percent Enhanced.default_config
    /\ Np.amin (map Enhanced.r_lat Examples.flat_latitude) = Some 1
    /\ Np.amin (Enhanced.grid_lat g) = Some lo
    /\ ~ lo < 1.
Proof.
  eexists _, _. split; [vm_compute; reflexivity|].
  split; [reflexivity|]. split; [reflexivity|].
  split; [vm_compute; reflexivity|].
  vm_compute. discriminate.
Qed.

(** C4, amended. With a buffer fraction [f > 0], on every axis along which
    the samples have extent and the grid has at least two nodes, the least
    and greatest node of the grid lie strictly outside the samples' bounding
    interval; on an axis along which all samples share one coordinate the
    buffer is [f * 0 = 0] and every node of the grid is that coordinate.
    This holds for the grid of the enhanced pipeline (first part) and for
    the grid of the web handler, whose fraction is 0.1 (second part). *)
Theorem C4_extent_strict_on_axes_with_extent :
  (forall (cfg : Enhanced.config) (valid_data : list Enhanced.record)
          (g : Enhanced.grid),
      0 < Enhanced.buffer_percent cfg ->
      Enhanced.build_grid cfg valid_data = Returned g ->
      exists lat_min lat_max lon_min lon_max,
        Np.amin (map Enhanced.r_lat valid_data) = Some lat_min
        /\ Np.amax (map Enhanced.r_lat valid_data) = Some lat_max
        /\ Np.amin (map Enhanced.r_lon valid_data) = Some lon_min
        /\ Np.amax (map Enhanced.r_lon valid_data) = Some lon_max
        /\ (lat_min < lat_max -> (2 <= length (Enhanced.grid_lat g))%nat ->
            exists lo hi, Np.amin (Enhanced.grid_lat g) = Some lo
                          /\ Np.amax (Enhanced.grid_lat g) = Some hi
                          /\ lo < lat_min /\ lat_max < hi)
        /\ (lat_min == lat_max ->
            forall x, In x (Enhanced.grid_lat g) -> x == lat_min)
        /\ (lon_min < lon_max -> (2 <= length (Enhanced.grid_lon g))%nat ->
            exists lo hi, Np.amin (Enhanced.grid_lon g) = Some lo
                          /\ Np.amax (Enhanced.grid_lon g) = Some hi
                          /\ lo < lon_min /\ lon_max < hi)
        /\ (lon_min == lon_max ->
            forall x, In x (Enhanced.grid_lon g) -> x == lon_min))
  /\ (forall (lats lons : list Q) (resolution : Z) (grid_lats grid_lons : list Q),
        App.build_grid lats lons resolution = Returned (grid_lats, grid_lons) ->
        exists lat_min lat_max lon_min lon_max,
          Np.amin lats = Some lat_min /\ Np.amax lats = Some lat_max
          /\ Np.amin lons = Some lon_min /\ Np.amax lons = Some lon_max
          /\ (lat_min < lat_max -> (2 <= resolution)%Z ->
              exists lo hi, Np.amin grid_lats = Some lo
                            /\ Np.amax grid_lats = Some hi
                            /\ lo < lat_min /\ lat_max < hi)
          /\ (lat_min == lat_max -> forall x, In x grid_lats -> x == lat_min)
          /\ (lon_min < lon_max -> (2 <= resolution)%Z ->
              exists lo hi, Np.amin grid_lons = Some lo
                            /\ Np.amax grid_lons = Some hi
                            /\ lo < lon_min /\ lon_max < hi)
          /\ (lon_min == lon_max -> forall x, In x grid_lons -> x == lon_min)).
Proof.
  split.
  - intros cfg valid_data g Hf Hg.
    destruct (build_grid_inv _ _ _ Hg)
      as (lat_min & lat_max & lon_min & lon_max & n_lat & n_lon
          & Hlat_min & Hlat_max & Hlon_min & Hlon_max & _ & _ & Hglat & Hglon).
    pose proof (amin_le_amax _ _ _ Hlat_min Hlat_max) as Hlat_le.
    pose proof (amin_le_amax _ _ _ Hlon_min Hlon_max) as Hlon_le.
    destruct (buffered_axis _ _ _ _ _ Hf Hlat_le Hglat) as (Hlat1 & Hlat2).
    destruct (buffered_axis _ _ _ _ _ Hf Hlon_le Hglon) as (Hlon1 & Hlon2).
    destruct (linspace_Returned_length _ _ _ _ Hglat) as (? & Hlen_lat).
    destruct (linspace_Returned_length _ _ _ _ Hglon) as (? & Hlen_lon).
    exists lat_min, lat_max, lon_min, lon_max.
    repeat split; try assumption.
    + intros Hlt Hlen. apply Hlat1; [exact Hlt | lia].
    + intros Hlt Hlen. apply Hlon1; [exact Hlt | lia].
  - intros lats lons resolution grid_lats grid_lons Hg.
    destruct (app_build_grid_inv _ _ _ _ _ Hg)
      as (lat_min & lat_max & lon_min & lon_max
          & Hlat_min & Hlat_max & Hlon_min & Hlon_max & Hglat & Hglon).
    pose proof (amin_le_amax _ _ _ Hlat_min Hlat_max) as Hlat_le.
    pose proof (amin_le_amax _ _ _ Hlon_min Hlon_max) as Hlon_le.
    assert (Hf : 0 < 1 # 10) by reflexivity.
    destruct (buffered_axis _ _ _ _ _ Hf Hlat_le Hglat) as (Hlat1 & Hlat2).
    destruct (buffered_axis _ _ _ _ _ Hf Hlon_le Hglon) as (Hlon1 & Hlon2).
    exists lat_min, lat_max, lon_min, lon_max.
    repeat split; assumption.
Qed.

(** The amended C4 at samples with extent on both axes: the latitudes of
    the samples span [0, 0.01] and those of the grid reach strictly beyond
    on both sides. *)
Lemma C4_small_square_witness :
  exists g lo hi,
    Enhanced.build_grid Enhanced.default_config Examples.small_square
    = Returned g
    /\ Np.amin (Enhanced.grid_lat g) = Some lo
    /\ Np.amax (Enhanced.grid_lat g) = Some hi
    /\ lo < 0 /\ 1 # 100 < hi.
Proof.
  lazymatch eval vm_compute in
    (Enhanced.build_grid Enhanced.default_config Examples.small_square) with
  | Returned ?g0 => pose (g := g0)
  end.
  assert (Hg : Enhanced.build_grid Enhanced.default_config Examples.small_square
               = Returned g) by (vm_compute; reflexivity).
  destruct (proj1 C4_extent_strict_on_axes_with_extent
              Enhanced.default_config Examples.small_square g
              ltac:(reflexivity) Hg)
    as (lat_min & lat_max & lon_min & lon_max
        & Hmin & Hmax & _ & _ & Hstrict & _).
  vm_compute in Hmin. injection Hmin as <-.
  vm_compute in Hmax. injection Hmax as <-.
  destruct Hstrict as (lo & hi & Hlo & Hhi & Hbelow & Habove).
  - reflexivity.
  - vm_compute. lia.
  - exists g, lo, hi. repeat split; assumption.
Defined.

(** ** Inverse distance weighting *)

Section WeightedAverage.
Variables lo hi : Q.

Lemma sum_weights_pos (ws : list Q) :
  ws <> [] -> Forall (fun w => 0 < w) ws -> 0 < Np.sum ws.
Proof.
  intros Hne Hpos. induction Hpos as [|w ws Hw Hws IH]; [congruence|].
  simpl. destruct ws as [|w' ws'].
  - simpl. lra.
  - assert (0 < Np.sum (w' :: ws')) by (apply IH; discriminate). lra.
Qed.

Lemma sum_products_bounds (ws vs : list Q) :
  length ws = length vs ->
  Forall (fun w => 0 < w) ws ->
  Forall (fun v => lo <= v <= hi) vs ->
  lo * Np.sum ws <= Np.sum (zip_with Qmult ws vs) <= hi * Np.sum ws.
Proof.
  revert vs. induction ws as [|w ws IH]; intros [|v vs] Hlen Hws Hvs;
    simpl in *; try discriminate.
  - lra.
  - inversion Hws as [|? ? Hw Hws']; subst.
    inversion Hvs as [|? ? Hv Hvs']; subst.
    destruct (IH vs ltac:(lia) Hws' Hvs') as [IH1 IH2].
    assert (H1 : w * lo <= w * v) by (apply Qmult_le_l; lra).
    assert (H2 : w * v <= w * hi) by (apply Qmult_le_l; lra).
    lra.
Qed.

Lemma weighted_average_bounds (ws vs : list Q) :
  ws <> [] -> length ws = length vs ->
  Forall (fun w => 0 < w) ws ->
  Forall (fun v => lo <= v <= hi) vs ->
  lo <= IDW.weighted_average ws vs <= hi.
Proof.
  intros Hne Hlen Hws Hvs. unfold IDW.weighted_average.
  pose proof (sum_weights_pos ws Hne Hws) as Hpos.
  destruct (sum_products_bounds ws vs Hlen Hws Hvs) as [H1 H2].
  split.
  - apply Qle_shift_div_l; assumption.
  - apply Qle_shift_div_r; assumption.
Qed.

End WeightedAverage.

Lemma weights_of_pos (distances_sq : list Q) :
  Forall (fun s => 0 < s) distances_sq ->
  Forall (fun w => 0 < w) (IDW.weights_of distances_sq).
Proof.
  intros H. unfold IDW.weights_of. apply List.Forall_forall.
  intros w Hw. apply in_map_iff in Hw. destruct Hw as (s & <- & Hs).
  unfold Qdiv. rewrite Qmult_1_l. apply Qinv_lt_0_compat.
  revert s Hs. apply List.Forall_forall, H.
Qed.

Lemma square_nonneg (a : Q) : 0 <= a * a.
Proof.
  destruct (Qlt_le_dec a 0) as [Hneg | Hpos].
  - assert (E : a * a == (- a) * (- a)) by ring. rewrite E.
    apply Qmult_le_0_compat; lra.
  - apply Qmult_le_0_compat; assumption.
Qed.

Lemma dist_sq_nonneg (x y sx sy : Q) : 0 <= IDW.dist_sq x y sx sy.
Proof.
  unfold IDW.dist_sq.
  pose proof (square_nonneg (sx - x)). pose proof (square_nonneg (sy - y)).
  lra.
Qed.

Lemma floor_sq_pos : 0 < IDW.floor_sq.
Proof. reflexivity. Qed.

Lemma values_in_range (values : list Q) (vmin vmax : Q) :
  Np.amin values = Some vmin -> Np.amax values = Some vmax ->
  Forall (fun v => vmin <= v <= vmax) values.
Proof.
  intros Hmin Hmax. apply List.Forall_forall. intros v Hv. split.
  - eapply amin_lower_bound; eassumption.
  - eapply amax_upper_bound; eassumption.
Qed.

(** The estimate of the enhanced pipeline at one node. *)
Lemma enhanced_idw_cell_bounds (coords : list (Q * Q)) (values : list Q)
    (glon glat lo hi : Q) :
  coords <> [] -> length coords = length values ->
  Forall (fun v => lo <= v <= hi) values ->
  lo <= Enhanced.idw_cell coords values glon glat <= hi.
Proof.
  intros Hne Hlen Hvs. unfold Enhanced.idw_cell.
  apply weighted_average_bounds.
  - destruct coords; [congruence | discriminate].
  - unfold IDW.weights_of. rewrite !length_map. exact Hlen.
  - apply weights_of_pos, List.Forall_forall. intros s Hs.
    apply in_map_iff in Hs. destruct Hs as ([lon lat] & <- & _).
    pose proof (dist_sq_nonneg glon glat lon lat) as Hs.
    destruct (Qeq_bool (IDW.dist_sq glon glat lon lat) 0) eqn:E.
    + apply floor_sq_pos.
    + apply Qeq_bool_neq in E. lra.
  - exact Hvs.
Qed.

(** The estimate of the web handler at one node. *)
Lemma app_idw_cell_bounds (lats lons values : list Q) (glat glon lo hi : Q) :
  values <> [] -> length lats = length values -> length lons = length values ->
  Forall (fun v => lo <= v <= hi) values ->
  lo <= App.idw_cell lats lons values glat glon <= hi.
Proof.
  intros Hne Hlat Hlon Hvs. unfold App.idw_cell.
  assert (Hlen : length (zip_with
                           (fun la lo0 => Qmax (IDW.dist_sq glat glon la lo0)
                                            IDW.floor_sq) lats lons)
                 = length values).
  { rewrite length_zip_with. lia. }
  apply weighted_average_bounds.
  - unfold IDW.weights_of. intros E. apply (f_equal length) in E.
    rewrite length_map, Hlen in E. destruct values; [congruence | discriminate].
  - unfold IDW.weights_of. rewrite length_map. exact Hlen.
  - apply weights_of_pos, List.Forall_forall. intros s Hs.
    apply list_elem_of_In, elem_of_lookup_zip_with in Hs.
    destruct Hs as (i & la & lo0 & -> & _ & _).
    eapply Qlt_le_trans; [apply floor_sq_pos | apply Q.le_max_r].
  - exact Hvs.
Qed.

Lemma traverse_as_float_Num (values : list Q) :
  traverse Enhanced.as_float (map Enhanced.Num values) = Returned values.
Proof.
  induction values as [|v values IH]; simpl; [reflexivity|].
  rewrite IH. reflexivity.
Qed.

Lemma constant_in_range (values : list Q) (c : Q) :
  Forall (fun v => v == c) values -> Forall (fun v => c <= v <= c) values.
Proof.
  intros H. apply List.Forall_forall. intros v Hv.
  assert (v == c) by (revert v Hv; apply List.Forall_forall, H). lra.
Qed.

Lemma enhanced_idw_bounds (g : Enhanced.grid) (coords : list (Q * Q))
    (values : list Q) (lo hi : Q) :
  coords <> [] -> length coords = length values ->
  Forall (fun v => lo <= v <= hi) values ->
  Forall (Forall (fun x => lo <= x <= hi)) (Enhanced.idw g coords values).
Proof.
  intros Hne Hlen Hvs. unfold Enhanced.idw.
  apply List.Forall_forall. intros row Hrow.
  apply in_map_iff in Hrow. destruct Hrow as (glat & <- & _).
  apply List.Forall_forall. intros x Hx.
  apply in_map_iff in Hx. destruct Hx as (glon & <- & _).
  apply enhanced_idw_cell_bounds; assumption.
Qed.

Lemma app_idw_bounds (lats lons values grid_lats grid_lons : list Q) (lo hi : Q) :
  values <> [] -> length lats = length values -> length lons = length values ->
  Forall (fun v => lo <= v <= hi) values ->
  Forall (Forall (fun x => lo <= x <= hi))
    (App.idw lats lons values grid_lats grid_lons).
Proof.
  intros Hne Hlat Hlon Hvs. unfold App.idw.
  apply List.Forall_forall. intros row Hrow.
  apply in_map_iff in Hrow. destruct Hrow as (glat & <- & _).
  apply List.Forall_forall. intros x Hx.
  apply in_map_iff in Hx. destruct Hx as (glon & <- & _).
  apply app_idw_cell_bounds; assumption.
Qed.

Lemma matrix_squeeze (z : matrix) (c : Q) :
  Forall (Forall (fun x => c <= x <= c)) z ->
  Forall (Forall (fun x => x == c)) z.
Proof.
  intros H. apply List.Forall_forall. intros row Hrow.
  apply List.Forall_forall. intros x Hx.
  assert (Hr : Forall (fun x => c <= x <= c) row).
  { apply (proj1 (List.Forall_forall _ z) H row Hrow). }
  assert (c <= x <= c) by (revert x Hx; apply List.Forall_forall, Hr). lra.
Qed.

(** In exact arithmetic, inverse distance weighting over a non-empty set of
    samples returns a surface every estimate of which lies between the
    least and the greatest sample value; when all sample values equal [c],
    every estimate equals [c].  First part: [perform_interpolation] of the
    enhanced pipeline with the method ['idw']; second part: the web
    handler, for every method name other than ['kriging'].  The float64
    arithmetic of numpy rounds every product, sum and quotient, and
    neither the closed interval nor the equality survives the rounding. *)
Lemma exact_idw_estimates_within_sample_range :
  (forall kriging rbf (cfg : Enhanced.config) (g : Enhanced.grid)
          (coords : list (Q * Q)) (values : list Q) (vmin vmax : Q),
      Enhanced.interpolation_method cfg = "idw"%string ->
      length coords = length values ->
      Np.amin values = Some vmin -> Np.amax values = Some vmax ->
      exists z,
        Enhanced.perform_interpolation kriging rbf cfg g coords
          (map Enhanced.Num values) = Returned (Some z)
        /\ Forall (Forall (fun x => vmin <= x <= vmax)) z
        /\ forall c, Forall (fun v => v == c) values ->
                     Forall (Forall (fun x => x == c)) z)
  /\ (forall kriging (method : string)
             (lats lons values grid_lats grid_lons : list Q) (vmin vmax : Q),
        PyStr.lower method <> "kriging"%string ->
        length lats = length values -> length lons = length values ->
        Np.amin values = Some vmin -> Np.amax values = Some vmax ->
        exists z,
          App.interpolate kriging method lats lons values grid_lats grid_lons
          = Returned z
          /\ Forall (Forall (fun x => vmin <= x <= vmax)) z
          /\ forall c, Forall (fun v => v == c) values ->
                       Forall (Forall (fun x => x == c)) z).
Proof.
  split.
  - intros kriging rbf cfg g coords values vmin vmax Hm Hlen Hmin Hmax.
    assert (Hne : coords <> []).
    { destruct values; [discriminate|]. destruct coords; discriminate. }
    exists (Enhanced.idw g coords values). split; [|split].
    + unfold Enhanced.perform_interpolation, Enhanced.interpolation_body.
      rewrite Hm. simpl. rewrite traverse_as_float_Num. simpl.
      rewrite Hlen, Nat.eqb_refl. reflexivity.
    + apply enhanced_idw_bounds; try assumption.
      eapply values_in_range; eassumption.
    + intros c Hc. apply matrix_squeeze, enhanced_idw_bounds; try assumption.
      apply constant_in_range, Hc.
  - intros kriging method lats lons values grid_lats grid_lons vmin vmax
      Hm Hlat Hlon Hmin Hmax.
    assert (Hne : values <> []) by (destruct values; discriminate).
    exists (App.idw lats lons values grid_lats grid_lons). split; [|split].
    + unfold App.interpolate.
      destruct (String.eqb_spec (PyStr.lower method) "kriging");
        [contradiction | reflexivity].
    + apply app_idw_bounds; try assumption.
      eapply values_in_range; eassumption.
    + intros c Hc. apply matrix_squeeze, app_idw_bounds; try assumption.
      apply constant_in_range, Hc.
Qed.

(** The surface of two samples with the values 3 and 5, in exact
    arithmetic. *)
Lemma exact_idw_two_samples :
  exists z,
    Enhanced.perform_interpolation Examples.no_kriging Examples.no_rbf
      Examples.idw_config Examples.unit_grid Examples.two_coords
      (map Enhanced.Num Examples.two_values) = Returned (Some z)
    /\ Forall (Forall (fun x => 3 <= x <= 5)) z
    /\ forall c, Forall (fun v => v == c) Examples.two_values ->
                 Forall (Forall (fun x => x == c)) z.
Proof.
  apply (proj1 exact_idw_estimates_within_sample_range
           Examples.no_kriging Examples.no_rbf Examples.idw_config
           Examples.unit_grid Examples.two_coords Examples.two_values 3 5).
  - reflexivity.
  - reflexivity.
  - reflexivity.
  - reflexivity.
Qed.

(** ** Inverse distance weighting in float64

    What is left of the range of the estimates once every operation
    rounds. *)

(** *** One rounding *)


Lemma pow2_add (a b : Z) : F64.pow2 (a + b) == F64.pow2 a * F64.pow2 b.
Proof. apply Qpower_plus. discriminate. Qed.






(** *** Sums of rounded additions *)



















(** *** The rounded weighted average *)







(** *** The weights *)







(** *** The estimates *)







(** The estimate of the enhanced pipeline at these samples, in float64
    and in exact arithmetic. *)
Example constant_field_estimate :
  map (map Qred)
    (F64.enhanced_idw F64.np_sum (Enhanced.Grid [0] [0])
       [(0, 1); (0, 6)] [7; 7])
  = [[7881299347898369 # 1125899906842624]]
  /\ map (map Qred)
       (Enhanced.idw (Enhanced.Grid [0] [0]) [(0, 1); (0, 6)] [7; 7])
     = [[7]].
Proof. split; vm_compute; reflexivity. Qed.


(** The rounding of the model at numbers whose float64 is known: [0.1],
    [1e-10], the square root of 2, two ties between neighbours, which go
    to the even one, and [0.1 + 0.2], which is [0.30000000000000004]. *)
Example rnd_known_values :
  Qred (F64.rnd (1 # 10)) = 3602879701896397 # 36028797018963968
  /\ Qred F64.tiny = 7737125245533627 # 77371252455336267181195264
  /\ Qred (F64.fsqrt 2) = 6369051672525773 # 4503599627370496
  /\ Qred (F64.rnd (9007199254740993 # 1)) = 9007199254740992 # 1
  /\ Qred (F64.rnd (9007199254740995 # 1)) = 9007199254740996 # 1
  /\ Qred (F64.fadd (F64.rnd (1 # 10)) (F64.rnd (2 # 10)))
     = 1351079888211149 # 4503599627370496.
Proof. vm_compute. repeat split. Qed.

(** ** Coordinate detection *)

Lemma find_last_match {A : Type} (p : A -> bool) (l : list A) (x : A) :
  List.find p (rev l) = Some x <-> Spec.last_match p l x.
Proof.
  unfold Spec.last_match. split.
  - revert x. induction l as [|y l IH] using rev_ind; intros x; simpl.
    + discriminate.
    + rewrite rev_app_distr. simpl. destruct (p y) eqn:Hy.
      * intros [= <-]. exists l, []. auto.
      * intros H. destruct (IH _ H) as (pre & post & -> & Hx & Hpost).
        exists pre, (post ++ [y]). split; [|split].
        -- rewrite <- app_assoc. reflexivity.
        -- exact Hx.
        -- apply Forall_app. split; [exact Hpost | constructor; auto].
  - intros (pre & post & -> & Hx & Hpost).
    induction post as [|y post IH] using rev_ind.
    + rewrite rev_app_distr. simpl. rewrite Hx. reflexivity.
    + apply Forall_app in Hpost. destruct Hpost as [Hpost Hy].
      inversion Hy as [|? ? Hy' _]; subst.
      replace (pre ++ x :: post ++ [y]) with ((pre ++ x :: post) ++ [y])
        by (rewrite <- app_assoc; reflexivity).
      rewrite rev_app_distr. simpl. rewrite Hy'. apply IH, Hpost.
Qed.

(** The loop keeps, for each role, the last column that qualified. *)
Lemma detect_loop_last (columns : list string) :
  App.detect_loop columns
  = (List.find App.is_lat (rev columns), List.find Spec.lon_only (rev columns)).
Proof.
  unfold App.detect_loop.
  induction columns as [|col columns IH] using rev_ind; [reflexivity|].
  rewrite fold_left_app, IH, rev_app_distr. simpl.
  unfold App.detect_step, Spec.lon_only. simpl.
  destruct (App.is_lat col), (App.is_lon col); reflexivity.
Qed.

Lemma is_lat_truthy (col : string) :
  App.is_lat col = true -> PyStr.truthy col = true.
Proof. destruct col; [discriminate | reflexivity]. Qed.

Lemma lon_only_truthy (col : string) :
  Spec.lon_only col = true -> PyStr.truthy col = true.
Proof. destruct col; [discriminate | reflexivity]. Qed.

(** The claim fails on a table with two latitude candidates: the first
    matching column is ["lat"], the detector answers ["latitude"]. *)
Lemma C7_first_match_counterexample :
  List.find App.is_lat ["lat"; "latitude"; "lon"]%string = Some "lat"%string
  /\ App.detect_coordinate_columns ["lat"; "latitude"; "lon"]%string
     = Some (App.CoordColumns "latitude" "lon")
  /\ "latitude"%string <> "lat"%string.
Proof. split; [reflexivity | split; [reflexivity | discriminate]]. Qed.

(** C7, amended. The detector assigns each role to the last matching column
    in table order: the latitude is the last column whose lower-cased name
    contains a latitude pattern, the longitude is the last column whose name
    contains a longitude pattern and no latitude pattern; it answers exactly
    when both exist. *)
Theorem C7_last_matching_column_wins :
  forall (columns : list string) (lat lon : string),
    App.detect_coordinate_columns columns = Some (App.CoordColumns lat lon)
    <-> Spec.last_match App.is_lat columns lat
        /\ Spec.last_match Spec.lon_only columns lon.
Proof.
  intros columns lat lon. unfold App.detect_coordinate_columns.
  rewrite detect_loop_last, <- !find_last_match.
  destruct (List.find App.is_lat (rev columns)) as [la|] eqn:Hla;
    destruct (List.find Spec.lon_only (rev columns)) as [lo|] eqn:Hlo;
    try (split; [discriminate | intros [? ?]; discriminate]).
  apply find_some in Hla. apply find_some in Hlo.
  rewrite (is_lat_truthy la), (lon_only_truthy lo) by tauto. simpl.
  split.
  - intros [= <- <-]. auto.
  - intros [[= <-] [= <-]]. reflexivity.
Qed.

(** C7 at a table with two candidates for each role. *)
Lemma C7_two_candidates_witness :
  App.detect_coordinate_columns ["lat"; "lon"; "Latitude"; "LONG"]%string
  = Some (App.CoordColumns "Latitude" "LONG").
Proof.
  apply (proj2 (C7_last_matching_column_wins
                  ["lat"; "lon"; "Latitude"; "LONG"]%string
                  "Latitude"%string "LONG"%string)).
  split.
  - exists ["lat"; "lon"]%string, ["LONG"]%string.
    split; [reflexivity|]. split; [reflexivity|].
    constructor; [reflexivity | constructor].
  - exists ["lat"; "lon"; "Latitude"]%string, [].
    split; [reflexivity|]. split; [reflexivity | constructor].
Defined.

(** ** Suitability for interpolation *)

Section Distinct.
Context {A : Type} (eqb : A -> A -> bool).

Lemma distinct_incl (l : list A) (x : A) :
  In x (distinct eqb l) -> In x l.
Proof.
  revert x. induction l as [|y l IH]; intros x; simpl; [tauto|].
  intros [-> | H]; [auto|].
  apply filter_In in H. right. apply IH, H.
Qed.

(** No two of the values kept are equal. *)
Lemma distinct_pairwise (l : list A) :
  ForallOrdPairs (fun x y => eqb x y = false) (distinct eqb l).
Proof.
  induction l as [|y l IH]; simpl; constructor.
  - apply List.Forall_forall. intros x Hx. apply filter_In in Hx.
    destruct Hx as [_ Hx]. apply negb_true_iff in Hx. exact Hx.
  - induction IH as [|z zs Hz Hzs IHzs]; simpl; [constructor|].
    destruct (negb (eqb y z)); [|exact IHzs].
    constructor; [|exact IHzs].
    apply List.Forall_forall. intros x Hx. apply filter_In in Hx.
    revert x Hx. intros x [Hx _]. revert x Hx. apply List.Forall_forall, Hz.
Qed.

Hypothesis eqb_trans :
  forall x y z, eqb x y = true -> eqb y z = true -> eqb x z = true.
Hypothesis eqb_refl : forall x, eqb x x = true.

(** Every value of the list is equal to one of the values kept. *)
Lemma distinct_complete (l : list A) (x : A) :
  In x l -> exists y, In y (distinct eqb l) /\ eqb y x = true.
Proof.
  induction l as [|h l IH]; simpl; [tauto|].
  intros [-> | Hx].
  - exists x. auto.
  - destruct (IH Hx) as (y & Hy & Hyx).
    destruct (eqb h y) eqn:Hhy.
    + exists h. split; [auto | eauto].
    + exists y. split; [|exact Hyx].
      right. apply filter_In. rewrite Hhy. auto.
Qed.

End Distinct.

(** The flag of a numeric column with a value: a boolean of Python from ten
    values on, the numpy boolean of the first comparison below ten. *)
Lemma describe_column_flag (col : string) (data : list (option Q)) :
  (0 < length (App.dropna data))%nat ->
  App.suitable_for_interpolation (App.describe_column col (App.NumSeries data))
  = Some (if (10 <=? length (App.dropna data))%nat
          then App.PyBool (5 <? length (distinct Qeq_bool (App.dropna data)))%nat
          else App.NumpyBool false).
Proof.
  intros Hpos. unfold App.describe_column.
  cbn -[Nat.leb Nat.ltb App.dropna distinct].
  destruct (Nat.ltb_spec 0 (length (App.dropna data))) as [_ | Hzero]; [|lia].
  unfold App.py_and. cbn -[Nat.leb Nat.ltb App.dropna distinct].
  destruct (10 <=? length (App.dropna data))%nat; reflexivity.
Qed.

(** The encoder refuses the dictionary of a column exactly when the column
    is numeric and holds between one and nine values. *)
Lemma serializable_describe_column (col : string) (s : App.series) :
  App.serializable (App.describe_column col s) = false
  <-> exists data, s = App.NumSeries data
                   /\ (0 < length (App.dropna data) < 10)%nat.
Proof.
  destruct s as [data | data].
  - unfold App.serializable.
    destruct (Nat.eq_dec (length (App.dropna data)) 0%nat) as [Hzero | Hpos].
    + unfold App.describe_column.
      cbn -[Nat.leb Nat.ltb App.dropna distinct]. rewrite Hzero.
      cbn -[App.dropna distinct]. split; [discriminate|].
      intros (data' & E & H). injection E as <-. lia.
    + rewrite describe_column_flag by lia.
      destruct (Nat.leb_spec 10 (length (App.dropna data))) as [Hten | Hfew].
      * split; [discriminate|].
        intros (data' & E & H). injection E as <-. lia.
      * split; [|reflexivity]. intros _. exists data. split; [reflexivity | lia].
  - cbn. split; [discriminate|]. intros (data' & E & _). discriminate E.
Qed.

(** One numeric column with one to nine values makes the route answer 500. *)
Lemma get_all_variables_ServerError (df : list (string * App.series))
    (col : string) (data : list (option Q)) :
  In (col, App.NumSeries data) df ->
  (0 < length (App.dropna data) < 10)%nat ->
  App.get_all_variables df = App.ServerError.
Proof.
  intros Hin Hfew. unfold App.get_all_variables. cbv zeta.
  destruct (forallb App.serializable
              (map (fun '(col0, col_data) => App.describe_column col0 col_data)
                 df)) eqn:E; [|reflexivity].
  rewrite forallb_forall in E.
  assert (Hs : App.serializable (App.describe_column col (App.NumSeries data))
               = false).
  { apply serializable_describe_column. exists data. auto. }
  rewrite E in Hs; [discriminate Hs|].
  apply in_map_iff. exists (col, App.NumSeries data). auto.
Qed.

(** Without such a column the route answers 200 with the two lists. *)
Lemma get_all_variables_Ok (df : list (string * App.series)) :
  (forall col data, In (col, App.NumSeries data) df ->
     length (App.dropna data) = 0%nat \/ (10 <= length (App.dropna data))%nat) ->
  let variables :=
    map (fun '(col, col_data) => App.describe_column col col_data) df in
  App.get_all_variables df
  = App.Ok (variables,
            List.filter (fun v => App.is_numeric v && App.get_suitable v)
              variables).
Proof.
  intros Hdense variables. unfold App.get_all_variables. cbv zeta.
  fold variables.
  destruct (forallb App.serializable variables) eqn:E; [reflexivity|].
  assert (Hex : exists v, In v variables /\ App.serializable v = false).
  { clear -E. induction variables as [|v vs IH]; [discriminate E|].
    cbn [forallb] in E. apply andb_false_iff in E. destruct E as [E | E].
    - exists v. split; [left; reflexivity | exact E].
    - destruct (IH E) as (w & Hw & Hs). exists w. split; [right|]; assumption. }
  destruct Hex as (v & Hv & Hs). apply in_map_iff in Hv.
  destruct Hv as ([col s] & <- & Hin).
  apply serializable_describe_column in Hs. destruct Hs as (data & -> & Hfew).
  destruct (Hdense col data Hin); lia.
Qed.

(** The flag of a numeric column is true exactly from ten values and six
    distinct values on. *)
Lemma get_suitable_iff (col : string) (data : list (option Q)) :
  App.get_suitable (App.describe_column col (App.NumSeries data)) = true
  <-> (10 <= length (App.dropna data))%nat
      /\ (5 < length (distinct Qeq_bool (App.dropna data)))%nat.
Proof.
  unfold App.get_suitable.
  destruct (Nat.eq_dec (length (App.dropna data)) 0%nat) as [Hzero | Hpos].
  - unfold App.describe_column.
    cbn -[Nat.leb Nat.ltb App.dropna distinct]. rewrite Hzero.
    cbn -[App.dropna distinct]. split; [discriminate | lia].
  - rewrite describe_column_flag by lia.
    destruct (Nat.leb_spec 10 (length (App.dropna data))) as [Hten | Hfew].
    + cbn [App.truth]. rewrite Nat.ltb_lt. split; [auto | tauto].
    + cbn [App.truth]. split; [discriminate | lia].
Qed.

(** C8. The flag that the loop of [get_all_variables] computes for a
    numeric column is true exactly when the column has at least 10
    non-missing values and more than 5 distinct ones, but the route does
    not always deliver it.  A numeric column with one to nine non-missing
    values gets the numpy boolean of [count() >= 10] as its flag, which
    [jsonify] cannot encode: the route then answers 500 for the whole
    table, and no column is marked at all (first part).  On every other
    table the route answers 200, and the columns listed under
    ['numeric_variables'] are exactly the numeric columns with at least 10
    non-missing and more than 5 distinct values, each with the flag [true]
    (second part). *)
Theorem C8_sparse_numeric_column_answers_500 :
  forall (df : list (string * App.series)),
    ((exists col data,
         In (col, App.NumSeries data) df
         /\ (0 < length (App.dropna data) < 10)%nat) ->
     App.get_all_variables df = App.ServerError)
    /\ ((forall col data,
            In (col, App.NumSeries data) df ->
            length (App.dropna data) = 0%nat
            \/ (10 <= length (App.dropna data))%nat) ->
        exists variables numeric_variables,
          App.get_all_variables df = App.Ok (variables, numeric_variables)
          /\ forall col data,
               In (col, App.NumSeries data) df ->
               let v := App.describe_column col (App.NumSeries data) in
               let enough :=
                 (10 <= length (App.dropna data))%nat
                 /\ (5 < length (distinct Qeq_bool (App.dropna data)))%nat in
               In v variables
               /\ (In v numeric_variables <-> enough)
               /\ (App.suitable_for_interpolation v = Some (App.PyBool true)
                   <-> enough)).
Proof.
  intros df. split.
  - intros (col & data & Hin & Hfew).
    exact (get_all_variables_ServerError df col data Hin Hfew).
  - intros Hdense. eexists _, _. split; [apply get_all_variables_Ok, Hdense|].
    intros col data Hin v enough.
    assert (Hv : In v (map (fun '(col0, col_data) =>
                              App.describe_column col0 col_data) df)).
    { apply in_map_iff. exists (col, App.NumSeries data). auto. }
    split; [exact Hv|]. split.
    + rewrite filter_In, andb_true_iff. unfold v at 3.
      rewrite get_suitable_iff. fold enough. cbn [App.is_numeric
        App.describe_column App.is_numeric_dtype]. tauto.
    + unfold enough, v.
      destruct (Hdense col data Hin) as [Hzero | Hten].
      * unfold App.describe_column.
        cbn -[Nat.leb Nat.ltb App.dropna distinct]. rewrite Hzero.
        cbn -[App.dropna distinct]. split; [discriminate | lia].
      * rewrite describe_column_flag by lia.
        destruct (Nat.leb_spec 10 (length (App.dropna data))) as [_ | Hfew];
          [|lia].
        destruct (Nat.ltb_spec 5 (length (distinct Qeq_bool (App.dropna data))))
          as [Hsix | Hfive].
        -- split; [auto | reflexivity].
        -- split; [discriminate | lia].
Qed.

(** C8 at a table whose column [pm25] has twelve values, six of them
    distinct: with a column [ozone] of two values beside it the route
    answers 500, and without that column it lists [pm25] under
    ['numeric_variables']. *)
Lemma C8_two_values_witness :
  App.get_all_variables Examples.sparse_table = App.ServerError
  /\ exists variables numeric_variables,
       App.get_all_variables Examples.dense_table
       = App.Ok (variables, numeric_variables)
       /\ In (App.describe_column "pm25" (App.NumSeries Examples.twelve_values))
            numeric_variables.
Proof.
  split.
  - apply (proj1 (C8_sparse_numeric_column_answers_500 Examples.sparse_table)).
    exists "ozone"%string, Examples.two_values_of_twelve.
    split; [right; right; left; reflexivity | vm_compute; lia].
  - destruct (proj2 (C8_sparse_numeric_column_answers_500 Examples.dense_table))
      as (variables & numeric_variables & Hok & Hcols).
    + intros col data [E | [E | []]]; [discriminate E|].
      injection E as <- <-. right. vm_compute. lia.
    + exists variables, numeric_variables. split; [exact Hok|].
      apply (Hcols "pm25"%string Examples.twelve_values).
      * right. left. reflexivity.
      * vm_compute. split; lia.
Defined.

(** The answers of the route at the two tables. *)
Example get_all_variables_at_sparse_table :
  App.get_all_variables Examples.sparse_table = App.ServerError
  /\ App.suitable_for_interpolation
       (App.describe_column "ozone"
          (App.NumSeries Examples.two_values_of_twelve))
     = Some (App.NumpyBool false)
  /\ App.suitable_for_interpolation
       (App.describe_column "pm25" (App.NumSeries Examples.twelve_values))
     = Some (App.PyBool true)
  /\ (exists variables,
         App.get_all_variables Examples.dense_table
         = App.Ok (variables,
                   [App.describe_column "pm25"
                      (App.NumSeries Examples.twelve_values)])).
Proof.
  split; [reflexivity|]. split; [reflexivity|]. split; [reflexivity|].
  eexists. reflexivity.
Qed.

(** ** Method dispatch *)

(** The claim fails for the method name ["nearest"]: [perform_interpolation]
    returns [None] without raising, and the web handler answers with the
    inverse-distance surface. *)
Lemma C5_unknown_method_counterexample :
  Enhanced.perform_interpolation Examples.no_kriging Examples.no_rbf
    Examples.nearest_config Examples.unit_grid Examples.two_coords
    (map Enhanced.Num Examples.two_values) = Returned None
  /\ App.interpolate Examples.no_app_kriging "nearest" [0; 1] [0; 1]
       Examples.two_values [0; 1] [0; 1]
     = Returned (App.idw [0; 1] [0; 1] Examples.two_values [0; 1] [0; 1]).
Proof. split; reflexivity. Qed.

(** C5, amended. A method name that is none of ['kriging'], ['rbf'], ['idw']
    raises nothing.  In the enhanced pipeline [perform_interpolation]
    returns [None] for it, and the day is counted as a failed interpolation
    with no raster written.  In the web handler every name other than
    ['kriging'] (after lower-casing), known or not, selects inverse distance
    weighting. *)
Theorem C5_unknown_method_raises_nothing :
  (forall kriging rbf (cfg : Enhanced.config) (g : Enhanced.grid)
          (coords : list (Q * Q)) (values : list Enhanced.cell),
      Enhanced.interpolation_method cfg <> "kriging"%string ->
      Enhanced.interpolation_method cfg <> "rbf"%string ->
      Enhanced.interpolation_method cfg <> "idw"%string ->
      Enhanced.perform_interpolation kriging rbf cfg g coords values
      = Returned None)
  /\ (forall kriging rbf (cfg : Enhanced.config) (g : Enhanced.grid)
             (variable : string) (valid_data : list Enhanced.record)
             (st : Enhanced.day_state) (d : Enhanced.date),
        Enhanced.interpolation_method cfg <> "kriging"%string ->
        Enhanced.interpolation_method cfg <> "rbf"%string ->
        Enhanced.interpolation_method cfg <> "idw"%string ->
        Enhanced.process_day kriging rbf cfg g variable valid_data st d
        = Enhanced.count_failure st)
  /\ (forall kriging (method : string)
             (lats lons values grid_lats grid_lons : list Q),
        PyStr.lower method <> "kriging"%string ->
        App.interpolate kriging method lats lons values grid_lats grid_lons
        = Returned (App.idw lats lons values grid_lats grid_lons)).
Proof.
  assert (Hnone : forall kriging rbf cfg g coords values,
             Enhanced.interpolation_method cfg <> "kriging"%string ->
             Enhanced.interpolation_method cfg <> "rbf"%string ->
             Enhanced.interpolation_method cfg <> "idw"%string ->
             Enhanced.perform_interpolation kriging rbf cfg g coords values
             = Returned None).
  { intros kriging rbf cfg g coords values Hk Hr Hi.
    unfold Enhanced.perform_interpolation, Enhanced.interpolation_body.
    destruct (String.eqb_spec (Enhanced.interpolation_method cfg) "kriging");
      [contradiction|].
    destruct (String.eqb_spec (Enhanced.interpolation_method cfg) "rbf");
      [contradiction|].
    destruct (String.eqb_spec (Enhanced.interpolation_method cfg) "idw");
      [contradiction|].
    reflexivity. }
  split; [exact Hnone | split].
  - intros kriging rbf cfg g variable valid_data st d Hk Hr Hi.
    unfold Enhanced.process_day.
    destruct (_ <? 5)%nat; [reflexivity|].
    rewrite Hnone by assumption. reflexivity.
  - intros kriging method lats lons values grid_lats grid_lons Hm.
    unfold App.interpolate.
    destruct (String.eqb_spec (PyStr.lower method) "kriging");
      [contradiction | reflexivity].
Qed.

(** C5 at the method name ["nearest"]. *)
Lemma C5_nearest_witness :
  Enhanced.perform_interpolation Examples.no_kriging Examples.no_rbf
    Examples.nearest_config Examples.unit_grid Examples.two_coords
    (map Enhanced.Num Examples.two_values) = Returned None.
Proof.
  apply (proj1 C5_unknown_method_raises_nothing); discriminate.
Defined.

(** ** Jobs with too few samples *)

(** The claim fails for a variable with three samples (scenario B): the run
    returns [True] with no raster written, and the report has no entry for
    the variable, so its count of failures is 0, not 1. *)
Lemma C6_three_points_counterexample :
  exists rep,
    Enhanced.run Examples.parse_day1 Examples.no_kriging Examples.no_rbf
      Examples.no_resample
      Enhanced.default_config (Some Examples.three_points) ∅
    = Returned (true, Some rep)
    /\ Enhanced.total_failed rep = 0%nat
    /\ Enhanced.report_results rep = ∅
    /\ Enhanced.final_fs rep = ∅.
Proof.
  eexists. split; [vm_compute; reflexivity|].
  split; [|split]; reflexivity.
Qed.

(** C6, amended.  A variable with fewer than 10 valid samples is skipped:
    the output directory and the report are left as they were (no raster,
    no log entry, no counter changed) and the loop goes on with the next
    variable.  A day with fewer than 5 samples is skipped: the variable's
    count of failed interpolations grows by exactly 1, its count of
    successes, its list of files and the output directory are left as they
    were, and the loop goes on with the next day. *)
Theorem C6_skipped_jobs :
  (forall kriging rbf resample (cfg : Enhanced.config) (clean : list Enhanced.record)
          (st : Enhanced.run_state) (variable : string) (rest : list string),
      (length (List.filter (Enhanced.has_value variable) clean) < 10)%nat ->
      Enhanced.process_variable kriging rbf
        resample cfg clean st variable = Returned st
      /\ foldM (Enhanced.process_variable kriging rbf resample cfg clean)
           (variable :: rest) st
         = foldM (Enhanced.process_variable kriging rbf
           resample cfg clean) rest st)
  /\ (forall kriging rbf (cfg : Enhanced.config) (g : Enhanced.grid)
             (variable : string) (valid_data : list Enhanced.record)
             (st : Enhanced.day_state) (d : Enhanced.date)
             (rest : list Enhanced.date),
        (length (List.filter (fun r => Enhanced.date_eqb (Enhanced.r_date r) d)
                   valid_data) < 5)%nat ->
        let st' :=
          Enhanced.process_day kriging rbf cfg g variable valid_data st d in
        Enhanced.failed_interpolations (Enhanced.ds_log st')
        = S (Enhanced.failed_interpolations (Enhanced.ds_log st))
        /\ Enhanced.successful_interpolations (Enhanced.ds_log st')
           = Enhanced.successful_interpolations (Enhanced.ds_log st)
        /\ Enhanced.daily_files (Enhanced.ds_log st')
           = Enhanced.daily_files (Enhanced.ds_log st)
        /\ Enhanced.ds_files st' = Enhanced.ds_files st
        /\ Enhanced.ds_fs st' = Enhanced.ds_fs st
        /\ fold_left (Enhanced.process_day kriging rbf cfg g variable valid_data)
             (d :: rest) st
           = fold_left (Enhanced.process_day kriging rbf cfg g variable valid_data)
               rest st').
Proof.
  split.
  - intros kriging rbf resample cfg clean st variable rest Hfew.
    assert (Hskip : Enhanced.process_variable kriging rbf
      resample cfg clean st variable
                    = Returned st).
    { unfold Enhanced.process_variable.
      destruct (Nat.ltb_spec
                  (length (List.filter (Enhanced.has_value variable) clean)) 10);
        [reflexivity | lia]. }
    split; [exact Hskip|].
    cbn [foldM]. rewrite Hskip. reflexivity.
  - intros kriging rbf cfg g variable valid_data st d rest Hfew st'.
    assert (Hskip : st' = Enhanced.count_failure st).
    { unfold st', Enhanced.process_day.
      destruct (Nat.ltb_spec
                  (length (List.filter
                             (fun r => Enhanced.date_eqb (Enhanced.r_date r) d)
                             valid_data)) 5);
        [reflexivity | lia]. }
    assert (Hnext :
              fold_left
                (Enhanced.process_day kriging rbf cfg g variable valid_data)
                (d :: rest) st
              = fold_left
                  (Enhanced.process_day kriging rbf cfg g variable valid_data)
                  rest st') by reflexivity.
    clearbody st'. subst st'.
    split; [reflexivity|]. split; [reflexivity|]. split; [reflexivity|].
    split; [reflexivity|]. split; [reflexivity | exact Hnext].
Qed.

(** C6 at the three samples of scenario B (a variable below 10 samples) and
    at a day without samples (a day below 5 samples). *)
Lemma C6_scenario_b_witness :
  Enhanced.process_variable Examples.no_kriging Examples.no_rbf
    Examples.no_resample
    Enhanced.default_config
    [Examples.ndvi_row 0 0 1 Examples.day1;
     Examples.ndvi_row 0 1 2 Examples.day1;
     Examples.ndvi_row 1 0 3 Examples.day1]
    (Enhanced.RunState ∅ [] ∅) "NDVI"
  = Returned (Enhanced.RunState ∅ [] ∅)
  /\ Enhanced.failed_interpolations
       (Enhanced.ds_log
          (Enhanced.process_day Examples.no_kriging Examples.no_rbf
             Enhanced.default_config Examples.unit_grid "NDVI"
             Examples.small_square
             (Enhanced.DayState ∅ (Enhanced.Log "NDVI" 0 0 []) [])
             (Enhanced.Date 2024 1 16)))
     = 1%nat.
Proof.
  split.
  - apply (proj1 C6_skipped_jobs Examples.no_kriging Examples.no_rbf
    Examples.no_resample
             Enhanced.default_config _ _ "NDVI"%string []).
    vm_compute. lia.
  - apply (proj2 C6_skipped_jobs Examples.no_kriging Examples.no_rbf
             Enhanced.default_config Examples.unit_grid "NDVI"%string
             Examples.small_square
             (Enhanced.DayState ∅ (Enhanced.Log "NDVI" 0 0 []) [])
             (Enhanced.Date 2024 1 16) []).
    vm_compute. lia.
Defined.

(** ** Strings: file names of the daily rasters *)

Lemma prefix_append (p s : string) :
  String.prefix p s = true -> exists rest, s = p +:+ rest.
Proof.
  revert s. induction p as [|c p IH]; intros s.
  - exists s. reflexivity.
  - destruct s as [|c' s]; simpl; [intros; discriminate|].
    destruct (ascii_dec c c') as [<- | _]; [|intros; discriminate].
    intros H. destruct (IH _ H) as (rest & ->). exists rest. reflexivity.
Qed.

Lemma prefix_empty (s : string) : String.prefix "" s = true.
Proof. destruct s; reflexivity. Qed.

Lemma split_aux_nonempty (sep : string) (skip : nat) (s : string) :
  PyStr.split_aux sep skip s <> [].
Proof.
  revert skip. induction s as [|c s IH]; intros skip; [easy|].
  cbn [PyStr.split_aux].
  destruct skip as [|k]; [|apply IH].
  destruct (String.prefix sep (String c s)); [easy|].
  destruct (PyStr.split_aux sep 0 s); easy.
Qed.

(** A name that starts with ["uganda_"] has a second piece between
    underscores. *)
Lemma split_underscore_uganda (name : string) :
  String.prefix "uganda_" name = true ->
  exists v rest, PyStr.split "_" name = "uganda"%string :: v :: rest.
Proof.
  intros H. destruct (prefix_append _ _ H) as (tail & ->).
  unfold PyStr.split.
  destruct (PyStr.split_aux "_" 0 tail) as [|v rest] eqn:E.
  { exfalso. exact (split_aux_nonempty _ _ _ E). }
  exists v, rest. cbv [String.append]. simpl.
  rewrite E, prefix_empty. reflexivity.
Qed.

Lemma prefix_substring_0 (p s : string) (m : nat) :
  String.prefix p (String.substring 0 m s) = true -> String.prefix p s = true.
Proof.
  revert s m. induction p as [|c p IH]; intros s m;
    [intros _; apply prefix_empty|].
  destruct s as [|c' s]; destruct m as [|m]; simpl;
    try (intros; discriminate).
  destruct (ascii_dec c c'); [apply IH | intros; discriminate].
Qed.

Lemma contains_unfold (p : string) (c : ascii) (s : string) :
  PyStr.contains p (String c s)
  = String.prefix p (String c s) || PyStr.contains p s.
Proof. reflexivity. Qed.

Lemma contains_cons (p : string) (c : ascii) (s : string) :
  PyStr.contains p s = true -> PyStr.contains p (String c s) = true.
Proof. intros H. rewrite contains_unfold, H. apply orb_true_r. Qed.

Lemma contains_empty (s : string) : PyStr.contains "" s = true.
Proof. destruct s; reflexivity. Qed.

Lemma contains_substring_0 (p s : string) (m : nat) :
  PyStr.contains p (String.substring 0 m s) = true ->
  PyStr.contains p s = true.
Proof.
  revert m. induction s as [|c s IH]; intros m.
  - destruct m; simpl; auto.
  - destruct m as [|m].
    + simpl. destruct p; [reflexivity | intros; discriminate].
    + intros H.
      change (String.substring 0 (S m) (String c s))
        with (String c (String.substring 0 m s)) in H.
      change (String.prefix p (String c (String.substring 0 m s))
              || PyStr.contains p (String.substring 0 m s) = true) in H.
      apply orb_true_iff in H. destruct H as [H | H].
      * change (String.prefix p (String.substring 0 (S m) (String c s)) = true)
          in H.
        apply prefix_substring_0 in H. rewrite contains_unfold, H.
        reflexivity.
      * apply contains_cons, (IH m), H.
Qed.

Lemma contains_substring (p s : string) (n m : nat) :
  PyStr.contains p (String.substring n m s) = true ->
  PyStr.contains p s = true.
Proof.
  revert s. induction n as [|n IH]; intros s.
  - apply contains_substring_0.
  - destruct s as [|c s]; [auto|].
    intros H. apply contains_cons, IH, H.
Qed.

(** Where the separator occurs, [split] yields at least two pieces. *)
Lemma split_contains (sep s : string) :
  sep <> ""%string -> PyStr.contains sep s = true ->
  exists piece1 piece2 rest, PyStr.split sep s = piece1 :: piece2 :: rest.
Proof.
  intros Hsep. unfold PyStr.split.
  induction s as [|c s IH]; intros H.
  - destruct sep; [congruence | discriminate].
  - change (String.prefix sep (String c s) || PyStr.contains sep s = true) in H.
    cbn [PyStr.split_aux].
    destruct (String.prefix sep (String c s)) eqn:Hp.
    + destruct (PyStr.split_aux sep (String.length sep - 1) s) as [|x xs] eqn:E.
      { exfalso. exact (split_aux_nonempty _ _ _ E). }
      eauto.
    + simpl in H. destruct (IH H) as (p1 & p2 & rest & ->). eauto.
Qed.

Lemma fnmatch_daily_pieces (f : string) :
  Enhanced.fnmatch_daily (PyStr.basename f) = true ->
  (exists v, Enhanced.variable_of_file f = Returned v)
  /\ (exists d,
         PyStr.index (PyStr.split "_daily_" (PyStr.basename f)) 1 = Returned d).
Proof.
  unfold Enhanced.fnmatch_daily. intros H.
  apply andb_true_iff in H. destruct H as [H Hmid].
  apply andb_true_iff in H. destruct H as [Hpre _].
  split.
  - destruct (split_underscore_uganda _ Hpre) as (v & rest & E).
    exists v. unfold Enhanced.variable_of_file. rewrite E. reflexivity.
  - apply contains_substring in Hmid.
    destruct (split_contains "_daily_" _ ltac:(discriminate) Hmid)
      as (p1 & d & rest & E).
    exists d. rewrite E. reflexivity.
Qed.

(** ** Comprehensions and loops in the exception monad *)

Lemma traverse_Returned {A B : Type} (f : A -> outcome B) (l : list A) :
  (forall x, In x l -> exists y, f x = Returned y) ->
  exists ys, traverse f l = Returned ys
             /\ length ys = length l
             /\ forall k x, l !! k = Some x ->
                            exists y, ys !! k = Some y /\ f x = Returned y.
Proof.
  induction l as [|x l IH]; intros Hall.
  - exists []. repeat split. intros k x Hk. destruct k; discriminate.
  - destruct (Hall x (or_introl eq_refl)) as (y & Hy).
    destruct IH as (ys & Hys & Hlen & Hnth).
    { intros x' Hx'. apply Hall. right. exact Hx'. }
    exists (y :: ys). simpl. rewrite Hy. simpl. rewrite Hys. simpl.
    repeat split; [congruence|].
    intros [|k] x' Hk; simpl in *.
    + injection Hk as <-. eauto.
    + apply Hnth, Hk.
Qed.

Lemma enumerate_lookup {A : Type} (start : nat) (l : list A) (k : nat)
    (item : nat * A) :
  enumerate start l !! k = Some item <->
  fst item = (start + k)%nat /\ l !! k = Some (snd item).
Proof.
  unfold enumerate. destruct item as [i x]. simpl.
  rewrite lookup_zip_with_Some. split.
  - intros (i' & x' & [= <- <-] & Hi & Hx).
    apply lookup_seq in Hi. tauto.
  - intros [-> Hx]. exists (start + k)%nat, x.
    repeat split; [|exact Hx].
    apply lookup_seq. split; [reflexivity|].
    apply lookup_lt_Some in Hx. exact Hx.
Qed.

Lemma enumerate_length {A : Type} (start : nat) (l : list A) :
  length (enumerate start l) = length l.
Proof.
  unfold enumerate. rewrite length_zip_with, length_seq. lia.
Qed.

(** ** The catalog *)

Lemma build_catalog_spec (all_daily_rasters : list string) :
  (forall f, In f all_daily_rasters ->
             Enhanced.fnmatch_daily (PyStr.basename f) = true) ->
  exists cat,
    Enhanced.build_catalog all_daily_rasters = Returned cat
    /\ Enhanced.total_bands cat = length all_daily_rasters
    /\ length (Enhanced.band_catalog cat) = length all_daily_rasters
    /\ forall k f, all_daily_rasters !! k = Some f ->
         exists e, Enhanced.band_catalog cat !! k = Some e
                   /\ Enhanced.band_number e = S k
                   /\ Enhanced.filename e = PyStr.basename f.
Proof.
  intros Hmatch. unfold Enhanced.build_catalog.
  destruct (traverse_Returned Enhanced.variable_of_file all_daily_rasters)
    as (vars & -> & _ & _).
  { intros f Hf. apply fnmatch_daily_pieces, Hmatch, Hf. }
  destruct (traverse_Returned Enhanced.catalog_entry
              (enumerate 0 all_daily_rasters))
    as (entries & -> & Hlen & Hnth).
  { intros [i f] Hin. apply list_elem_of_In, list_elem_of_lookup in Hin.
    destruct Hin as (k & Hk). apply enumerate_lookup in Hk.
    destruct Hk as [_ Hk]. simpl in Hk.
    assert (Hf : In f all_daily_rasters).
    { apply list_elem_of_In, list_elem_of_lookup. eauto. }
    destruct (fnmatch_daily_pieces f (Hmatch f Hf)) as ((v & Hv) & (d & Hd)).
    unfold Enhanced.catalog_entry. rewrite Hv. simpl. rewrite Hd. simpl. eauto. }
  simpl. eexists. split; [reflexivity|]. simpl.
  rewrite enumerate_length in Hlen.
  split; [reflexivity|]. split; [exact Hlen|].
  intros k f Hk.
  destruct (Hnth k (k, f)) as (e & He & Hentry).
  { apply enumerate_lookup. simpl. auto. }
  exists e. split; [exact He|].
  unfold Enhanced.catalog_entry in Hentry.
  inv_bind Hentry. inv_bind Hentry. injection Hentry as <-. simpl.
  split; [lia | reflexivity].
Qed.

(** ** Geostack assembly *)

Lemma open_Returned (fs : gmap string Enhanced.raster) (path : string)
    (r : Enhanced.raster) :
  fs !! path = Some r -> Enhanced.open_ fs path = Returned r.
Proof. intros H. unfold Enhanced.open_. rewrite H. reflexivity. Qed.

Lemma read1_Returned (src : Enhanced.raster) (data : matrix) :
  Enhanced.bands src !! 0%nat = Some data ->
  Enhanced.read1 src
  = Returned (Enhanced.Array (Enhanced.height src, Enhanced.width src) data).
Proof. intros H. unfold Enhanced.read1. rewrite H. reflexivity. Qed.

(** An array of the shape of the file is stored as it is. *)
Lemma fit_same_shape resample (h w : nat) (data : matrix) :
  Enhanced.fit resample h w (Enhanced.Array (h, w) data) = data.
Proof.
  unfold Enhanced.fit. cbn [Enhanced.a_shape Enhanced.a_values fst snd].
  rewrite !Nat.eqb_refl. reflexivity.
Qed.

Lemma write_band_Returned resample (dst : Enhanced.raster) (k : nat)
    (data : Enhanced.array) (description : string) :
  (k < length (Enhanced.bands dst))%nat ->
  Enhanced.write_band resample dst (S k) data description
  = Returned (Enhanced.Raster (Enhanced.height dst) (Enhanced.width dst)
                (Enhanced.transform dst)
                (<[k := Enhanced.fit resample (Enhanced.height dst)
                          (Enhanced.width dst) data]> (Enhanced.bands dst))
                (<[k := description]> (Enhanced.descriptions dst))).
Proof.
  intros Hk. unfold Enhanced.write_band.
  destruct (Nat.leb_spec 1 (S k)); [|lia].
  destruct (Nat.leb_spec (S k) (length (Enhanced.bands dst))); [|lia].
  simpl. rewrite Nat.sub_0_r. reflexivity.
Qed.

Lemma stack_step_Returned resample (geostack_file : string)
    (describe : string -> string)
    (fs : gmap string Enhanced.raster) (k : nat) (f : string)
    (src : Enhanced.raster) (data : matrix) (dst : Enhanced.raster) :
  fs !! f = Some src ->
  Enhanced.bands src !! 0%nat = Some data ->
  fs !! geostack_file = Some dst ->
  (k < length (Enhanced.bands dst))%nat ->
  Enhanced.stack_step resample geostack_file describe fs (S k, f)
  = Returned
      (<[geostack_file :=
           Enhanced.Raster (Enhanced.height dst) (Enhanced.width dst)
             (Enhanced.transform dst)
             (<[k := Enhanced.fit resample (Enhanced.height dst)
                       (Enhanced.width dst)
                       (Enhanced.Array
                          (Enhanced.height src, Enhanced.width src) data)]>
                (Enhanced.bands dst))
             (<[k := describe f]> (Enhanced.descriptions dst))]> fs).
Proof.
  intros Hsrc Hdata Hdst Hk. unfold Enhanced.stack_step.
  rewrite (open_Returned _ _ _ Hsrc). cbn [mbind outcome_bind].
  rewrite (read1_Returned _ _ Hdata). cbn [mbind outcome_bind].
  rewrite (open_Returned _ _ _ Hdst). cbn [mbind outcome_bind].
  rewrite write_band_Returned by exact Hk. reflexivity.
Qed.

(** The loop of the assembler when the stack is not one of its inputs:
    after the files from position [k] on have been written, the stack has
    the size and the transform it had, the bands before [k] are as they
    were, band [k + j] holds the first band of the [j]-th remaining file,
    fitted to the size of the stack, and no other file has changed. *)
Lemma stack_loop_content resample (geostack_file : string)
    (describe : string -> string)
    (fs0 : gmap string Enhanced.raster) (n : nat) :
  forall (files : list string) (k : nat) (fs_cur : gmap string Enhanced.raster)
         (dst : Enhanced.raster),
    fs_cur !! geostack_file = Some dst ->
    length (Enhanced.bands dst) = n ->
    (k + length files <= n)%nat ->
    (forall p, p <> geostack_file -> fs_cur !! p = fs0 !! p) ->
    (forall f, In f files ->
               f <> geostack_file
               /\ exists src data, fs0 !! f = Some src
                                   /\ Enhanced.bands src !! 0%nat = Some data) ->
    exists fs' dst',
      foldM (Enhanced.stack_step resample geostack_file describe)
        (zip (seq (S k) (length files)) files) fs_cur = Returned fs'
      /\ fs' !! geostack_file = Some dst'
      /\ length (Enhanced.bands dst') = n
      /\ Enhanced.height dst' = Enhanced.height dst
      /\ Enhanced.width dst' = Enhanced.width dst
      /\ Enhanced.transform dst' = Enhanced.transform dst
      /\ (forall p, p <> geostack_file -> fs' !! p = fs0 !! p)
      /\ (forall j, (j < k)%nat ->
                    Enhanced.bands dst' !! j = Enhanced.bands dst !! j)
      /\ (forall j f, files !! j = Some f ->
            exists src data,
              fs0 !! f = Some src
              /\ Enhanced.bands src !! 0%nat = Some data
              /\ Enhanced.bands dst' !! (k + j)%nat
                 = Some (Enhanced.fit resample (Enhanced.height dst)
                           (Enhanced.width dst)
                           (Enhanced.Array
                              (Enhanced.height src, Enhanced.width src)
                              data))).
Proof.
  induction files as [|f files IH]; intros k fs_cur dst Hdst Hlen Hk Hsame Hfiles.
  - exists fs_cur, dst. simpl. repeat split; auto.
    intros j f Hj. destruct j; discriminate.
  - destruct (Hfiles f (or_introl eq_refl)) as (Hf & src & data & Hsrc & Hdata).
    simpl in Hk.
    set (dst1 := Enhanced.Raster (Enhanced.height dst) (Enhanced.width dst)
                   (Enhanced.transform dst)
                   (<[k := Enhanced.fit resample (Enhanced.height dst)
                             (Enhanced.width dst)
                             (Enhanced.Array
                                (Enhanced.height src, Enhanced.width src)
                                data)]> (Enhanced.bands dst))
                   (<[k := describe f]> (Enhanced.descriptions dst))).
    destruct (IH (S k) (<[geostack_file := dst1]> fs_cur) dst1)
      as (fs' & dst' & Hfold & Hdst' & Hlen' & Hh & Hw & Ht & Hsame'
          & Hbefore & Hafter).
    + apply lookup_insert_eq.
    + simpl. rewrite length_insert. exact Hlen.
    + lia.
    + intros p Hp. rewrite lookup_insert_ne by congruence. apply Hsame, Hp.
    + intros f' Hf'. apply Hfiles. right. exact Hf'.
    + exists fs', dst'.
      split; [|split; [exact Hdst'|split; [exact Hlen'|split; [exact Hh|
               split; [exact Hw|split; [exact Ht|split; [exact Hsame'|
               split]]]]]]].
      * change (Enhanced.stack_step resample geostack_file describe fs_cur
                  (S k, f)
                ≫= foldM (Enhanced.stack_step resample geostack_file describe)
                     (zip (seq (S (S k)) (length files)) files)
                = Returned fs').
        rewrite (stack_step_Returned _ _ _ _ _ _ src data dst);
          [exact Hfold | rewrite Hsame; assumption | assumption
           | assumption | lia].
      * intros j Hj. rewrite Hbefore by lia. simpl.
        apply list_lookup_insert_ne. lia.
      * intros [|j] f' Hj; simpl in Hj.
        -- injection Hj as <-. exists src, data.
           split; [assumption|]. split; [assumption|].
           rewrite Nat.add_0_r, Hbefore by lia. simpl.
           apply list_lookup_insert_eq. lia.
        -- destruct (Hafter j f' Hj) as (src' & data' & ? & ? & Hband).
           exists src', data'. split; [assumption|]. split; [assumption|].
           replace (k + S j)%nat with (S k + j)%nat by lia. exact Hband.
Qed.

(** The stack of an assembly has the size and the transform of the first
    file, one band per file, and band [k] holds the first band of the
    [k]-th file fitted to that size. *)
Lemma assemble_content resample (geostack_file : string)
    (describe : string -> string)
    (fs : gmap string Enhanced.raster) (files : list string) :
  files <> [] ->
  (forall f, In f files ->
             f <> geostack_file
             /\ exists src data, fs !! f = Some src
                                 /\ Enhanced.bands src !! 0%nat = Some data) ->
  exists fs' stack template,
    Enhanced.assemble resample geostack_file describe fs files = Returned fs'
    /\ fs' !! geostack_file = Some stack
    /\ (head files ≫= (fs !!.)) = Some template
    /\ Enhanced.height stack = Enhanced.height template
    /\ Enhanced.width stack = Enhanced.width template
    /\ Enhanced.transform stack = Enhanced.transform template
    /\ length (Enhanced.bands stack) = length files
    /\ (forall p, p <> geostack_file -> fs' !! p = fs !! p)
    /\ (forall k f, files !! k = Some f ->
          exists src data,
            fs !! f = Some src
            /\ Enhanced.bands src !! 0%nat = Some data
            /\ Enhanced.bands stack !! k
               = Some (Enhanced.fit resample (Enhanced.height stack)
                         (Enhanced.width stack)
                         (Enhanced.Array
                            (Enhanced.height src, Enhanced.width src) data))).
Proof.
  intros Hne Hfiles. destruct files as [|first files']; [congruence|].
  destruct (Hfiles first (or_introl eq_refl)) as (_ & template & _ & Htemplate & _).
  set (files := first :: files') in *.
  set (fs1 := Enhanced.create fs geostack_file template (length files)).
  destruct (stack_loop_content resample geostack_file describe fs (length files)
              files 0%nat fs1
              (Enhanced.Raster (Enhanced.height template) (Enhanced.width template)
                 (Enhanced.transform template)
                 (replicate (length files)
                    (Np.zeros (Enhanced.height template) (Enhanced.width template)))
                 (replicate (length files) EmptyString)))
    as (fs' & stack & Hfold & Hstack & Hlen & Hh & Hw & Ht & Hsame & _ & Hbands).
  - apply lookup_insert_eq.
  - cbn [Enhanced.bands]. apply length_replicate.
  - lia.
  - intros p Hp. unfold fs1, Enhanced.create.
    apply lookup_insert_ne. congruence.
  - exact Hfiles.
  - cbn [Enhanced.height Enhanced.width Enhanced.transform] in Hh, Hw, Ht, Hbands.
    exists fs', stack, template.
    split; [|split; [exact Hstack|split; [|split; [exact Hh|split; [exact Hw|
             split; [exact Ht|split; [exact Hlen|split; [exact Hsame|]]]]]]]].
    + unfold Enhanced.assemble. subst files. cbv iota.
      rewrite (open_Returned _ _ _ Htemplate). exact Hfold.
    + subst files. cbn [head mbind option_bind]. exact Htemplate.
    + intros k f Hk. rewrite Hh, Hw. exact (Hbands k f Hk).
Qed.

(** ** The multi-variable geostack and its catalog *)

Lemma glob_daily_In (fs : gmap string Enhanced.raster) (p : string) :
  In p (Enhanced.glob_daily fs) ->
  is_Some (fs !! p) /\ Enhanced.fnmatch_daily (PyStr.basename p) = true.
Proof.
  unfold Enhanced.glob_daily. intros Hp.
  apply list_elem_of_In in Hp. rewrite merge_sort_Permutation in Hp.
  apply list_elem_of_In, filter_In in Hp. destruct Hp as [Hp Hmatch].
  apply andb_true_iff in Hmatch. destruct Hmatch as [_ Hmatch].
  split; [|exact Hmatch].
  apply in_map_iff in Hp. destruct Hp as ([p' r] & <- & Hin).
  apply list_elem_of_In, elem_of_map_to_list in Hin. simpl. eauto.
Qed.

Lemma glob_daily_not_stack (fs : gmap string Enhanced.raster) (p : string) :
  In p (Enhanced.glob_daily fs) -> p <> Enhanced.multi_geostack_file.
Proof.
  intros Hp ->. apply glob_daily_In in Hp. destruct Hp as [_ Hp].
  vm_compute in Hp. discriminate.
Qed.

Lemma readable_first_band (fs : gmap string Enhanced.raster) (p : string) :
  Spec.readable fs -> is_Some (fs !! p) ->
  exists src data, fs !! p = Some src /\ Enhanced.bands src !! 0%nat = Some data.
Proof.
  intros Hfs [src Hsrc]. specialize (Hfs p src Hsrc).
  destruct (Enhanced.bands src) as [|data rest] eqn:E; [congruence|].
  exists src, data. rewrite E. auto.
Qed.

Lemma create_multi_geostack_empty resample
    (fs : gmap string Enhanced.raster) :
  Enhanced.glob_daily fs = [] ->
  Enhanced.create_multi_geostack resample fs = Returned (fs, None).
Proof. intros H. unfold Enhanced.create_multi_geostack. rewrite H. reflexivity. Qed.

(** C2. When the output directory holds daily rasters, step 5 writes the
    multi-variable geostack and builds its catalog over the same ordered
    list of files: both have one entry per file, the geostack has the size
    of the first file, and for every position [k] the band [k + 1] of the
    geostack is what [dst.write] makes of the data read from the [k]-th
    file (those data themselves when the file has the size of the geostack,
    their resampling to that size otherwise) while the [k]-th catalog entry
    has [band_number = k + 1] and names that file. *)
Theorem C2_catalog_entry_matches_band :
  forall resample (fs : gmap string Enhanced.raster),
    Spec.readable fs ->
    Enhanced.glob_daily fs <> [] ->
    exists fs' cat stack first,
      Enhanced.create_multi_geostack resample fs = Returned (fs', Some cat)
      /\ fs' !! Enhanced.multi_geostack_file = Some stack
      /\ (head (Enhanced.glob_daily fs) ≫= (fs !!.)) = Some first
      /\ Enhanced.height stack = Enhanced.height first
      /\ Enhanced.width stack = Enhanced.width first
      /\ length (Enhanced.bands stack) = length (Enhanced.glob_daily fs)
      /\ length (Enhanced.band_catalog cat) = length (Enhanced.glob_daily fs)
      /\ Enhanced.total_bands cat = length (Enhanced.glob_daily fs)
      /\ forall k f, Enhanced.glob_daily fs !! k = Some f ->
           exists src data e,
             fs !! f = Some src
             /\ Enhanced.bands src !! 0%nat = Some data
             /\ Enhanced.bands stack !! k
                = Some (Enhanced.fit resample (Enhanced.height stack)
                          (Enhanced.width stack)
                          (Enhanced.Array
                             (Enhanced.height src, Enhanced.width src) data))
             /\ (Enhanced.height src = Enhanced.height stack ->
                 Enhanced.width src = Enhanced.width stack ->
                 Enhanced.bands stack !! k = Some data)
             /\ Enhanced.band_catalog cat !! k = Some e
             /\ Enhanced.band_number e = S k
             /\ Enhanced.filename e = PyStr.basename f.
Proof.
  intros resample fs Hfs Hne.
  destruct (assemble_content resample Enhanced.multi_geostack_file
              Enhanced.multi_description fs (Enhanced.glob_daily fs) Hne)
    as (fs' & stack & first & Hasm & Hstack & Hfirst & Hh & Hw & _ & Hlen & _
        & Hbands).
  { intros f Hf. split; [eapply glob_daily_not_stack, Hf|].
    apply readable_first_band; [exact Hfs|]. apply glob_daily_In, Hf. }
  destruct (build_catalog_spec (Enhanced.glob_daily fs))
    as (cat & Hcat & Htotal & Hclen & Hentries).
  { intros f Hf. apply (glob_daily_In fs), Hf. }
  exists fs', cat, stack, first.
  split; [|split; [exact Hstack|split; [exact Hfirst|split; [exact Hh|
           split; [exact Hw|split; [exact Hlen|split; [exact Hclen|
           split; [exact Htotal|]]]]]]]].
  - unfold Enhanced.create_multi_geostack.
    destruct (Enhanced.glob_daily fs) as [|f0 files] eqn:E; [congruence|].
    rewrite Hasm. cbn [mbind outcome_bind]. rewrite Hcat. reflexivity.
  - intros k f Hk.
    destruct (Hbands k f Hk) as (src & data & Hsrc & Hdata & Hband).
    destruct (Hentries k f Hk) as (e & He & Hnum & Hname).
    exists src, data, e.
    split; [exact Hsrc|]. split; [exact Hdata|]. split; [exact Hband|].
    split; [|split; [exact He|split; [exact Hnum | exact Hname]]].
    intros Hsh Hsw. rewrite Hband, Hsh, Hsw, fit_same_shape. reflexivity.
Qed.

Lemma readable_empty : Spec.readable ∅.
Proof. intros path r H. rewrite lookup_empty in H. discriminate. Qed.

Lemma readable_insert (fs : gmap string Enhanced.raster) (path : string)
    (r : Enhanced.raster) :
  Enhanced.bands r <> [] -> Spec.readable fs -> Spec.readable (<[path := r]> fs).
Proof.
  intros Hr Hfs p r' H. apply lookup_insert_Some in H.
  destruct H as [[_ <-] | [_ H]]; [exact Hr | exact (Hfs p r' H)].
Qed.

(** C2 at a directory with one raster of each of two variables; the two
    rasters have one size, so both are stored as they are. *)
Lemma C2_two_rasters_witness :
  exists fs' cat stack,
    Enhanced.create_multi_geostack Examples.no_resample Examples.two_rasters
    = Returned (fs', Some cat)
    /\ fs' !! Enhanced.multi_geostack_file = Some stack
    /\ length (Enhanced.bands stack)
       = length (Enhanced.glob_daily Examples.two_rasters)
    /\ length (Enhanced.band_catalog cat)
       = length (Enhanced.glob_daily Examples.two_rasters)
    /\ Enhanced.total_bands cat
       = length (Enhanced.glob_daily Examples.two_rasters)
    /\ forall k f, Enhanced.glob_daily Examples.two_rasters !! k = Some f ->
         exists src data e,
           Examples.two_rasters !! f = Some src
           /\ Enhanced.bands src !! 0%nat = Some data
           /\ Enhanced.bands stack !! k = Some data
           /\ Enhanced.band_catalog cat !! k = Some e
           /\ Enhanced.band_number e = S k
           /\ Enhanced.filename e = PyStr.basename f.
Proof.
  destruct (C2_catalog_entry_matches_band Examples.no_resample
              Examples.two_rasters)
    as (fs' & cat & stack & first & Hrun & Hstack & Hfirst & Hh & Hw & Hlen
        & Hclen & Htotal & Hbands).
  - apply readable_insert; [discriminate|].
    apply readable_insert; [discriminate|].
    apply readable_empty.
  - vm_compute. discriminate.
  - exists fs', cat, stack.
    split; [exact Hrun|]. split; [exact Hstack|]. split; [exact Hlen|].
    split; [exact Hclen|]. split; [exact Htotal|].
    assert (Hone : Enhanced.height first = 1%nat /\ Enhanced.width first = 1%nat).
    { vm_compute in Hfirst. injection Hfirst as <-. split; reflexivity. }
    destruct Hone as [Hfh Hfw].
    intros k f Hk.
    destruct (Hbands k f Hk)
      as (src & data & e & Hsrc & Hdata & _ & Hsame & He & Hnum & Hname).
    exists src, data, e.
    split; [exact Hsrc|]. split; [exact Hdata|].
    split; [|split; [exact He|split; [exact Hnum | exact Hname]]].
    assert (Hsize : Enhanced.height src = 1%nat /\ Enhanced.width src = 1%nat).
    { destruct k as [|[|k]]; vm_compute in Hk; [| |discriminate Hk];
        injection Hk as <-; vm_compute in Hsrc; injection Hsrc as <-;
        split; reflexivity. }
    destruct Hsize as [Hsh Hsw]. apply Hsame; congruence.
Defined.

(** The stack and the catalog of that directory: the files in sorted
    order, numbered from 1. *)
Example two_rasters_catalog :
  Examples.stack_and_catalog
    (Enhanced.create_multi_geostack Examples.no_resample Examples.two_rasters)
  = Some ([[[3]]; [[7]]],
          [(1%nat, "uganda_NDVI_daily_2024-01-16.tif", "NDVI", "2024-01-16");
           (2%nat, "uganda_pm25_daily_2024-01-15.tif", "pm25", "2024-01-15")]%string).
Proof. vm_compute. reflexivity. Qed.

(** When the raster of [pm25] has four pixels, the stack takes the size of
    the first file, which has one: band 2 is still written from the raster
    of [pm25] and catalogued under its name, but it holds the one pixel to
    which the four were resampled (here by a resampler that keeps the upper
    left one). *)
Example two_sizes_catalog :
  Examples.stack_and_catalog
    (Enhanced.create_multi_geostack Examples.no_resample Examples.two_sizes)
  = Some ([[[3]]; [[7]]],
          [(1%nat, "uganda_NDVI_daily_2024-01-16.tif", "NDVI", "2024-01-16");
           (2%nat, "uganda_pm25_daily_2024-01-15.tif", "pm25", "2024-01-15")]%string).
Proof. vm_compute. reflexivity. Qed.

(** ** The loop over the days *)

Lemma encode_bands (g : Enhanced.grid) (z : matrix) (variable : string)
    (d : Enhanced.date) (r : Enhanced.raster) :
  Enhanced.encode g z variable d = Returned r -> Enhanced.bands r = [z].
Proof.
  unfold Enhanced.encode. intros H.
  inv_bind H. inv_bind H. inv_bind H. inv_bind H.
  injection H as <-. reflexivity.
Qed.

(** A day either counts as a failure or writes one single-band raster under
    the name of the variable and the day. *)
Lemma process_day_cases kriging rbf (cfg : Enhanced.config) (g : Enhanced.grid)
    (variable : string) (valid_data : list Enhanced.record)
    (st : Enhanced.day_state) (d : Enhanced.date) :
  Enhanced.process_day kriging rbf cfg g variable valid_data st d
  = Enhanced.count_failure st
  \/ exists r z,
       Enhanced.process_day kriging rbf cfg g variable valid_data st d
       = Enhanced.count_success st (Enhanced.daily_file variable d) r
       /\ Enhanced.bands r = [z].
Proof.
  unfold Enhanced.process_day.
  destruct (_ <? 5)%nat; [left; reflexivity|].
  destruct (Enhanced.perform_interpolation _ _ _ _ _ _) as [[z|]|e];
    cbn [mbind outcome_bind]; try (left; reflexivity).
  destruct (Enhanced.encode g z variable d) as [r|e] eqn:E;
    cbn [mbind outcome_bind]; [|left; reflexivity].
  right. exists r, z. split; [reflexivity|]. eapply encode_bands, E.
Qed.

Lemma process_day_inv kriging rbf (cfg : Enhanced.config) (g : Enhanced.grid)
    (variable : string) (valid_data : list Enhanced.record)
    (st : Enhanced.day_state) (d : Enhanced.date) :
  Spec.day_inv variable st ->
  Spec.day_inv variable
    (Enhanced.process_day kriging rbf cfg g variable valid_data st d).
Proof.
  intros [Hfs Hfiles].
  destruct (process_day_cases kriging rbf cfg g variable valid_data st d)
    as [-> | (r & z & -> & Hr)].
  - split; assumption.
  - split; simpl.
    + apply readable_insert; [rewrite Hr; discriminate | exact Hfs].
    + intros f Hf. apply in_app_or in Hf. destruct Hf as [Hf | [<- | []]].
      * destruct (Hfiles f Hf) as [Hsome Hname]. split; [|exact Hname].
        apply lookup_insert_is_Some'. right. exact Hsome.
      * split; [|eauto]. apply lookup_insert_is_Some'. left. reflexivity.
Qed.

Lemma days_loop_inv kriging rbf (cfg : Enhanced.config) (g : Enhanced.grid)
    (variable : string) (valid_data : list Enhanced.record)
    (dates : list Enhanced.date) (st : Enhanced.day_state) :
  Spec.day_inv variable st ->
  Spec.day_inv variable
    (fold_left (Enhanced.process_day kriging rbf cfg g variable valid_data)
       dates st).
Proof.
  revert st. induction dates as [|d dates IH]; intros st Hst; simpl.
  - exact Hst.
  - apply IH, process_day_inv, Hst.
Qed.

(** ** A daily raster is never the stack of its variable *)

Lemma append_inj_l (s a b : string) : s +:+ a = s +:+ b -> a = b.
Proof.
  induction s as [|c s IH]; cbn [String.append]; intros H.
  - exact H.
  - injection H as H. apply IH, H.
Qed.

Lemma daily_file_not_stack (variable : string) (d : Enhanced.date) :
  Enhanced.daily_file variable d <> Enhanced.variable_geostack_file variable.
Proof.
  unfold Enhanced.daily_file, Enhanced.variable_geostack_file, Enhanced.join.
  intros H.
  apply append_inj_l, append_inj_l in H.
  change ("uganda_" +:+ variable +:+ "_daily_" +:+ Enhanced.date_str d +:+ ".tif")
    with ("uganda_" +:+ (variable +:+ "_daily_" +:+ Enhanced.date_str d +:+ ".tif"))
    in H.
  change ("uganda_" +:+ variable +:+ "_geostack.tif")
    with ("uganda_" +:+ (variable +:+ "_geostack.tif")) in H.
  apply append_inj_l, append_inj_l in H.
  cbv [String.append] in H. discriminate.
Qed.

(** ** One variable, all variables *)

Lemma process_variable_total kriging rbf resample (cfg : Enhanced.config)
    (clean : list Enhanced.record) (st : Enhanced.run_state)
    (variable : string) :
  0 < Enhanced.grid_resolution cfg ->
  0 <= Enhanced.buffer_percent cfg ->
  Spec.readable (Enhanced.fs st) ->
  exists st',
    Enhanced.process_variable kriging rbf
      resample cfg clean st variable = Returned st'
    /\ Spec.readable (Enhanced.fs st').
Proof.
  intros Hres Hbuf Hfs. unfold Enhanced.process_variable.
  set (valid_data := List.filter (Enhanced.has_value variable) clean).
  destruct (Nat.ltb_spec (length valid_data) 10) as [Hfew | Hmany].
  { exists st. auto. }
  destruct (build_grid_total cfg valid_data Hres Hbuf) as (g & ->).
  { destruct valid_data; [simpl in Hmany; lia | discriminate]. }
  cbn [mbind outcome_bind].
  set (days := fold_left _ _ _).
  assert (Hdays : Spec.day_inv variable days).
  { apply days_loop_inv. split; [exact Hfs|]. intros f []. }
  destruct Hdays as [Hdfs Hdfiles].
  destruct (Enhanced.ds_files days) as [|f0 files] eqn:Efiles.
  - simpl. eexists. split; [reflexivity|]. exact Hdfs.
  - destruct (assemble_content resample
                (Enhanced.variable_geostack_file variable)
                (fun raster_file =>
                   variable +:+ " - " +:+ Enhanced.date_of_file raster_file)
                (Enhanced.ds_fs days) (f0 :: files))
      as (fs' & stack & template & -> & Hstack & _ & _ & _ & _ & Hlen & Hsame
          & _); [discriminate| |].
    + intros f Hf. destruct (Hdfiles f Hf) as [Hsome (d & ->)].
      split; [apply daily_file_not_stack|].
      apply readable_first_band; assumption.
    + cbn [mbind outcome_bind]. eexists. split; [reflexivity|]. simpl.
      intros p r Hp.
      destruct (decide (p = Enhanced.variable_geostack_file variable)) as [-> | Hne].
      * rewrite Hstack in Hp. injection Hp as <-.
        destruct (Enhanced.bands stack); [discriminate Hlen | discriminate].
      * rewrite Hsame in Hp by exact Hne. exact (Hdfs p r Hp).
Qed.

Lemma variables_loop_total kriging rbf resample (cfg : Enhanced.config)
    (clean : list Enhanced.record) (variables : list string)
    (st : Enhanced.run_state) :
  0 < Enhanced.grid_resolution cfg ->
  0 <= Enhanced.buffer_percent cfg ->
  Spec.readable (Enhanced.fs st) ->
  exists st',
    foldM (Enhanced.process_variable kriging rbf
      resample cfg clean) variables st
    = Returned st'
    /\ Spec.readable (Enhanced.fs st').
Proof.
  intros Hres Hbuf. revert st.
  induction variables as [|v variables IH]; intros st Hfs.
  - exists st. auto.
  - destruct (process_variable_total kriging rbf
    resample cfg clean st v Hres Hbuf Hfs)
      as (st1 & Hst1 & Hfs1).
    destruct (IH st1 Hfs1) as (st' & Hst' & Hfs').
    exists st'. split; [|exact Hfs'].
    cbn [foldM]. rewrite Hst1. exact Hst'.
Qed.

(** ** The whole run *)

Lemma create_multi_geostack_total resample
    (fs : gmap string Enhanced.raster) :
  Spec.readable fs ->
  exists fs' cat,
    Enhanced.create_multi_geostack resample fs = Returned (fs', cat).
Proof.
  intros Hfs. destruct (Enhanced.glob_daily fs) as [|f files] eqn:E.
  - exists fs, None. apply create_multi_geostack_empty, E.
  - destruct (assemble_content resample Enhanced.multi_geostack_file
                Enhanced.multi_description fs (Enhanced.glob_daily fs))
      as (fs' & _ & _ & Hasm & _); [rewrite E; discriminate | |].
    { intros p Hp. split; [eapply glob_daily_not_stack, Hp|].
      apply readable_first_band; [exact Hfs|]. apply glob_daily_In, Hp. }
    destruct (build_catalog_spec (Enhanced.glob_daily fs))
      as (cat & Hcat & _).
    { intros p Hp. apply (glob_daily_In fs), Hp. }
    exists fs', (Some cat). unfold Enhanced.create_multi_geostack.
    rewrite E in *. rewrite Hasm. cbn [mbind outcome_bind].
    rewrite Hcat. reflexivity.
Qed.

(** Under a positive cell size and a non-negative buffer the run returns:
    [False] when loading raised, [True] otherwise. *)
Lemma run_total to_datetime kriging rbf resample (cfg : Enhanced.config)
    (input : option Enhanced.table) (fs0 : gmap string Enhanced.raster) :
  0 < Enhanced.grid_resolution cfg ->
  0 <= Enhanced.buffer_percent cfg ->
  Spec.readable fs0 ->
  (forall e, Enhanced.load to_datetime input = Raised e ->
             Enhanced.run to_datetime kriging rbf resample cfg input fs0
             = Returned (false, None))
  /\ (forall data, Enhanced.load to_datetime input = Returned data ->
        exists rep, Enhanced.run to_datetime kriging rbf resample cfg input fs0
                    = Returned (true, Some rep)).
Proof.
  intros Hres Hbuf Hfs. unfold Enhanced.run. split.
  - intros e ->. reflexivity.
  - intros data ->.
    destruct (variables_loop_total kriging rbf
      resample cfg (Enhanced.uganda_clean data)
                (Enhanced.available_vars data) (Enhanced.RunState fs0 [] ∅)
                Hres Hbuf Hfs) as (st & -> & Hst).
    cbn [mbind outcome_bind].
    destruct (create_multi_geostack_total resample _ Hst) as (fs' & cat & ->).
    cbn [mbind outcome_bind]. eauto.
Qed.

(** C10. [run_enhanced_uganda_analysis] always returns; it returns [False]
    exactly when the loading step raised and [True] exactly when loading
    succeeded, whatever became of the jobs of the variables and days. *)
Theorem C10_returns_false_iff_loading_fails :
  forall to_datetime kriging rbf resample (input : option Enhanced.table)
         (fs0 : gmap string Enhanced.raster),
    Spec.readable fs0 ->
    exists (b : bool) (rep : option Enhanced.run_report),
      Enhanced.run_enhanced_uganda_analysis to_datetime kriging rbf resample input fs0
      = Returned (b, rep)
      /\ (b = false <-> exists e, Enhanced.load to_datetime input = Raised e)
      /\ (b = true <-> exists data, Enhanced.load to_datetime input
        = Returned data).
Proof.
  intros to_datetime kriging rbf resample input fs0 Hfs.
  unfold Enhanced.run_enhanced_uganda_analysis.
  destruct (run_total to_datetime kriging rbf resample Enhanced.default_config input fs0)
    as [Hfail Hok]; [reflexivity | discriminate | exact Hfs |].
  destruct (Enhanced.load to_datetime input) as [data | e] eqn:Hload.
  - destruct (Hok data eq_refl) as (rep & Hrun).
    exists true, (Some rep). split; [exact Hrun|]. split; split.
    + discriminate.
    + intros (e & He). discriminate.
    + eauto.
    + reflexivity.
  - exists false, None. split; [exact (Hfail e eq_refl)|]. split; split.
    + eauto.
    + reflexivity.
    + discriminate.
    + intros (data & Hd). discriminate.
Qed.

(** C10 at the three samples of scenario B: loading succeeds, the only
    variable is skipped, no raster is written, and the run returns [True]. *)
Lemma C10_no_raster_witness :
  exists rep,
    Enhanced.run_enhanced_uganda_analysis Examples.parse_day1
      Examples.no_kriging Examples.no_rbf
        Examples.no_resample (Some Examples.three_points) ∅
    = Returned (true, rep).
Proof.
  destruct (C10_returns_false_iff_loading_fails Examples.parse_day1
              Examples.no_kriging Examples.no_rbf Examples.no_resample
              (Some Examples.three_points) ∅ readable_empty)
    as (b & rep & Hrun & _ & Htrue).
  assert (Hb : b = true).
  { apply Htrue. eexists. vm_compute. reflexivity. }
  exists rep. rewrite <- Hb. exact Hrun.
Defined.

(** The run on a missing input file returns [False]. *)
Example run_without_input :
  Enhanced.run_enhanced_uganda_analysis Examples.parse_day1
    Examples.no_kriging Examples.no_rbf Examples.no_resample None ∅
  = Returned (false, None).
Proof. reflexivity. Qed.

(** ** Orientation of the written raster *)

(** Whatever the samples, row 0 of the surface computed by inverse distance
    weighting belongs to the first latitude of the grid. *)
Lemma idw_row_0 (g : Enhanced.grid) (coords : list (Q * Q)) (values : list Q)
    (glat0 : Q) (rest : list Q) :
  Enhanced.grid_lat g = glat0 :: rest ->
  Enhanced.idw g coords values !! 0%nat
  = Some (map (fun glon => Enhanced.idw_cell coords values glon glat0)
            (Enhanced.grid_lon g)).
Proof. intros E. unfold Enhanced.idw. rewrite E. reflexivity. Qed.

(** The first latitude of a grid with extent is its southern edge, and the
    transform of the encoder puts row 0 at its northern edge. *)
Lemma row_0_south_transform_north (cfg : Enhanced.config)
    (valid_data : list Enhanced.record) (g : Enhanced.grid) (z : matrix)
    (variable : string) (d : Enhanced.date) (r : Enhanced.raster)
    (lat_min lat_max : Q) :
  0 < Enhanced.buffer_percent cfg ->
  Enhanced.build_grid cfg valid_data = Returned g ->
  Np.amin (map Enhanced.r_lat valid_data) = Some lat_min ->
  Np.amax (map Enhanced.r_lat valid_data) = Some lat_max ->
  lat_min < lat_max ->
  (2 <= length (Enhanced.grid_lat g))%nat ->
  Enhanced.encode g z variable d = Returned r ->
  exists glat0 rest south north,
    Enhanced.grid_lat g = glat0 :: rest
    /\ Np.amin (Enhanced.grid_lat g) = Some south
    /\ Np.amax (Enhanced.grid_lat g) = Some north
    /\ glat0 == south /\ south < north
    /\ snd (Enhanced.pixel_corner (Enhanced.transform r) 0 0) == north.
Proof.
  intros Hf Hg Hmin Hmax Hlt Hlen Hr.
  destruct (build_grid_inv _ _ _ Hg)
    as (lat_min' & lat_max' & lon_min & lon_max & n_lat & n_lon
        & Hmin' & Hmax' & _ & _ & _ & _ & Hglat & _).
  rewrite Hmin in Hmin'. injection Hmin' as <-.
  rewrite Hmax in Hmax'. injection Hmax' as <-.
  destruct (linspace_Returned_length _ _ _ _ Hglat) as [_ Hn].
  assert (Hbuf : 0 < (lat_max - lat_min) * Enhanced.buffer_percent cfg).
  { apply Qmult_lt_0_compat; lra. }
  assert (Hwide : lat_min - (lat_max - lat_min) * Enhanced.buffer_percent cfg
                  < lat_max + (lat_max - lat_min) * Enhanced.buffer_percent cfg)
    by lra.
  assert (Hnum : (2 <= n_lat)%Z) by lia.
  destruct (linspace_range _ _ _ _ Hnum Hwide Hglat)
    as ((glat0 & rest & Egrid & Hfirst) & _ & _).
  destruct (linspace_extremes _ _ _ _ Hnum Hwide Hglat)
    as (south & north & Hsouth & Hnorth & Es & En).
  exists glat0, rest, south, north.
  repeat split; try assumption; try lra.
  unfold Enhanced.encode in Hr.
  inv_bind Hr. inv_bind Hr. inv_bind Hr. inv_bind Hr.
  apply require_Returned in Ha2. rewrite Hnorth in Ha2. injection Ha2 as <-.
  injection Hr as <-. simpl. ring.
Qed.

(** C1 fails on the code.  Ten samples of one day, value 1 along the
    southern edge and 9 along the northern edge, interpolated by inverse
    distance weighting: the transform of the written raster places pixel
    (0, 0) at the north-west corner (-0.002, 0.012) of the buffered box,
    but the value stored there is the estimate at the south-west corner
    (-0.002, -0.002), below 5, while the estimate at the north-west corner
    is above 5.  Row 0 of the band is the southernmost row of the grid. *)
Lemma C1_pixel_0_0_holds_south_west_estimate :
  let out :=
    Enhanced.run Examples.parse_day1 Examples.no_kriging Examples.no_rbf
      Examples.no_resample
      Examples.idw_config (Some Examples.south_north) ∅ in
  Examples.returned_flag out = Some true
  /\ exists r band z00,
      Examples.written_raster out (Enhanced.daily_file "NDVI" Examples.day1)
      = Some r
      /\ Enhanced.bands r !! 0%nat = Some band
      /\ Np.at_ band 0 0 = Some z00
      /\ fst (Enhanced.pixel_corner (Enhanced.transform r) 0 0) == - (2 # 1000)
      /\ snd (Enhanced.pixel_corner (Enhanced.transform r) 0 0) == 12 # 1000
      /\ z00 == Enhanced.idw_cell Examples.south_north_coords
                  Examples.south_north_values (- (2 # 1000)) (- (2 # 1000))
      /\ z00 < 5
      /\ 5 < Enhanced.idw_cell Examples.south_north_coords
               Examples.south_north_values (- (2 # 1000)) (12 # 1000).
Proof.
  intros out. split; [vm_compute; reflexivity|].
  lazymatch eval vm_compute in
    (Examples.written_raster out (Enhanced.daily_file "NDVI" Examples.day1)) with
  | Some ?r =>
      exists r;
      lazymatch eval vm_compute in (Enhanced.bands r !! 0%nat) with
      | Some ?band =>
          exists band;
          lazymatch eval vm_compute in (Np.at_ band 0 0) with
          | Some ?z00 => exists z00
          end
      end
  end.
  repeat (split; [vm_compute; reflexivity|]).
  vm_compute; reflexivity.
Qed.

(** * Part III: further properties of the two sources *)

(** ** The nodes of a grid axis *)

(** The samples of [np.linspace] for two samples or more. *)
Lemma linspace_nodes (start stop : Q) (num : Z) (l : list Q) :
  (2 <= num)%Z ->
  Np.linspace start stop num = Returned l ->
  l = map (fun i => start + inject_Z (Z.of_nat i)
                            * ((stop - start) / inject_Z (num - 1)))
        (seq 0 (Z.to_nat (num - 1)))
      ++ [stop].
Proof.
  intros Hnum. unfold Np.linspace.
  destruct (Z.ltb_spec num 0) as [Hneg | _]; [lia|].
  destruct (Z.to_nat num) as [|[|n]] eqn:En; [lia | lia |].
  intros H. injection H as <-.
  replace (num - 1)%Z with (Z.of_nat (S n)) by lia.
  rewrite Nat2Z.id. reflexivity.
Qed.

(** The samples of [np.linspace] by position. *)
Lemma linspace_lookup (start stop : Q) (num : Z) (l : list Q) (i : nat) :
  (2 <= num)%Z ->
  Np.linspace start stop num = Returned l ->
  (i < Z.to_nat num)%nat ->
  exists x, l !! i = Some x
            /\ x == start + inject_Z (Z.of_nat i)
                            * ((stop - start) / inject_Z (num - 1)).
Proof.
  intros Hnum Hl Hi. rewrite (linspace_nodes _ _ _ _ Hnum Hl).
  assert (Hdiv : ~ inject_Z (num - 1) == 0).
  { intros E. unfold Qeq in E. simpl in E. lia. }
  destruct (Nat.eq_dec i (Z.to_nat (num - 1))) as [-> | Hne].
  - exists stop. split.
    + rewrite lookup_app_r; rewrite length_map, length_seq; [|lia].
      rewrite Nat.sub_diag. reflexivity.
    + rewrite Z2Nat.id by lia. field. exact Hdiv.
  - eexists. split.
    + rewrite lookup_app_l by (rewrite length_map, length_seq; lia).
      change (map ?f ?l0 !! i) with ((f <$> l0) !! i).
      rewrite list_lookup_fmap, lookup_seq_lt by lia. reflexivity.
    + reflexivity.
Qed.

Lemma sorted_snoc (l : list Q) (x : Q) :
  StronglySorted Qle l -> Forall (fun y => y <= x) l ->
  StronglySorted Qle (l ++ [x]).
Proof.
  intros Hl Hx. apply StronglySorted_app_2.
  - intros x1 x2 H1 H2. apply list_elem_of_In in H1.
    apply list_elem_of_In in H2. destruct H2 as [<- | []].
    revert x1 H1. apply List.Forall_forall, Hx.
  - exact Hl.
  - repeat constructor.
Qed.

Lemma sorted_affine (start step : Q) (a n : nat) :
  0 <= step ->
  StronglySorted Qle
    (map (fun i => start + inject_Z (Z.of_nat i) * step) (seq a n)).
Proof.
  intros Hstep. revert a. induction n as [|n IH]; intros a; simpl.
  - constructor.
  - constructor; [apply IH|].
    apply List.Forall_forall. intros x Hx.
    apply in_map_iff in Hx. destruct Hx as (j & <- & Hj).
    apply in_seq in Hj.
    assert (inject_Z (Z.of_nat a) <= inject_Z (Z.of_nat j))
      by (rewrite <- Zle_Qle; lia).
    assert (inject_Z (Z.of_nat a) * step <= inject_Z (Z.of_nat j) * step)
      by (apply Qmult_le_compat_r; assumption).
    lra.
Qed.

(** The samples of [np.linspace] over [start <= stop] ascend and stay
    between the two bounds. *)
Lemma linspace_sorted (start stop : Q) (num : Z) (l : list Q) :
  start <= stop ->
  Np.linspace start stop num = Returned l ->
  StronglySorted Qle l /\ Forall (fun x => start <= x <= stop) l.
Proof.
  intros Hle. unfold Np.linspace.
  destruct (num <? 0)%Z; [discriminate|].
  destruct (Z.to_nat num) as [|[|n]]; intros [= <-].
  - split; constructor.
  - split; repeat constructor; lra.
  - set (step := (stop - start) / inject_Z (Z.of_nat (S n))).
    assert (Hdiv : 0 < inject_Z (Z.of_nat (S n))).
    { replace 0 with (inject_Z 0) by reflexivity. rewrite <- Zlt_Qlt. lia. }
    assert (Hstep : 0 <= step).
    { unfold step. apply Qle_shift_div_l; [exact Hdiv|].
      rewrite Qmult_0_l. lra. }
    assert (Hfull : inject_Z (Z.of_nat (S n)) * step == stop - start).
    { unfold step. field. lra. }
    assert (Hin : Forall (fun x => start <= x <= stop)
                    (map (fun i => start + inject_Z (Z.of_nat i) * step)
                       (seq 0 (S n)))).
    { apply List.Forall_forall. intros x Hx.
      apply in_map_iff in Hx. destruct Hx as (i & <- & Hi).
      apply in_seq in Hi.
      assert (0 <= inject_Z (Z.of_nat i)).
      { replace 0 with (inject_Z 0) by reflexivity. rewrite <- Zle_Qle. lia. }
      assert (inject_Z (Z.of_nat i) <= inject_Z (Z.of_nat (S n)))
        by (rewrite <- Zle_Qle; lia).
      assert (0 <= inject_Z (Z.of_nat i) * step)
        by (apply Qmult_le_0_compat; assumption).
      assert (inject_Z (Z.of_nat i) * step
              <= inject_Z (Z.of_nat (S n)) * step)
        by (apply Qmult_le_compat_r; assumption).
      lra. }
    change (StronglySorted Qle
              (map (fun i => start + inject_Z (Z.of_nat i) * step)
                 (seq 0 (S n)) ++ [stop])
            /\ Forall (fun x => start <= x <= stop)
                 (map (fun i => start + inject_Z (Z.of_nat i) * step)
                    (seq 0 (S n)) ++ [stop])).
    split.
    + apply sorted_snoc; [apply sorted_affine, Hstep|].
      eapply List.Forall_impl; [|exact Hin]. simpl. tauto.
    + apply Forall_app. split; [exact Hin|]. repeat constructor; lra.
Qed.

(** X1. The nodes of both grid builders ascend along each axis; the grid of
    the web handler has exactly [resolution] nodes per axis. *)
Theorem X1_grid_nodes_ascend :
  (forall (cfg : Enhanced.config) (valid_data : list Enhanced.record)
          (g : Enhanced.grid),
      0 <= Enhanced.buffer_percent cfg ->
      Enhanced.build_grid cfg valid_data = Returned g ->
      StronglySorted Qle (Enhanced.grid_lat g)
      /\ StronglySorted Qle (Enhanced.grid_lon g))
  /\ (forall (lats lons : list Q) (resolution : Z) (grid_lats grid_lons : list Q),
        App.build_grid lats lons resolution = Returned (grid_lats, grid_lons) ->
        StronglySorted Qle grid_lats /\ StronglySorted Qle grid_lons
        /\ length grid_lats = Z.to_nat resolution
        /\ length grid_lons = Z.to_nat resolution).
Proof.
  split.
  - intros cfg valid_data g Hbuf Hg.
    destruct (build_grid_inv _ _ _ Hg)
      as (lat_min & lat_max & lon_min & lon_max & n_lat & n_lon
          & Hlat_min & Hlat_max & Hlon_min & Hlon_max & _ & _ & Hglat & Hglon).
    pose proof (amin_le_amax _ _ _ Hlat_min Hlat_max) as Hlat_le.
    pose proof (amin_le_amax _ _ _ Hlon_min Hlon_max) as Hlon_le.
    assert (0 <= (lat_max - lat_min) * Enhanced.buffer_percent cfg)
      by (apply Qmult_le_0_compat; lra).
    assert (0 <= (lon_max - lon_min) * Enhanced.buffer_percent cfg)
      by (apply Qmult_le_0_compat; lra).
    split.
    + eapply linspace_sorted; [|exact Hglat]. lra.
    + eapply linspace_sorted; [|exact Hglon]. lra.
  - intros lats lons resolution grid_lats grid_lons Hg.
    destruct (app_build_grid_inv _ _ _ _ _ Hg)
      as (lat_min & lat_max & lon_min & lon_max
          & Hlat_min & Hlat_max & Hlon_min & Hlon_max & Hglat & Hglon).
    pose proof (amin_le_amax _ _ _ Hlat_min Hlat_max) as Hlat_le.
    pose proof (amin_le_amax _ _ _ Hlon_min Hlon_max) as Hlon_le.
    assert (0 <= (lat_max - lat_min) * (1 # 10))
      by (apply Qmult_le_0_compat; [lra | discriminate]).
    assert (0 <= (lon_max - lon_min) * (1 # 10))
      by (apply Qmult_le_0_compat; [lra | discriminate]).
    repeat split.
    + eapply linspace_sorted; [|exact Hglat]. lra.
    + eapply linspace_sorted; [|exact Hglon]. lra.
    + eapply linspace_Returned_length, Hglat.
    + eapply linspace_Returned_length, Hglon.
Qed.

(** X1 at samples with extent on both axes. *)
Lemma X1_small_square_witness :
  exists g,
    Enhanced.build_grid Enhanced.default_config Examples.small_square
    = Returned g
    /\ StronglySorted Qle (Enhanced.grid_lat g)
    /\ StronglySorted Qle (Enhanced.grid_lon g).
Proof.
  lazymatch eval vm_compute in
    (Enhanced.build_grid Enhanced.default_config Examples.small_square) with
  | Returned ?g0 => exists g0
  end.
  split; [vm_compute; reflexivity|].
  apply (proj1 X1_grid_nodes_ascend Enhanced.default_config
           Examples.small_square).
  - discriminate.
  - vm_compute. reflexivity.
Defined.

(** ** The georeference of a daily raster *)

(** X4. The raster encoded for a day has one band, the shape of the grid,
    and a transform whose outer corners are the extreme nodes of the grid:
    the corner of pixel (0, 0) is (west, north) and the far corner of the
    last pixel is (east, south). *)
Theorem X4_encoded_raster_bounds :
  forall (g : Enhanced.grid) (z : matrix) (variable : string)
         (d : Enhanced.date) (r : Enhanced.raster),
    Enhanced.encode g z variable d = Returned r ->
    exists west south east north,
      Np.amin (Enhanced.grid_lon g) = Some west
      /\ Np.amin (Enhanced.grid_lat g) = Some south
      /\ Np.amax (Enhanced.grid_lon g) = Some east
      /\ Np.amax (Enhanced.grid_lat g) = Some north
      /\ Enhanced.bands r = [z]
      /\ Enhanced.height r = length (Enhanced.grid_lat g)
      /\ Enhanced.width r = length (Enhanced.grid_lon g)
      /\ fst (Enhanced.pixel_corner (Enhanced.transform r) 0 0) == west
      /\ snd (Enhanced.pixel_corner (Enhanced.transform r) 0 0) == north
      /\ fst (Enhanced.pixel_corner (Enhanced.transform r)
                (Enhanced.height r) (Enhanced.width r)) == east
      /\ snd (Enhanced.pixel_corner (Enhanced.transform r)
                (Enhanced.height r) (Enhanced.width r)) == south.
Proof.
  intros g z variable d r Hr. unfold Enhanced.encode in Hr.
  inv_bind Hr. inv_bind Hr. inv_bind Hr. inv_bind Hr.
  apply require_Returned in Ha, Ha0, Ha1, Ha2.
  injection Hr as <-. exists a, a0, a1, a2.
  assert (Hw : ~ inject_Z (Z.of_nat (length (Enhanced.grid_lon g))) == 0).
  { destruct (Enhanced.grid_lon g); [discriminate Ha|].
    intros E. unfold Qeq in E. simpl in E. lia. }
  assert (Hh : ~ inject_Z (Z.of_nat (length (Enhanced.grid_lat g))) == 0).
  { destruct (Enhanced.grid_lat g); [discriminate Ha0|].
    intros E. unfold Qeq in E. simpl in E. lia. }
  cbn [Enhanced.bands Enhanced.height Enhanced.width Enhanced.transform
       Enhanced.pixel_corner Enhanced.from_bounds Enhanced.af_a Enhanced.af_b
       Enhanced.af_c Enhanced.af_d Enhanced.af_e Enhanced.af_f fst snd].
  repeat split; try assumption.
  - change (inject_Z (Z.of_nat 0)) with 0. ring.
  - change (inject_Z (Z.of_nat 0)) with 0. ring.
  - field. exact Hw.
  - field. exact Hh.
Qed.

(** X4 at a grid of two by two nodes. *)
Lemma X4_unit_grid_witness :
  exists r west south east north,
    Enhanced.encode Examples.unit_grid [[1; 2]; [3; 4]] "NDVI" Examples.day1
    = Returned r
    /\ Np.amin (Enhanced.grid_lon Examples.unit_grid) = Some west
    /\ Np.amin (Enhanced.grid_lat Examples.unit_grid) = Some south
    /\ Np.amax (Enhanced.grid_lon Examples.unit_grid) = Some east
    /\ Np.amax (Enhanced.grid_lat Examples.unit_grid) = Some north
    /\ Enhanced.bands r = [[[1; 2]; [3; 4]]]
    /\ Enhanced.height r = 2%nat
    /\ Enhanced.width r = 2%nat
    /\ fst (Enhanced.pixel_corner (Enhanced.transform r) 0 0) == west
    /\ snd (Enhanced.pixel_corner (Enhanced.transform r) 0 0) == north
    /\ fst (Enhanced.pixel_corner (Enhanced.transform r)
              (Enhanced.height r) (Enhanced.width r)) == east
    /\ snd (Enhanced.pixel_corner (Enhanced.transform r)
              (Enhanced.height r) (Enhanced.width r)) == south.
Proof.
  lazymatch eval vm_compute in
    (Enhanced.encode Examples.unit_grid [[1; 2]; [3; 4]] "NDVI" Examples.day1) with
  | Returned ?r0 => exists r0
  end.
  destruct (X4_encoded_raster_bounds Examples.unit_grid [[1; 2]; [3; 4]]
              "NDVI"%string Examples.day1 _ ltac:(vm_compute; reflexivity))
    as (west & south & east & north & H).
  exists west, south, east, north.
  split; [vm_compute; reflexivity | exact H].
Defined.

(** ** The log and the files of one variable *)

(** What one day adds to the state of the loop. *)
Lemma process_day_step kriging rbf (cfg : Enhanced.config) (g : Enhanced.grid)
    (variable : string) (valid_data : list Enhanced.record)
    (st : Enhanced.day_state) (d : Enhanced.date) :
  let st' := Enhanced.process_day kriging rbf cfg g variable valid_data st d in
  (st' = Enhanced.count_failure st)
  \/ (exists r z,
        st' = Enhanced.count_success st (Enhanced.daily_file variable d) r
        /\ Enhanced.bands r = [z]
        /\ Enhanced.height r = length (Enhanced.grid_lat g)
        /\ Enhanced.width r = length (Enhanced.grid_lon g)
        /\ (5 <= length (List.filter
                           (fun r => Enhanced.date_eqb (Enhanced.r_date r) d)
                           valid_data))%nat).
Proof.
  intros st'. unfold st', Enhanced.process_day.
  destruct (Nat.ltb_spec
              (length (List.filter
                         (fun r => Enhanced.date_eqb (Enhanced.r_date r) d)
                         valid_data)) 5) as [Hfew | Hmany];
    [left; reflexivity|].
  destruct (Enhanced.perform_interpolation _ _ _ _ _ _) as [[z|]|e];
    cbn [mbind outcome_bind]; try (left; reflexivity).
  destruct (Enhanced.encode g z variable d) as [r|e] eqn:E;
    cbn [mbind outcome_bind]; [|left; reflexivity].
  right. exists r, z. split; [reflexivity|].
  unfold Enhanced.encode in E.
  inv_bind E. inv_bind E. inv_bind E. inv_bind E. injection E as <-.
  repeat split. exact Hmany.
Qed.

(** The loop over the days: every day is counted once, as a success or as a
    failure; the files of the successes are appended, in order, to the log
    and to [daily_raster_files]; each of them is in the directory as a
    single-band raster of the shape of the grid; no other file changes. *)
Lemma days_loop_spec kriging rbf (cfg : Enhanced.config) (g : Enhanced.grid)
    (variable : string) (valid_data : list Enhanced.record)
    (dates : list Enhanced.date) (st : Enhanced.day_state) :
  let st' :=
    fold_left (Enhanced.process_day kriging rbf cfg g variable valid_data)
      dates st in
  exists new,
    Enhanced.ds_files st' = Enhanced.ds_files st ++ new
    /\ Enhanced.daily_files (Enhanced.ds_log st')
       = Enhanced.daily_files (Enhanced.ds_log st) ++ new
    /\ Enhanced.successful_interpolations (Enhanced.ds_log st')
       = (Enhanced.successful_interpolations (Enhanced.ds_log st)
          + length new)%nat
    /\ (Enhanced.successful_interpolations (Enhanced.ds_log st')
        + Enhanced.failed_interpolations (Enhanced.ds_log st')
        = Enhanced.successful_interpolations (Enhanced.ds_log st)
          + Enhanced.failed_interpolations (Enhanced.ds_log st)
          + length dates)%nat
    /\ Enhanced.log_variable (Enhanced.ds_log st')
       = Enhanced.log_variable (Enhanced.ds_log st)
    /\ (forall f, In f new ->
          exists r z d,
            Enhanced.ds_fs st' !! f = Some r
            /\ Enhanced.bands r = [z]
            /\ Enhanced.height r = length (Enhanced.grid_lat g)
            /\ Enhanced.width r = length (Enhanced.grid_lon g)
            /\ f = Enhanced.daily_file variable d /\ In d dates)
    /\ (forall p, ~ In p new ->
                  Enhanced.ds_fs st' !! p = Enhanced.ds_fs st !! p).
Proof.
  revert st. induction dates as [|d dates IH]; intros st; cbn [fold_left].
  - exists []. rewrite !app_nil_r, !Nat.add_0_r.
    repeat split; try reflexivity. intros f [].
  - set (st1 := Enhanced.process_day kriging rbf cfg g variable valid_data st d).
    destruct (IH st1) as (new & Hfiles & Hlog & Hsucc & Hsum & Hvar & Hnew & Hrest).
    pose proof (process_day_step kriging rbf cfg g variable valid_data st d)
      as Hstep.
    fold st1 in Hstep. cbv zeta in Hstep.
    destruct Hstep as [E | (r & z & E & Hb & Hh & Hw & _)].
    + exists new. rewrite E in *. cbn in Hfiles, Hlog, Hsucc, Hsum, Hvar.
      repeat split; try assumption.
      * cbn [length]. lia.
      * intros f Hf. destruct (Hnew f Hf) as (r & z & d' & ? & ? & ? & ? & ? & ?).
        exists r, z, d'. repeat split; try assumption. right. assumption.
    + exists (Enhanced.daily_file variable d :: new).
      rewrite E in *. cbn in Hfiles, Hlog, Hsucc, Hsum, Hvar |- *.
      rewrite <- app_assoc in Hfiles, Hlog. cbn in Hfiles, Hlog.
      repeat split; try assumption; try lia.
      * intros f [<- | Hf].
        -- destruct (in_dec string_dec (Enhanced.daily_file variable d) new)
             as [Hin | Hout].
           ++ destruct (Hnew _ Hin) as (r' & z' & d' & ? & ? & ? & ? & ? & ?).
              exists r', z', d'. repeat split; try assumption.
              right. assumption.
           ++ exists r, z, d. repeat split; try assumption; [|left; reflexivity].
              rewrite (Hrest _ Hout). apply lookup_insert_eq.
        -- destruct (Hnew f Hf) as (r' & z' & d' & ? & ? & ? & ? & ? & ?).
           exists r', z', d'. repeat split; try assumption. right. assumption.
      * intros p Hp. rewrite Hrest by (intros Hin; apply Hp; right; exact Hin).
        apply lookup_insert_ne. intros <-. apply Hp. left. reflexivity.
Qed.

(** The state after a variable with at least ten valid rows. *)
Lemma process_variable_spec kriging rbf resample (cfg : Enhanced.config)
    (clean : list Enhanced.record) (st : Enhanced.run_state)
    (variable : string) :
  let valid_data := List.filter (Enhanced.has_value variable) clean in
  let selected_dates :=
    take (Enhanced.max_days_per_variable cfg)
      (Enhanced.unique_dates valid_data) in
  let stack_file := Enhanced.variable_geostack_file variable in
  0 < Enhanced.grid_resolution cfg ->
  0 <= Enhanced.buffer_percent cfg ->
  Spec.readable (Enhanced.fs st) ->
  (10 <= length valid_data)%nat ->
  exists g st' log,
    Enhanced.build_grid cfg valid_data = Returned g
    /\ Enhanced.process_variable kriging rbf
      resample cfg clean st variable = Returned st'
    /\ Spec.readable (Enhanced.fs st')
    /\ Enhanced.variables_processed st'
       = Enhanced.variables_processed st ++ [variable]
    /\ Enhanced.processing_results st'
       = <[variable := log]> (Enhanced.processing_results st)
    /\ Enhanced.log_variable log = variable
    /\ (Enhanced.successful_interpolations log
        + Enhanced.failed_interpolations log = length selected_dates)%nat
    /\ length (Enhanced.daily_files log) = Enhanced.successful_interpolations log
    /\ (forall f, In f (Enhanced.daily_files log) ->
          exists r z d,
            Enhanced.fs st' !! f = Some r
            /\ Enhanced.bands r = [z]
            /\ Enhanced.height r = length (Enhanced.grid_lat g)
            /\ Enhanced.width r = length (Enhanced.grid_lon g)
            /\ f = Enhanced.daily_file variable d /\ In d selected_dates)
    /\ (Enhanced.daily_files log <> [] ->
          exists stack,
            Enhanced.fs st' !! stack_file = Some stack
            /\ length (Enhanced.bands stack) = length (Enhanced.daily_files log)
            /\ forall k f, Enhanced.daily_files log !! k = Some f ->
                 exists src data,
                   Enhanced.fs st' !! f = Some src
                   /\ Enhanced.bands src = [data]
                   /\ Enhanced.bands stack !! k = Some data)
    /\ (forall p, ~ In p (Enhanced.daily_files log) ->
                  p <> stack_file \/ Enhanced.daily_files log = [] ->
                  Enhanced.fs st' !! p = Enhanced.fs st !! p).
Proof.
  intros valid_data selected_dates stack_file Hres Hbuf Hfs Hmany.
  unfold Enhanced.process_variable. fold valid_data.
  destruct (Nat.ltb_spec (length valid_data) 10) as [Hfew | _]; [lia|].
  destruct (build_grid_total cfg valid_data Hres Hbuf) as (g & Hg).
  { destruct valid_data; [simpl in Hmany; lia | discriminate]. }
  rewrite Hg. cbn [mbind outcome_bind]. fold selected_dates.
  set (st0 := Enhanced.DayState (Enhanced.fs st) (Enhanced.Log variable 0 0 []) []).
  destruct (days_loop_spec kriging rbf cfg g variable valid_data
              selected_dates st0)
    as (new & Hfiles & Hlog & Hsucc & Hsum & Hvar & Hnew & Hrest).
  assert (Hinv : Spec.day_inv variable
                   (fold_left
                      (Enhanced.process_day kriging rbf cfg g variable valid_data)
                      selected_dates st0)).
  { apply days_loop_inv. split; [exact Hfs|]. intros f []. }
  set (days := fold_left _ selected_dates st0) in *.
  destruct Hinv as [Hdfs _].
  cbn in Hfiles, Hlog, Hsucc, Hsum, Hvar, Hrest.
  rewrite Hfiles.
  destruct new as [|f0 files] eqn:Enew.
  - cbn [Enhanced.assemble mbind outcome_bind].
    exists g, (Enhanced.RunState (Enhanced.ds_fs days)
                 (Enhanced.variables_processed st ++ [variable])
                 (<[variable := Enhanced.ds_log days]>
                    (Enhanced.processing_results st))),
      (Enhanced.ds_log days).
    cbn [Enhanced.fs Enhanced.variables_processed Enhanced.processing_results].
    rewrite Hlog.
    split; [reflexivity|]. split; [reflexivity|]. split; [exact Hdfs|].
    split; [reflexivity|]. split; [reflexivity|]. split; [exact Hvar|].
    split; [lia|]. split; [simpl in *; lia|].
    split; [intros f []|]. split; [congruence|].
    intros p _ _. apply Hrest. intros [].
  - rewrite <- Enew in *.
    assert (Hne : new <> []) by (rewrite Enew; discriminate).
    clear Enew f0 files.
    destruct (assemble_content resample stack_file
                (fun raster_file =>
                   variable +:+ " - " +:+ Enhanced.date_of_file raster_file)
                (Enhanced.ds_fs days) new Hne)
      as (fs' & stack & template & Hasm & Hstack & Htemplate & Hh & Hw & _
          & Hlen & Hsame & Hbands).
    { intros f Hf. destruct (Hnew f Hf) as (r & z & d & Hr & Hz & _ & _ & -> & _).
      split; [apply daily_file_not_stack|].
      exists r, z. rewrite Hz. auto. }
    fold stack_file. rewrite Hasm. cbn [mbind outcome_bind].
    exists g, (Enhanced.RunState fs'
                 (Enhanced.variables_processed st ++ [variable])
                 (<[variable := Enhanced.ds_log days]>
                    (Enhanced.processing_results st))),
      (Enhanced.ds_log days).
    cbn [Enhanced.fs Enhanced.variables_processed Enhanced.processing_results].
    rewrite Hlog.
    assert (Hdaily : forall f, In f new -> f <> stack_file).
    { intros f Hf. destruct (Hnew f Hf) as (_ & _ & d & _ & _ & _ & _ & -> & _).
      apply daily_file_not_stack. }
    split; [reflexivity|]. split; [reflexivity|]. split.
    { intros p r Hp.
      destruct (decide (p = stack_file)) as [-> | Hp'].
      - rewrite Hstack in Hp. injection Hp as <-.
        destruct (Enhanced.bands stack); [|discriminate].
        destruct new; [congruence | discriminate Hlen].
      - rewrite Hsame in Hp by exact Hp'. exact (Hdfs p r Hp). }
    split; [reflexivity|]. split; [reflexivity|]. split; [exact Hvar|].
    split; [lia|]. split; [lia|].
    split.
    { intros f Hf. destruct (Hnew f Hf) as (r & z & d & Hr & Hrest').
      exists r, z, d. split; [|exact Hrest'].
      rewrite Hsame by (apply Hdaily, Hf). exact Hr. }
    split.
    { intros _. exists stack. split; [exact Hstack|]. split; [exact Hlen|].
      intros k f Hk.
      assert (Hf : In f new).
      { apply list_elem_of_In, list_elem_of_lookup. eauto. }
      destruct (Hbands k f Hk) as (src & data & Hsrc & Hdata & Hband).
      destruct (Hnew f Hf) as (r & z & _ & Hr & Hz & Hrh & Hrw & _).
      rewrite Hr in Hsrc. injection Hsrc as <-.
      rewrite Hz in Hdata. injection Hdata as <-.
      exists r, z. split; [|split; [exact Hz|]].
      { rewrite Hsame by (apply Hdaily, Hf). exact Hr. }
      assert (Hsize : Enhanced.height stack = length (Enhanced.grid_lat g)
                      /\ Enhanced.width stack = length (Enhanced.grid_lon g)).
      { destruct new as [|f0 files]; [congruence|].
        cbn [head mbind option_bind] in Htemplate.
        destruct (Hnew f0 (or_introl eq_refl))
          as (r0 & z0 & _ & Hr0 & _ & Hr0h & Hr0w & _).
        rewrite Hr0 in Htemplate. injection Htemplate as <-.
        split; congruence. }
      destruct Hsize as [Hsh Hsw].
      rewrite Hband, Hsh, Hsw, Hrh, Hrw, fit_same_shape. reflexivity. }
    intros p Hp [Hp' | Hempty]; [|congruence].
    rewrite Hsame by exact Hp'. apply Hrest, Hp.
Qed.

Lemma unique_dates_length (valid_data : list Enhanced.record) :
  length (Enhanced.unique_dates valid_data)
  = length (distinct Enhanced.date_eqb (map Enhanced.r_date valid_data)).
Proof.
  unfold Enhanced.unique_dates. apply Permutation_length, merge_sort_Permutation.
Qed.

(** X5. A variable with at least ten valid rows is recorded with a log under
    its own name in which every selected day is counted exactly once, as a
    success or as a failure: the two counters add up to the number of
    distinct dates of the valid rows, capped at [max_days_per_variable], and
    the log lists one daily file per success. *)
Theorem X5_every_selected_day_counted_once :
  forall kriging rbf resample (cfg : Enhanced.config) (clean : list Enhanced.record)
         (st : Enhanced.run_state) (variable : string),
    0 < Enhanced.grid_resolution cfg ->
    0 <= Enhanced.buffer_percent cfg ->
    Spec.readable (Enhanced.fs st) ->
    (10 <= length (List.filter (Enhanced.has_value variable) clean))%nat ->
    exists st' log,
      Enhanced.process_variable kriging rbf
        resample cfg clean st variable = Returned st'
      /\ Enhanced.variables_processed st'
         = Enhanced.variables_processed st ++ [variable]
      /\ Enhanced.processing_results st' !! variable = Some log
      /\ Enhanced.log_variable log = variable
      /\ (Enhanced.successful_interpolations log
          + Enhanced.failed_interpolations log
          = Nat.min (Enhanced.max_days_per_variable cfg)
              (length (distinct Enhanced.date_eqb
                         (map Enhanced.r_date
                            (List.filter (Enhanced.has_value variable) clean)))))%nat
      /\ length (Enhanced.daily_files log)
         = Enhanced.successful_interpolations log.
Proof.
  intros kriging rbf resample cfg clean st variable Hres Hbuf Hfs Hmany.
  destruct (process_variable_spec kriging rbf resample cfg clean st variable
              Hres Hbuf Hfs Hmany)
    as (g & st' & log & _ & Hrun & _ & Hvars & Hres' & Hname & Hsum & Hlen & _).
  exists st', log. split; [exact Hrun|]. split; [exact Hvars|].
  split; [rewrite Hres'; apply lookup_insert_eq|].
  split; [exact Hname|]. split; [|exact Hlen].
  rewrite Hsum, length_take, unique_dates_length. reflexivity.
Qed.

(** X5 at ten samples of a first day and two of a second, with inverse
    distance weighting. *)
Lemma X5_two_days_witness :
  exists st' log,
    Enhanced.process_variable Examples.no_kriging Examples.no_rbf
      Examples.no_resample
      Examples.idw_config Samples.two_days Samples.fresh "NDVI" = Returned st'
    /\ Enhanced.variables_processed st'
       = Enhanced.variables_processed Samples.fresh ++ ["NDVI"]
    /\ Enhanced.processing_results st' !! "NDVI" = Some log
    /\ Enhanced.log_variable log = "NDVI"
    /\ (Enhanced.successful_interpolations log
        + Enhanced.failed_interpolations log
        = Nat.min (Enhanced.max_days_per_variable Examples.idw_config)
            (length (distinct Enhanced.date_eqb
                       (map Enhanced.r_date
                          (List.filter (Enhanced.has_value "NDVI")
                             Samples.two_days)))))%nat
    /\ length (Enhanced.daily_files log)
       = Enhanced.successful_interpolations log.
Proof.
  apply (X5_every_selected_day_counted_once Examples.no_kriging Examples.no_rbf
    Examples.no_resample
           Examples.idw_config Samples.two_days Samples.fresh "NDVI").
  - reflexivity.
  - discriminate.
  - apply readable_empty.
  - vm_compute. lia.
Defined.

(** X6. The geostack of a variable: when at least one day succeeded, the
    file [uganda_<variable>_geostack.tif] holds one band per success, and
    band [k + 1] is the only band of the [k]-th daily file of the log, a
    raster with one row per grid latitude and one column per grid
    longitude; when no day succeeded, that file is left as it was. *)
Theorem X6_variable_geostack_stacks_daily_files :
  forall kriging rbf resample (cfg : Enhanced.config) (clean : list Enhanced.record)
         (st : Enhanced.run_state) (variable : string),
    0 < Enhanced.grid_resolution cfg ->
    0 <= Enhanced.buffer_percent cfg ->
    Spec.readable (Enhanced.fs st) ->
    (10 <= length (List.filter (Enhanced.has_value variable) clean))%nat ->
    exists g st' log,
      Enhanced.build_grid cfg (List.filter (Enhanced.has_value variable) clean)
      = Returned g
      /\ Enhanced.process_variable kriging rbf resample cfg clean st variable
         = Returned st'
      /\ Enhanced.processing_results st' !! variable = Some log
      /\ (Enhanced.daily_files log = [] ->
            Enhanced.fs st' !! Enhanced.variable_geostack_file variable
            = Enhanced.fs st !! Enhanced.variable_geostack_file variable)
      /\ (Enhanced.daily_files log <> [] ->
            exists stack,
              Enhanced.fs st' !! Enhanced.variable_geostack_file variable
              = Some stack
              /\ length (Enhanced.bands stack)
                 = Enhanced.successful_interpolations log
              /\ forall k f, Enhanced.daily_files log !! k = Some f ->
                   exists src data,
                     Enhanced.fs st' !! f = Some src
                     /\ Enhanced.bands src = [data]
                     /\ Enhanced.height src = length (Enhanced.grid_lat g)
                     /\ Enhanced.width src = length (Enhanced.grid_lon g)
                     /\ Enhanced.bands stack !! k = Some data).
Proof.
  intros kriging rbf resample cfg clean st variable Hres Hbuf Hfs Hmany.
  destruct (process_variable_spec kriging rbf resample cfg clean st variable
              Hres Hbuf Hfs Hmany)
    as (g & st' & log & Hg & Hrun & _ & _ & Hres' & _ & _ & Hlen & Hdaily
        & Hstack & Hframe).
  exists g, st', log. split; [exact Hg|]. split; [exact Hrun|].
  split; [rewrite Hres'; apply lookup_insert_eq|]. split.
  - intros Hempty. apply Hframe; [rewrite Hempty; intros []|].
    right. exact Hempty.
  - intros Hne. destruct (Hstack Hne) as (stack & Hs & Hbands & Hk).
    exists stack. split; [exact Hs|]. split; [congruence|].
    intros k f Hf. destruct (Hk k f Hf) as (src & data & Hsrc & Hdata & Hband).
    destruct (Hdaily f) as (r & z & d & Hr & _ & Hh & Hw & _).
    { apply list_elem_of_In, list_elem_of_lookup. eauto. }
    rewrite Hr in Hsrc. injection Hsrc as <-.
    exists r, data. repeat split; assumption.
Qed.

(** X6 at the same samples. *)
Lemma X6_two_days_witness :
  exists g st' log,
    Enhanced.build_grid Examples.idw_config
      (List.filter (Enhanced.has_value "NDVI") Samples.two_days) = Returned g
    /\ Enhanced.process_variable Examples.no_kriging Examples.no_rbf
      Examples.no_resample
         Examples.idw_config Samples.two_days Samples.fresh "NDVI"
           = Returned st'
    /\ Enhanced.processing_results st' !! "NDVI" = Some log
    /\ (Enhanced.daily_files log = [] ->
          Enhanced.fs st' !! Enhanced.variable_geostack_file "NDVI"
          = Enhanced.fs Samples.fresh !! Enhanced.variable_geostack_file "NDVI")
    /\ (Enhanced.daily_files log <> [] ->
          exists stack,
            Enhanced.fs st' !! Enhanced.variable_geostack_file "NDVI" = Some stack
            /\ length (Enhanced.bands stack)
               = Enhanced.successful_interpolations log
            /\ forall k f, Enhanced.daily_files log !! k = Some f ->
                 exists src data,
                   Enhanced.fs st' !! f = Some src
                   /\ Enhanced.bands src = [data]
                   /\ Enhanced.height src = length (Enhanced.grid_lat g)
                   /\ Enhanced.width src = length (Enhanced.grid_lon g)
                   /\ Enhanced.bands stack !! k = Some data).
Proof.
  apply (X6_variable_geostack_stacks_daily_files Examples.no_kriging
           Examples.no_rbf Examples.no_resample Examples.idw_config Samples.two_days Samples.fresh
           "NDVI").
  - reflexivity.
  - discriminate.
  - apply readable_empty.
  - vm_compute. lia.
Defined.

(** The counters and the stack of these samples: the first day succeeds,
    the second has too few samples, and the stack has the one band. *)
Example two_days_log :
  match Enhanced.process_variable Examples.no_kriging Examples.no_rbf
    Examples.no_resample
          Examples.idw_config Samples.two_days Samples.fresh "NDVI" with
  | Returned st' =>
      (Enhanced.variables_processed st',
       (fun log => (Enhanced.successful_interpolations log,
                    Enhanced.failed_interpolations log,
                    Enhanced.daily_files log))
         <$> Enhanced.processing_results st' !! "NDVI",
       (fun r => length (Enhanced.bands r))
         <$> Enhanced.fs st' !! Enhanced.variable_geostack_file "NDVI")
  | Raised _ => ([], None, None)
  end
  = (["NDVI"],
     Some (1%nat, 1%nat,
           ["/app/outputs/uganda_enhanced_analysis/uganda_NDVI_daily_2024-01-15.tif"]),
     Some 1%nat).
Proof. vm_compute. reflexivity. Qed.

(** X7. Processing a variable touches only its own files: whatever the
    number of valid rows, the call returns, every file that was in the
    output directory is still there, and a file that is neither a daily
    raster of the variable nor its geostack is unchanged. *)
Theorem X7_variable_touches_only_its_files :
  forall kriging rbf resample (cfg : Enhanced.config) (clean : list Enhanced.record)
         (st : Enhanced.run_state) (variable : string),
    0 < Enhanced.grid_resolution cfg ->
    0 <= Enhanced.buffer_percent cfg ->
    Spec.readable (Enhanced.fs st) ->
    exists st',
      Enhanced.process_variable kriging rbf
        resample cfg clean st variable = Returned st'
      /\ (forall p, is_Some (Enhanced.fs st !! p) ->
                    is_Some (Enhanced.fs st' !! p))
      /\ (forall p, p <> Enhanced.variable_geostack_file variable ->
                    (forall d, p <> Enhanced.daily_file variable d) ->
                    Enhanced.fs st' !! p = Enhanced.fs st !! p).
Proof.
  intros kriging rbf resample cfg clean st variable Hres Hbuf Hfs.
  destruct (Nat.lt_ge_cases
              (length (List.filter (Enhanced.has_value variable) clean)) 10)
    as [Hfew | Hmany].
  - exists st. unfold Enhanced.process_variable.
    apply Nat.ltb_lt in Hfew. rewrite Hfew. auto.
  - destruct (process_variable_spec kriging rbf resample cfg clean st variable
                Hres Hbuf Hfs Hmany)
      as (g & st' & log & _ & Hrun & _ & _ & _ & _ & _ & _ & Hdaily
          & Hstack & Hframe).
    exists st'. split; [exact Hrun|]. split.
    + intros p Hp.
      destruct (in_dec string_dec p (Enhanced.daily_files log)) as [Hin | Hout].
      { destruct (Hdaily p Hin) as (r & _ & _ & -> & _). eauto. }
      destruct (decide (p = Enhanced.variable_geostack_file variable))
        as [-> | Hne]; [|rewrite Hframe by auto; exact Hp].
      destruct (Enhanced.daily_files log) as [|f files] eqn:E.
      * rewrite Hframe by auto. exact Hp.
      * destruct Hstack as (stack & -> & _); [discriminate | eauto].
    + intros p Hne Hnot. apply Hframe; [|left; exact Hne].
      intros Hin. destruct (Hdaily p Hin) as (_ & _ & d & _ & _ & _ & _ & -> & _).
      exact (Hnot d eq_refl).
Qed.

(** X7 at the same samples, started in a directory that holds the rasters
    of two other days. *)
Lemma X7_two_rasters_witness :
  exists st',
    Enhanced.process_variable Examples.no_kriging Examples.no_rbf
      Examples.no_resample
      Examples.idw_config Samples.two_days
      (Enhanced.RunState Examples.two_rasters [] ∅) "NDVI" = Returned st'
    /\ (forall p, is_Some (Examples.two_rasters !! p) ->
                  is_Some (Enhanced.fs st' !! p))
    /\ (forall p, p <> Enhanced.variable_geostack_file "NDVI" ->
                  (forall d, p <> Enhanced.daily_file "NDVI" d) ->
                  Enhanced.fs st' !! p = Examples.two_rasters !! p).
Proof.
  apply (X7_variable_touches_only_its_files Examples.no_kriging Examples.no_rbf
    Examples.no_resample
           Examples.idw_config Samples.two_days
           (Enhanced.RunState Examples.two_rasters [] ∅) "NDVI").
  - reflexivity.
  - discriminate.
  - apply readable_insert; [discriminate|].
    apply readable_insert; [discriminate|].
    apply readable_empty.
Defined.

(** ** All variables *)

(** The loop over the variables: the processed variables are, in order,
    those with at least ten valid rows; each has a log under its own name
    that counts at most [max_days_per_variable] days; the other entries of
    [processing_results] and the presence of files are kept. *)
Lemma variables_loop_spec kriging rbf resample (cfg : Enhanced.config)
    (clean : list Enhanced.record) (variables : list string)
    (st : Enhanced.run_state) :
  let enough v :=
    (10 <=? length (List.filter (Enhanced.has_value v) clean))%nat in
  0 < Enhanced.grid_resolution cfg ->
  0 <= Enhanced.buffer_percent cfg ->
  Spec.readable (Enhanced.fs st) ->
  exists st',
    foldM (Enhanced.process_variable kriging rbf
      resample cfg clean) variables st
    = Returned st'
    /\ Spec.readable (Enhanced.fs st')
    /\ Enhanced.variables_processed st'
       = Enhanced.variables_processed st ++ List.filter enough variables
    /\ (forall v, ~ In v (List.filter enough variables) ->
                  Enhanced.processing_results st' !! v
                  = Enhanced.processing_results st !! v)
    /\ (forall v, In v (List.filter enough variables) ->
          exists log,
            Enhanced.processing_results st' !! v = Some log
            /\ Enhanced.log_variable log = v
            /\ (Enhanced.successful_interpolations log
                + Enhanced.failed_interpolations log
                <= Enhanced.max_days_per_variable cfg)%nat
            /\ length (Enhanced.daily_files log)
               = Enhanced.successful_interpolations log)
    /\ (forall p, is_Some (Enhanced.fs st !! p) ->
                  is_Some (Enhanced.fs st' !! p)).
Proof.
  intros enough Hres Hbuf. revert st.
  induction variables as [|v variables IH]; intros st Hfs.
  - exists st. cbn [foldM List.filter]. rewrite app_nil_r.
    repeat split; auto. intros v [].
  - cbn [foldM List.filter].
    destruct (enough v) eqn:Ev.
    + assert (Hmany : (10 <= length (List.filter (Enhanced.has_value v) clean))%nat)
        by (apply Nat.leb_le, Ev).
      destruct (process_variable_spec kriging rbf resample cfg clean st v
                  Hres Hbuf Hfs Hmany)
        as (g & st1 & log & _ & Hrun & Hfs1 & Hvars & Hres1 & Hname & Hsum & Hlen
            & Hdaily & Hstack & Hframe).
      destruct (IH st1 Hfs1) as (st' & Hloop & Hfs' & Hvars' & Hother & Hlogs & Hkeep).
      exists st'. rewrite Hrun. split; [exact Hloop|]. split; [exact Hfs'|].
      split; [rewrite Hvars', Hvars, <- app_assoc; reflexivity|].
      split; [|split].
      * intros w Hw. rewrite Hother by (intros Hin; apply Hw; right; exact Hin).
        rewrite Hres1. apply lookup_insert_ne. intros ->. apply Hw. left. reflexivity.
      * intros w Hw.
        destruct (in_dec string_dec w (List.filter enough variables)) as [Hin | Hout];
          [exact (Hlogs w Hin)|].
        destruct Hw as [<- | Hw]; [|contradiction].
        exists log. rewrite Hother by exact Hout. rewrite Hres1.
        split; [apply lookup_insert_eq|]. split; [exact Hname|].
        split; [|exact Hlen]. rewrite Hsum, length_take. lia.
      * intros p Hp. apply Hkeep.
        destruct (in_dec string_dec p (Enhanced.daily_files log)) as [Hin | Hout].
        { destruct (Hdaily p Hin) as (r & _ & _ & -> & _). eauto. }
        destruct (decide (p = Enhanced.variable_geostack_file v))
          as [-> | Hne]; [|rewrite Hframe by auto; exact Hp].
        destruct (Enhanced.daily_files log) as [|f files] eqn:E.
        -- rewrite Hframe by auto. exact Hp.
        -- destruct Hstack as (stack & -> & _); [discriminate | eauto].
    + assert (Hskip : Enhanced.process_variable kriging rbf
      resample cfg clean st v
                      = Returned st).
      { unfold Enhanced.process_variable.
        apply Nat.leb_gt, Nat.ltb_lt in Ev. rewrite Ev. reflexivity. }
      rewrite Hskip. exact (IH st Hfs).
Qed.

(** ** Step 5 *)

Lemma create_multi_geostack_spec resample
    (fs : gmap string Enhanced.raster) :
  Spec.readable fs ->
  exists fs' cat,
    Enhanced.create_multi_geostack resample fs = Returned (fs', cat)
    /\ (forall p, p <> Enhanced.multi_geostack_file -> fs' !! p = fs !! p)
    /\ (Enhanced.glob_daily fs = [] -> fs' = fs /\ cat = None)
    /\ (Enhanced.glob_daily fs <> [] ->
          is_Some (fs' !! Enhanced.multi_geostack_file) /\ is_Some cat).
Proof.
  intros Hfs. destruct (Enhanced.glob_daily fs) as [|f files] eqn:E.
  - exists fs, None. split; [apply create_multi_geostack_empty, E|].
    split; [reflexivity|]. split; [auto | congruence].
  - destruct (assemble_content resample Enhanced.multi_geostack_file
                Enhanced.multi_description fs (Enhanced.glob_daily fs))
      as (fs' & stack & _ & Hasm & Hstack & _ & _ & _ & _ & _ & Hsame & _);
      [rewrite E; discriminate | |].
    { intros p Hp. split; [eapply glob_daily_not_stack, Hp|].
      apply readable_first_band; [exact Hfs|]. apply glob_daily_In, Hp. }
    destruct (build_catalog_spec (Enhanced.glob_daily fs))
      as (cat & Hcat & _).
    { intros p Hp. apply (glob_daily_In fs), Hp. }
    exists fs', (Some cat). split; [|split; [exact Hsame|split]].
    + unfold Enhanced.create_multi_geostack.
      rewrite E in *. rewrite Hasm. cbn [mbind outcome_bind].
      rewrite Hcat. reflexivity.
    + discriminate.
    + intros _. rewrite Hstack. split; eauto.
Qed.

(** X8. What a run reports.  Under a positive cell size and a non-negative
    buffer, a run whose loading step raised returns [False] and nothing
    else; otherwise it returns [True] with a report that counts the cleaned
    rows, lists as processed exactly the available variables with at least
    ten valid rows, in their order, holds a log for exactly those variables,
    each under its own name and with at most [max_days_per_variable] days
    counted, and still has every file the output directory had. *)
Theorem X8_run_report :
  forall to_datetime kriging rbf resample (cfg : Enhanced.config)
         (input : option Enhanced.table) (fs0 : gmap string Enhanced.raster),
    0 < Enhanced.grid_resolution cfg ->
    0 <= Enhanced.buffer_percent cfg ->
    Spec.readable fs0 ->
    match Enhanced.load to_datetime input with
    | Raised _ =>
        Enhanced.run to_datetime kriging rbf resample cfg input fs0
        = Returned (false, None)
    | Returned data =>
        exists rep,
          Enhanced.run to_datetime kriging rbf resample cfg input fs0
          = Returned (true, Some rep)
          /\ Enhanced.total_records rep = length (Enhanced.uganda_clean data)
          /\ Enhanced.report_variables rep
             = List.filter
                 (fun v =>
                    (10 <=? length (List.filter (Enhanced.has_value v)
                                      (Enhanced.uganda_clean data)))%nat)
                 (Enhanced.available_vars data)
          /\ (forall v, is_Some (Enhanced.report_results rep !! v)
                        <-> In v (Enhanced.report_variables rep))
          /\ (forall v log, Enhanced.report_results rep !! v = Some log ->
                Enhanced.log_variable log = v
                /\ (Enhanced.successful_interpolations log
                    + Enhanced.failed_interpolations log
                    <= Enhanced.max_days_per_variable cfg)%nat
                /\ length (Enhanced.daily_files log)
                   = Enhanced.successful_interpolations log)
          /\ (forall p, is_Some (fs0 !! p) ->
                        is_Some (Enhanced.final_fs rep !! p))
    end.
Proof.
  intros to_datetime kriging rbf resample cfg input fs0 Hres Hbuf Hfs.
  unfold Enhanced.run.
  destruct (Enhanced.load to_datetime input) as [data | e]; [|reflexivity].
  destruct (variables_loop_spec kriging rbf
    resample cfg (Enhanced.uganda_clean data)
              (Enhanced.available_vars data) (Enhanced.RunState fs0 [] ∅)
              Hres Hbuf Hfs)
    as (st & -> & Hst & Hvars & Hother & Hlogs & Hkeep).
  cbn [mbind outcome_bind].
  destruct (create_multi_geostack_spec resample _ Hst)
    as (fs' & cat & -> & Hsame & Hempty & Hstack).
  cbn [mbind outcome_bind]. eexists. split; [reflexivity|].
  cbn [Enhanced.total_records Enhanced.report_variables Enhanced.report_results
       Enhanced.final_fs].
  cbn [Enhanced.variables_processed Enhanced.processing_results Enhanced.fs
       app] in Hvars, Hother, Hkeep.
  assert (Hdom : forall v, is_Some (Enhanced.processing_results st !! v)
                           <-> In v (Enhanced.variables_processed st)).
  { intros v. rewrite Hvars. split.
    - intros Hv. destruct (in_dec string_dec v
                             (List.filter
                                (fun v => (10 <=? length
                                             (List.filter (Enhanced.has_value v)
                                                (Enhanced.uganda_clean data)))%nat)
                                (Enhanced.available_vars data))) as [Hin | Hout];
        [exact Hin|].
      rewrite (Hother v Hout), lookup_empty in Hv. destruct Hv; discriminate.
    - intros Hv. destruct (Hlogs v Hv) as (log & -> & _). eauto. }
  split; [reflexivity|]. split; [exact Hvars|]. split; [exact Hdom|].
  split.
  - intros v log Hv.
    assert (Hin : In v (Enhanced.variables_processed st)) by (apply Hdom; eauto).
    rewrite Hvars in Hin.
    destruct (Hlogs v Hin) as (log' & Hlog' & Hprops).
    rewrite Hlog' in Hv. injection Hv as <-. exact Hprops.
  - intros p Hp. apply Hkeep in Hp.
    destruct (decide (p = Enhanced.multi_geostack_file)) as [-> | Hne];
      [|rewrite Hsame by exact Hne; exact Hp].
    destruct (Enhanced.glob_daily (Enhanced.fs st)) as [|f files] eqn:E.
    + destruct (Hempty eq_refl) as [-> _]. exact Hp.
    + apply Hstack. discriminate.
Qed.

(** X8 at ten samples of one day, read from the input file. *)
Lemma X8_south_north_witness :
  match Enhanced.load Examples.parse_day1 (Some Examples.south_north) with
  | Raised _ =>
      Enhanced.run Examples.parse_day1 Examples.no_kriging Examples.no_rbf
        Examples.no_resample
        Examples.idw_config (Some Examples.south_north) ∅
      = Returned (false, None)
  | Returned data =>
      exists rep,
        Enhanced.run Examples.parse_day1 Examples.no_kriging Examples.no_rbf
          Examples.no_resample
          Examples.idw_config (Some Examples.south_north) ∅
        = Returned (true, Some rep)
        /\ Enhanced.total_records rep = length (Enhanced.uganda_clean data)
        /\ Enhanced.report_variables rep
           = List.filter
               (fun v =>
                  (10 <=? length (List.filter (Enhanced.has_value v)
                                    (Enhanced.uganda_clean data)))%nat)
               (Enhanced.available_vars data)
        /\ (forall v, is_Some (Enhanced.report_results rep !! v)
                      <-> In v (Enhanced.report_variables rep))
        /\ (forall v log, Enhanced.report_results rep !! v = Some log ->
              Enhanced.log_variable log = v
              /\ (Enhanced.successful_interpolations log
                  + Enhanced.failed_interpolations log
                  <= Enhanced.max_days_per_variable Examples.idw_config)%nat
              /\ length (Enhanced.daily_files log)
                 = Enhanced.successful_interpolations log)
        /\ (forall p, is_Some ((∅ : gmap string Enhanced.raster) !! p) ->
                      is_Some (Enhanced.final_fs rep !! p))
  end.
Proof.
  apply (X8_run_report Examples.parse_day1 Examples.no_kriging Examples.no_rbf
    Examples.no_resample
           Examples.idw_config (Some Examples.south_north) ∅).
  - reflexivity.
  - discriminate.
  - apply readable_empty.
Defined.

(** What that run reports. *)
Example south_north_report :
  match Enhanced.run Examples.parse_day1 Examples.no_kriging Examples.no_rbf
    Examples.no_resample
          Examples.idw_config (Some Examples.south_north) ∅ with
  | Returned (b, Some rep) =>
      Some (b, Enhanced.total_records rep, Enhanced.report_variables rep,
            Enhanced.total_successful rep, Enhanced.total_failed rep)
  | _ => None
  end
  = Some (true, 10%nat, ["NDVI"], 1%nat, 0%nat).
Proof. vm_compute. reflexivity. Qed.

(** ** The files that step 5 collects *)

Lemma glob_daily_spec (fs : gmap string Enhanced.raster) (p : string) :
  In p (Enhanced.glob_daily fs) <->
  is_Some (fs !! p)
  /\ PyStr.dirname p = Enhanced.output_dir
  /\ Enhanced.fnmatch_daily (PyStr.basename p) = true.
Proof.
  unfold Enhanced.glob_daily.
  rewrite <- list_elem_of_In, merge_sort_Permutation, list_elem_of_In, filter_In.
  rewrite andb_true_iff, String.eqb_eq.
  assert (Hdom : In p (map fst (map_to_list fs)) <-> is_Some (fs !! p)).
  { rewrite in_map_iff. split.
    - intros ([p' r] & <- & Hin).
      apply list_elem_of_In, elem_of_map_to_list in Hin. simpl. eauto.
    - intros [r Hr]. exists (p, r). split; [reflexivity|].
      apply list_elem_of_In, elem_of_map_to_list. exact Hr. }
  rewrite Hdom. reflexivity.
Qed.

Lemma string_leb_total : Total (fun p1 p2 : string => Is_true (String.leb p1 p2)).
Proof.
  intros p1 p2. destruct (String.leb_total p1 p2) as [H | H]; rewrite H; simpl; auto.
Qed.

(** X9. [sorted(glob(...))] as step 5 uses it: the list holds exactly the
    files of the output directory whose name matches
    [uganda_*_daily_*.tif], each once, in ascending order of the paths. *)
Theorem X9_glob_daily_lists_matching_files_in_order :
  forall (fs : gmap string Enhanced.raster),
    (forall p, In p (Enhanced.glob_daily fs) <->
               is_Some (fs !! p)
               /\ PyStr.dirname p = Enhanced.output_dir
               /\ Enhanced.fnmatch_daily (PyStr.basename p) = true)
    /\ NoDup (Enhanced.glob_daily fs)
    /\ Sorted (fun p1 p2 => Is_true (String.leb p1 p2)) (Enhanced.glob_daily fs).
Proof.
  intros fs. split; [apply glob_daily_spec|]. split.
  - unfold Enhanced.glob_daily. rewrite merge_sort_Permutation.
    apply NoDup_ListNoDup, List.NoDup_filter, NoDup_ListNoDup.
    change (map fst (map_to_list fs)) with ((map_to_list fs).*1).
    apply NoDup_fst_map_to_list.
  - unfold Enhanced.glob_daily.
    apply (@Sorted_merge_sort _ _ _ string_leb_total).
Qed.

(** The list for a directory with two daily rasters and a stack. *)
Example glob_daily_two_rasters :
  Enhanced.glob_daily
    (<[Enhanced.variable_geostack_file "NDVI" := Examples.pixel 0]>
       Examples.two_rasters)
  = ["/app/outputs/uganda_enhanced_analysis/uganda_NDVI_daily_2024-01-16.tif";
     "/app/outputs/uganda_enhanced_analysis/uganda_pm25_daily_2024-01-15.tif"].
Proof. vm_compute. reflexivity. Qed.

Lemma traverse_Returned_In {A B : Type} (f : A -> outcome B) (l : list A)
    (ys : list B) :
  traverse f l = Returned ys ->
  forall y, In y ys <-> exists x, In x l /\ f x = Returned y.
Proof.
  revert ys. induction l as [|x l IH]; intros ys H y.
  - injection H as <-. split; [intros [] | intros (x & [] & _)].
  - cbn [traverse] in H. inv_bind H. inv_bind H. injection H as <-.
    match goal with
    | Hx : f x = Returned ?b, Hl : traverse f l = Returned ?bs |- _ =>
        specialize (IH bs Hl y); split;
        [ intros [<- | Hin];
          [exists x; split; [left; reflexivity | exact Hx]
          | apply IH in Hin; destruct Hin as (x' & Hx' & Hy);
            exists x'; split; [right; exact Hx' | exact Hy]]
        | intros (x' & [<- | Hx'] & Hy);
          [left; congruence | right; apply IH; eauto] ]
    end.
Qed.

(** X10. Step 5 on a readable output directory: it returns; no file other
    than [uganda_all_variables_geostack.tif] changes; without a daily
    raster nothing is written and there is no catalog; with daily rasters
    the catalog names the multi-variable stack, counts the daily rasters,
    and its [variables] are, without repetition, exactly the second
    [_]-separated pieces of their base names. *)
Theorem X10_step5_frame_and_catalog_variables :
  forall resample (fs : gmap string Enhanced.raster),
    Spec.readable fs ->
    exists fs' cat,
      Enhanced.create_multi_geostack resample fs = Returned (fs', cat)
      /\ (forall p, p <> Enhanced.multi_geostack_file -> fs' !! p = fs !! p)
      /\ (Enhanced.glob_daily fs = [] -> fs' = fs /\ cat = None)
      /\ (Enhanced.glob_daily fs <> [] ->
            exists c,
              cat = Some c
              /\ Enhanced.catalog_geostack_file c = Enhanced.multi_geostack_file
              /\ Enhanced.total_bands c = length (Enhanced.glob_daily fs)
              /\ NoDup (Enhanced.variables c)
              /\ forall v, In v (Enhanced.variables c) <->
                   exists f, In f (Enhanced.glob_daily fs)
                             /\ Enhanced.variable_of_file f = Returned v).
Proof.
  intros resample fs Hfs.
  destruct (create_multi_geostack_spec resample fs Hfs)
    as (fs' & cat & Hrun & Hsame & Hempty & _).
  exists fs', cat. split; [exact Hrun|]. split; [exact Hsame|].
  split; [exact Hempty|]. intros Hne.
  unfold Enhanced.create_multi_geostack in Hrun.
  destruct (Enhanced.glob_daily fs) as [|f0 files] eqn:E; [congruence|].
  rewrite <- E in *. inv_bind Hrun. inv_bind Hrun. injection Hrun as _ <-.
  match goal with
  | Hc : Enhanced.build_catalog _ = Returned ?c |- _ =>
      exists c; split; [reflexivity|];
      unfold Enhanced.build_catalog in Hc; inv_bind Hc; inv_bind Hc;
      injection Hc as <-
  end.
  cbn [Enhanced.catalog_geostack_file Enhanced.total_bands Enhanced.variables].
  split; [reflexivity|]. split; [reflexivity|]. split.
  - apply NoDup_elements.
  - intros v. rewrite <- list_elem_of_In, elem_of_elements, elem_of_list_to_set,
      list_elem_of_In.
    eapply traverse_Returned_In. eassumption.
Qed.

(** X10 at a directory with one raster of each of two variables. *)
Lemma X10_two_rasters_witness :
  exists fs' cat,
    Enhanced.create_multi_geostack
      Examples.no_resample Examples.two_rasters = Returned (fs', cat)
    /\ (forall p, p <> Enhanced.multi_geostack_file ->
                  fs' !! p = Examples.two_rasters !! p)
    /\ (Enhanced.glob_daily Examples.two_rasters = [] ->
          fs' = Examples.two_rasters /\ cat = None)
    /\ (Enhanced.glob_daily Examples.two_rasters <> [] ->
          exists c,
            cat = Some c
            /\ Enhanced.catalog_geostack_file c = Enhanced.multi_geostack_file
            /\ Enhanced.total_bands c
               = length (Enhanced.glob_daily Examples.two_rasters)
            /\ NoDup (Enhanced.variables c)
            /\ forall v, In v (Enhanced.variables c) <->
                 exists f, In f (Enhanced.glob_daily Examples.two_rasters)
                           /\ Enhanced.variable_of_file f = Returned v).
Proof.
  apply (X10_step5_frame_and_catalog_variables Examples.no_resample
           Examples.two_rasters).
  apply readable_insert; [discriminate|].
  apply readable_insert; [discriminate|].
  apply readable_empty.
Defined.

(** ** Loading *)

Lemma clean_row_Some to_datetime (row : gmap string Enhanced.cell)
    (r : Enhanced.record) :
  Enhanced.clean_row to_datetime row = Returned (Some r) <->
  row !! "lat" = Some (Enhanced.Num (Enhanced.r_lat r))
  /\ row !! "lon" = Some (Enhanced.Num (Enhanced.r_lon r))
  /\ row !! "date" ≫= to_datetime = Some (Enhanced.r_date r)
  /\ Enhanced.r_vals r = row.
Proof.
  unfold Enhanced.clean_row. split.
  - intros H.
    destruct (row !! "lat") as [lat|]; [|discriminate].
    destruct (row !! "lon") as [lon|]; [|discriminate].
    destruct (row !! "date" ≫= to_datetime) as [d|]; [|discriminate].
    destruct lat as [la|]; [|discriminate].
    destruct lon as [lo|]; [|discriminate].
    injection H as <-. repeat split.
  - intros (-> & -> & -> & <-). destruct r. reflexivity.
Qed.

Lemma omap_length_le {A B : Type} (f : A -> option B) (l : list A) :
  (length (omap f l) <= length l)%nat.
Proof.
  induction l as [|x l IH]; [reflexivity|].
  cbn [omap list_omap]. destruct (f x); cbn [length]; lia.
Qed.

(** X11. What the loading step keeps.  When it succeeds there was an input
    table with the five required columns; the available variables are the
    target variables that are columns of the table, in the order of the
    target list; and the cleaned rows are exactly the rows of the table
    whose country is Uganda, whose latitude and longitude are present
    numbers and whose date was parsed. *)
Theorem X11_load_keeps_clean_uganda_rows :
  forall to_datetime (input : option Enhanced.table) (data : Enhanced.dataset),
    Enhanced.load to_datetime input = Returned data ->
    exists df,
      input = Some df
      /\ Forall (fun col => col ∈ Enhanced.columns df)
           ["id"; "country"; "lat"; "lon"; "date"]
      /\ Enhanced.available_vars data
         = List.filter (fun v => bool_decide (v ∈ Enhanced.columns df))
             Enhanced.target_variables
      /\ (length (Enhanced.uganda_clean data) <= length (Enhanced.rows df))%nat
      /\ forall r, In r (Enhanced.uganda_clean data) <->
           exists row,
             In row (Enhanced.rows df)
             /\ row !! "country" = Some (Enhanced.Str "Uganda")
             /\ row !! "lat" = Some (Enhanced.Num (Enhanced.r_lat r))
             /\ row !! "lon" = Some (Enhanced.Num (Enhanced.r_lon r))
             /\ row !! "date" ≫= to_datetime = Some (Enhanced.r_date r)
             /\ Enhanced.r_vals r = row.
Proof.
  intros to_datetime input data H. unfold Enhanced.load in H.
  destruct input as [df|]; [|discriminate].
  exists df. split; [reflexivity|]. cbn [Enhanced.require mbind outcome_bind] in H.
  destruct (negb (Enhanced.has_column df "country")); [discriminate|].
  destruct (forallb (Enhanced.has_column df) _) eqn:Hcols; [|discriminate].
  cbn [negb] in H. inv_bind H. injection H as <-.
  cbn [Enhanced.available_vars Enhanced.uganda_clean].
  split.
  { apply Forall_forall. intros col Hcol.
    rewrite forallb_forall in Hcols.
    apply list_elem_of_In, Hcols in Hcol.
    unfold Enhanced.has_column in Hcol. apply bool_decide_eq_true in Hcol.
    exact Hcol. }
  split; [reflexivity|].
  match goal with
  | Ht : traverse _ _ = Returned ?cleaned |- _ =>
      pose proof (traverse_Returned_In _ _ _ Ht) as Hin;
      assert (Hlen : length cleaned
                     = length (List.filter Enhanced.is_uganda (Enhanced.rows df)))
  end.
  { match goal with
    | Ht : traverse ?f ?l = Returned ?cleaned |- _ =>
        revert Ht; generalize cleaned; generalize l
    end.
    induction l as [|x l IH]; intros ys Ht.
    - injection Ht as <-. reflexivity.
    - cbn [traverse] in Ht. inv_bind Ht. inv_bind Ht. injection Ht as <-.
      cbn [length]. f_equal. eapply IH. eassumption. }
  split.
  { etransitivity; [apply omap_length_le|]. rewrite Hlen. apply List.filter_length_le. }
  intros r. rewrite <- list_elem_of_In, list_elem_of_omap. split.
  - intros (y & Hy & Hid). cbn in Hid. subst y.
    apply list_elem_of_In, Hin in Hy. destruct Hy as (row & Hrow & Hclean).
    apply filter_In in Hrow. destruct Hrow as [Hrow Hug].
    apply clean_row_Some in Hclean.
    exists row. split; [exact Hrow|]. split; [|exact Hclean].
    unfold Enhanced.is_uganda in Hug.
    destruct (row !! "country") as [[q|s]|]; try discriminate.
    apply String.eqb_eq in Hug. congruence.
  - intros (row & Hrow & Hcountry & Hclean).
    exists (Some r). split; [|reflexivity].
    apply list_elem_of_In, Hin. exists row. split.
    + apply filter_In. split; [exact Hrow|].
      unfold Enhanced.is_uganda. rewrite Hcountry. apply String.eqb_refl.
    + apply clean_row_Some. exact Hclean.
Qed.

(** X11 at the three samples of scenario B. *)
Lemma X11_three_points_witness :
  exists df,
    Some Examples.three_points = Some df
    /\ Forall (fun col => col ∈ Enhanced.columns df)
         ["id"; "country"; "lat"; "lon"; "date"]
    /\ Enhanced.available_vars Samples.three_points_data
       = List.filter (fun v => bool_decide (v ∈ Enhanced.columns df))
           Enhanced.target_variables
    /\ (length (Enhanced.uganda_clean Samples.three_points_data)
        <= length (Enhanced.rows df))%nat
    /\ forall r, In r (Enhanced.uganda_clean Samples.three_points_data) <->
         exists row,
           In row (Enhanced.rows df)
           /\ row !! "country" = Some (Enhanced.Str "Uganda")
           /\ row !! "lat" = Some (Enhanced.Num (Enhanced.r_lat r))
           /\ row !! "lon" = Some (Enhanced.Num (Enhanced.r_lon r))
           /\ row !! "date" ≫= Examples.parse_day1 = Some (Enhanced.r_date r)
           /\ Enhanced.r_vals r = row.
Proof.
  apply (X11_load_keeps_clean_uganda_rows Examples.parse_day1
           (Some Examples.three_points) Samples.three_points_data).
  vm_compute. reflexivity.
Defined.

(** X12. Without a readable input file, or with an input table that lacks
    one of the columns [id], [country], [lat], [lon] and [date], the
    loading step raises and the run returns [False] without touching the
    output directory. *)
Theorem X12_missing_input_or_column_returns_false :
  forall to_datetime kriging rbf resample (cfg : Enhanced.config)
         (input : option Enhanced.table) (fs0 : gmap string Enhanced.raster),
    (input = None
     \/ exists df col,
          input = Some df
          /\ In col ["id"; "country"; "lat"; "lon"; "date"]
          /\ col ∉ Enhanced.columns df) ->
    (exists e, Enhanced.load to_datetime input = Raised e)
    /\ Enhanced.run to_datetime kriging rbf resample cfg input fs0
       = Returned (false, None).
Proof.
  intros to_datetime kriging rbf resample cfg input fs0 Hin.
  assert (Hload : exists e, Enhanced.load to_datetime input = Raised e).
  { destruct Hin as [-> | (df & col & -> & Hcol & Hmiss)].
    - eexists. reflexivity.
    - unfold Enhanced.load. cbn [Enhanced.require mbind outcome_bind].
      destruct (negb (Enhanced.has_column df "country")); [eauto|].
      destruct (forallb (Enhanced.has_column df) _) eqn:Hall; [|eauto].
      rewrite forallb_forall in Hall. apply Hall in Hcol.
      unfold Enhanced.has_column in Hcol. apply bool_decide_eq_true in Hcol.
      contradiction. }
  split; [exact Hload|]. destruct Hload as (e & He).
  unfold Enhanced.run. rewrite He. reflexivity.
Qed.

(** X12 at an input file without the [date] column. *)
Lemma X12_no_date_witness :
  (exists e, Enhanced.load Examples.parse_day1 (Some Samples.no_date) = Raised e)
  /\ Enhanced.run Examples.parse_day1 Examples.no_kriging Examples.no_rbf
    Examples.no_resample
       Enhanced.default_config (Some Samples.no_date) Examples.two_rasters
     = Returned (false, None).
Proof.
  apply (X12_missing_input_or_column_returns_false Examples.parse_day1
           Examples.no_kriging Examples.no_rbf
             Examples.no_resample Enhanced.default_config
           (Some Samples.no_date) Examples.two_rasters).
  right. exists Samples.no_date, "date". split; [reflexivity|].
  split; [simpl; tauto|].
  intros H. apply list_elem_of_In in H. simpl in H.
  repeat (destruct H as [H | H]; [discriminate H|]). exact H.
Defined.

(** * Part IV: the other routes of [src/app.py] *)

(** ** Patterns that contain one another *)

Lemma prefix_longer (p q s : string) :
  String.prefix (p +:+ q) s = true -> String.prefix p s = true.
Proof.
  revert s. induction p as [|c p IH]; intros s.
  - intros _. apply prefix_empty.
  - destruct s as [|c' s]; simpl; [intros H; discriminate H|].
    destruct (ascii_dec c c'); [apply IH | intros H; discriminate H].
Qed.

Lemma contains_longer (p q s : string) :
  PyStr.contains (p +:+ q) s = true -> PyStr.contains p s = true.
Proof.
  induction s as [|c s IH].
  - cbn [PyStr.contains]. rewrite !orb_false_r. apply prefix_longer.
  - rewrite !contains_unfold. intros H. apply orb_true_iff in H.
    apply orb_true_iff. destruct H as [H | H].
    + left. eapply prefix_longer, H.
    + right. apply IH, H.
Qed.

(** The detector's latitude patterns select the same columns as the terms
    of [csv_info]: a name that contains [latitude] contains [lat]. *)
Lemma lat_terms_is_lat (col : string) :
  PyStr.any_in Routes.lat_terms (PyStr.lower col) = App.is_lat col.
Proof.
  unfold App.is_lat, PyStr.any_in, Routes.lat_terms, App.lat_patterns.
  cbn [existsb]. generalize (PyStr.lower col). intros s.
  pose proof (contains_longer "lat" "itude" s) as H.
  change ("lat" +:+ "itude") with "latitude" in H.
  destruct (PyStr.contains "latitude" s); [|reflexivity].
  rewrite H by reflexivity. reflexivity.
Qed.

Lemma is_lon_lon_terms (col : string) :
  App.is_lon col = true ->
  PyStr.any_in Routes.lon_terms (PyStr.lower col) = true.
Proof.
  unfold App.is_lon, PyStr.any_in, Routes.lon_terms, App.lon_patterns.
  cbn [existsb]. generalize (PyStr.lower col). intros s.
  pose proof (contains_longer "lon" "g" s) as Hlong.
  pose proof (contains_longer "lon" "gitude" s) as Hlongitude.
  change ("lon" +:+ "g") with "long" in Hlong.
  change ("lon" +:+ "gitude") with "longitude" in Hlongitude.
  destruct (PyStr.contains "lon" s); [reflexivity|].
  destruct (PyStr.contains "long" s); [discriminate (Hlong eq_refl)|].
  destruct (PyStr.contains "longitude" s); [discriminate (Hlongitude eq_refl)|].
  cbn [orb]. destruct (PyStr.contains "lng" s); [reflexivity|].
  cbn [orb]. trivial.
Qed.

Lemma filter_ext_bool {A : Type} (p q : A -> bool) (l : list A) :
  (forall x, p x = q x) -> List.filter p l = List.filter q l.
Proof.
  intros H. induction l as [|x l IH]; [reflexivity|].
  cbn [List.filter]. rewrite H, IH. reflexivity.
Qed.

Lemma last_match_filter {A : Type} (p : A -> bool) (l : list A) (x : A) :
  Spec.last_match p l x -> last (List.filter p l) = Some x.
Proof.
  intros (pre & post & -> & Hx & Hpost).
  rewrite List.filter_app. cbn [List.filter]. rewrite Hx.
  assert (Hnone : List.filter p post = []).
  { induction Hpost as [|y post Hy _ IH]; [reflexivity|].
    cbn [List.filter]. rewrite Hy. exact IH. }
  rewrite Hnone. apply last_snoc.
Qed.

(** X13. [csv_info] and the detector agree on the latitude: for every
    table the list [lat_candidates] holds exactly the columns that the
    detector takes for a latitude, and whenever the detector answers, its
    latitude is the last of [lat_candidates] while its longitude is one of
    [lon_candidates] and none of [lat_candidates]. *)
Theorem X13_detector_answers_within_csv_info_candidates :
  forall (columns : list string),
    let detected := Routes.csv_info_auto_detected columns in
    Routes.lat_candidates detected = List.filter App.is_lat columns
    /\ forall cc : App.coord_columns,
         App.detect_coordinate_columns columns = Some cc ->
         last (Routes.lat_candidates detected) = Some (App.latitude cc)
         /\ In (App.longitude cc) (Routes.lon_candidates detected)
         /\ ~ In (App.longitude cc) (Routes.lat_candidates detected).
Proof.
  intros columns detected.
  assert (Hlat : Routes.lat_candidates detected = List.filter App.is_lat columns).
  { apply filter_ext_bool, lat_terms_is_lat. }
  split; [exact Hlat|]. intros [lat lon] H.
  unfold App.detect_coordinate_columns in H. rewrite detect_loop_last in H.
  destruct (List.find App.is_lat (rev columns)) as [la|] eqn:Hla;
    [|discriminate].
  destruct (List.find Spec.lon_only (rev columns)) as [lo|] eqn:Hlo;
    [|discriminate].
  destruct (PyStr.truthy la && PyStr.truthy lo); [|discriminate].
  injection H as -> ->. cbn [App.latitude App.longitude].
  rewrite Hlat.
  split; [apply last_match_filter, find_last_match, Hla|].
  apply find_some in Hlo. destruct Hlo as [Hin Hlo].
  apply in_rev in Hin. unfold Spec.lon_only in Hlo.
  apply andb_true_iff in Hlo. destruct Hlo as [Hnot Hlon].
  split.
  - apply filter_In. split; [exact Hin|]. apply is_lon_lon_terms, Hlon.
  - intros Hc. apply filter_In in Hc. destruct Hc as [_ Hc].
    rewrite Hc in Hnot. discriminate.
Qed.

(** X13 at a table with two candidates for each role, on which the
    detector answers, and at a table without a longitude, on which it does
    not. *)
Lemma X13_two_candidates_witness :
  (let detected :=
     Routes.csv_info_auto_detected ["lat"; "lng"; "Latitude"; "LONG"] in
   App.detect_coordinate_columns ["lat"; "lng"; "Latitude"; "LONG"]
   = Some (App.CoordColumns "Latitude" "LONG")
   /\ Routes.lat_candidates detected
      = List.filter App.is_lat ["lat"; "lng"; "Latitude"; "LONG"]
   /\ last (Routes.lat_candidates detected) = Some "Latitude"
   /\ In "LONG" (Routes.lon_candidates detected)
   /\ ~ In "LONG" (Routes.lat_candidates detected))
  /\ App.detect_coordinate_columns ["lat"; "NDVI"] = None
  /\ Routes.lat_candidates (Routes.csv_info_auto_detected ["lat"; "NDVI"])
     = List.filter App.is_lat ["lat"; "NDVI"].
Proof.
  split; [|split; [reflexivity|]].
  - split; [reflexivity|].
    split;
      [exact (proj1 (X13_detector_answers_within_csv_info_candidates
                       ["lat"; "lng"; "Latitude"; "LONG"]))|].
    exact (proj2 (X13_detector_answers_within_csv_info_candidates
                    ["lat"; "lng"; "Latitude"; "LONG"])
             (App.CoordColumns "Latitude" "LONG") eq_refl).
  - exact (proj1 (X13_detector_answers_within_csv_info_candidates
                    ["lat"; "NDVI"])).
Defined.

(** The candidate lists of that table: [lng] is a longitude candidate of
    [csv_info] that the detector does not know. *)
Example csv_info_two_candidates :
  Routes.csv_info_auto_detected ["lat"; "lng"; "Latitude"; "LONG"; "Day"]
  = Routes.AutoDetected ["lat"; "Latitude"; "Day"] ["lng"; "LONG"] ["Day"].
Proof. reflexivity. Qed.

(** ** [variable_selection] *)

(** The loop as three comprehensions over the numeric columns. *)
Lemma variable_selection_filters (df : list (string * App.series)) :
  let numeric := fun item : string * App.series =>
                   App.is_numeric_dtype (snd item) in
  let is_lat := fun item : string * App.series =>
                  PyStr.any_in Routes.selection_lat_terms (PyStr.lower (fst item)) in
  let is_lon := fun item : string * App.series =>
                  PyStr.any_in Routes.selection_lon_terms (PyStr.lower (fst item)) in
  Routes.variable_selection df
  = (map (fun item => Routes.NumericVariable (fst item) (App.count (snd item)))
       (List.filter numeric df),
     Routes.CoordinateCandidates
       (map fst (List.filter (fun item => numeric item && is_lat item) df))
       (map fst (List.filter
                   (fun item => numeric item && negb (is_lat item) && is_lon item)
                   df))).
Proof.
  intros numeric is_lat is_lon. unfold Routes.variable_selection.
  subst numeric is_lat is_lon. cbv beta.
  assert (Hgen : forall vars lats lons,
             fold_left Routes.selection_step df
               (vars, Routes.CoordinateCandidates lats lons)
             = (vars ++ map (fun item : string * App.series =>
                               Routes.NumericVariable (fst item)
                                 (App.count (snd item)))
                          (List.filter
                             (fun item : string * App.series =>
                                App.is_numeric_dtype (snd item)) df),
                Routes.CoordinateCandidates
                  (lats ++ map fst
                     (List.filter
                        (fun item : string * App.series =>
                           App.is_numeric_dtype (snd item)
                           && PyStr.any_in Routes.selection_lat_terms
                                (PyStr.lower (fst item))) df))
                  (lons ++ map fst
                     (List.filter
                        (fun item : string * App.series =>
                           App.is_numeric_dtype (snd item)
                           && negb (PyStr.any_in Routes.selection_lat_terms
                                      (PyStr.lower (fst item)))
                           && PyStr.any_in Routes.selection_lon_terms
                                (PyStr.lower (fst item))) df)))).
  { induction df as [|[col s] df IH]; intros vars lats lons.
    - cbn [fold_left List.filter map]. rewrite !app_nil_r. reflexivity.
    - cbn [fold_left List.filter Routes.selection_step fst snd].
      destruct (App.is_numeric_dtype s); cbn [andb negb]; [|apply IH].
      cbn [Routes.cand_latitude Routes.cand_longitude].
      destruct (PyStr.any_in Routes.selection_lat_terms (PyStr.lower col));
        cbn [andb negb].
      + rewrite IH. cbn [map fst snd]. rewrite <- !app_assoc. reflexivity.
      + destruct (PyStr.any_in Routes.selection_lon_terms (PyStr.lower col));
          rewrite IH; cbn [map fst snd]; rewrite <- !app_assoc; reflexivity. }
  apply (Hgen [] [] []).
Qed.

Lemma selection_lat_is_lat (col : string) :
  PyStr.any_in Routes.selection_lat_terms (PyStr.lower col) = true ->
  App.is_lat col = true.
Proof.
  unfold App.is_lat, PyStr.any_in, Routes.selection_lat_terms, App.lat_patterns.
  cbn [existsb]. generalize (PyStr.lower col). intros s.
  destruct (PyStr.contains "lat" s), (PyStr.contains "latitude" s),
    (PyStr.contains "y" s); cbn [orb]; intros H;
    first [discriminate H | reflexivity].
Qed.

Lemma selection_lon_is_lon (col : string) :
  PyStr.any_in Routes.selection_lon_terms (PyStr.lower col) = true ->
  App.is_lon col = true.
Proof.
  unfold App.is_lon, PyStr.any_in, Routes.selection_lon_terms, App.lon_patterns.
  cbn [existsb]. generalize (PyStr.lower col). intros s.
  destruct (PyStr.contains "lon" s), (PyStr.contains "longitude" s),
    (PyStr.contains "long" s), (PyStr.contains "x" s); cbn [orb]; intros H;
    first [discriminate H | reflexivity].
Qed.

(** X14. The answer of [variable_selection]: ['variables'] has one entry
    per numeric column, in table order; every coordinate candidate is a
    numeric column and one of the variables; a latitude candidate is a
    column that the detector takes for a latitude; a longitude candidate
    matches a longitude pattern of the detector and no latitude term of
    this route; no column is a candidate for both roles. *)
Theorem X14_selection_candidates_are_numeric_and_disjoint :
  forall (df : list (string * App.series)),
    let '(numeric_variables, cands) := Routes.variable_selection df in
    map Routes.nv_name numeric_variables
    = map fst (List.filter (fun item => App.is_numeric_dtype (snd item)) df)
    /\ (forall col, In col (Routes.cand_latitude cands) ->
          App.is_lat col = true
          /\ In col (map Routes.nv_name numeric_variables)
          /\ exists s, In (col, s) df /\ App.is_numeric_dtype s = true)
    /\ (forall col, In col (Routes.cand_longitude cands) ->
          App.is_lon col = true
          /\ PyStr.any_in Routes.selection_lat_terms (PyStr.lower col) = false
          /\ In col (map Routes.nv_name numeric_variables)
          /\ exists s, In (col, s) df /\ App.is_numeric_dtype s = true)
    /\ (forall col, In col (Routes.cand_latitude cands) ->
                    ~ In col (Routes.cand_longitude cands)).
Proof.
  intros df. rewrite variable_selection_filters.
  cbn [Routes.cand_latitude Routes.cand_longitude].
  assert (Hnames :
            map Routes.nv_name
              (map (fun item : string * App.series =>
                      Routes.NumericVariable (fst item) (App.count (snd item)))
                 (List.filter (fun item => App.is_numeric_dtype (snd item)) df))
            = map fst (List.filter (fun item => App.is_numeric_dtype (snd item)) df)).
  { rewrite map_map. reflexivity. }
  rewrite Hnames.
  assert (Hlat : forall col,
             In col (map fst (List.filter
                                (fun item : string * App.series =>
                                   App.is_numeric_dtype (snd item)
                                   && PyStr.any_in Routes.selection_lat_terms
                                        (PyStr.lower (fst item))) df)) ->
             PyStr.any_in Routes.selection_lat_terms (PyStr.lower col) = true
             /\ exists s, In (col, s) df /\ App.is_numeric_dtype s = true).
  { intros col Hcol. apply in_map_iff in Hcol.
    destruct Hcol as ([c s] & <- & Hin). apply filter_In in Hin.
    destruct Hin as [Hin Hp]. apply andb_true_iff in Hp. cbn [fst snd] in *.
    destruct Hp. eauto. }
  assert (Hlon : forall col,
             In col (map fst (List.filter
                                (fun item : string * App.series =>
                                   App.is_numeric_dtype (snd item)
                                   && negb (PyStr.any_in Routes.selection_lat_terms
                                              (PyStr.lower (fst item)))
                                   && PyStr.any_in Routes.selection_lon_terms
                                        (PyStr.lower (fst item))) df)) ->
             PyStr.any_in Routes.selection_lon_terms (PyStr.lower col) = true
             /\ PyStr.any_in Routes.selection_lat_terms (PyStr.lower col) = false
             /\ exists s, In (col, s) df /\ App.is_numeric_dtype s = true).
  { intros col Hcol. apply in_map_iff in Hcol.
    destruct Hcol as ([c s] & <- & Hin). apply filter_In in Hin.
    destruct Hin as [Hin Hp]. cbn [fst snd] in *.
    apply andb_true_iff in Hp. destruct Hp as [Hp Hl].
    apply andb_true_iff in Hp. destruct Hp as [Hn Hnl].
    apply negb_true_iff in Hnl. eauto. }
  assert (Hvar : forall col s, In (col, s) df -> App.is_numeric_dtype s = true ->
             In col (map fst (List.filter
                                (fun item : string * App.series =>
                                   App.is_numeric_dtype (snd item)) df))).
  { intros col s Hin Hs. apply in_map_iff. exists (col, s).
    split; [reflexivity|]. apply filter_In. auto. }
  split; [reflexivity|]. split; [|split].
  - intros col Hcol. destruct (Hlat col Hcol) as (Hl & s & Hin & Hs).
    split; [apply selection_lat_is_lat, Hl|]. split; eauto.
  - intros col Hcol. destruct (Hlon col Hcol) as (Hl & Hnl & s & Hin & Hs).
    split; [apply selection_lon_is_lon, Hl|]. split; [exact Hnl|]. split; eauto.
  - intros col Hcol Hcol'. destruct (Hlat col Hcol) as (Hl & _).
    destruct (Hlon col Hcol') as (_ & Hnl & _). congruence.
Qed.

(** The answer for a table with a text column and a column that matches
    terms of both roles. *)
Example variable_selection_example :
  Routes.variable_selection
    [("site", App.ObjSeries [Some "a"; Some "b"]);
     ("Latitude", App.NumSeries [Some 1; None]);
     ("xy", App.NumSeries [Some 2; Some 3]);
     ("Long", App.NumSeries [Some 4; Some 5]);
     ("pm25", App.NumSeries [None; Some 6])]
  = ([Routes.NumericVariable "Latitude" 1; Routes.NumericVariable "xy" 2;
      Routes.NumericVariable "Long" 2; Routes.NumericVariable "pm25" 1],
     Routes.CoordinateCandidates ["Latitude"; "xy"] ["Long"]).
Proof. reflexivity. Qed.

(** ** The coordinate columns of [get_all_variables] *)

(** Every pattern of the detector contains a coordinate term. *)
Lemma detector_patterns_are_coordinate_terms (col : string) :
  App.is_lat col = true \/ App.is_lon col = true ->
  PyStr.any_in Routes.coordinate_terms (PyStr.lower col) = true.
Proof.
  unfold App.is_lat, App.is_lon, PyStr.any_in, Routes.coordinate_terms,
    App.lat_patterns, App.lon_patterns.
  cbn [existsb]. generalize (PyStr.lower col). intros s.
  pose proof (contains_longer "lat" "itude" s) as Hlatitude.
  pose proof (contains_longer "north" "ing" s) as Hnorthing.
  pose proof (contains_longer "lon" "g" s) as Hlong.
  pose proof (contains_longer "lon" "gitude" s) as Hlongitude.
  pose proof (contains_longer "east" "ing" s) as Heasting.
  change ("lat" +:+ "itude") with "latitude" in Hlatitude.
  change ("north" +:+ "ing") with "northing" in Hnorthing.
  change ("lon" +:+ "g") with "long" in Hlong.
  change ("lon" +:+ "gitude") with "longitude" in Hlongitude.
  change ("east" +:+ "ing") with "easting" in Heasting.
  destruct (PyStr.contains "lat" s); [reflexivity|].
  destruct (PyStr.contains "lon" s); [reflexivity|].
  destruct (PyStr.contains "x" s); [reflexivity|].
  destruct (PyStr.contains "y" s); [reflexivity|].
  destruct (PyStr.contains "north" s); [reflexivity|].
  destruct (PyStr.contains "east" s); [reflexivity|].
  destruct (PyStr.contains "latitude" s); [discriminate (Hlatitude eq_refl)|].
  destruct (PyStr.contains "northing" s); [discriminate (Hnorthing eq_refl)|].
  destruct (PyStr.contains "long" s); [discriminate (Hlong eq_refl)|].
  destruct (PyStr.contains "longitude" s); [discriminate (Hlongitude eq_refl)|].
  destruct (PyStr.contains "easting" s); [discriminate (Heasting eq_refl)|].
  cbn [orb]. intros [H | H]; discriminate H.
Qed.

(** X15. On a table without a numeric column of one to nine values,
    [get_all_variables] answers 200, and a numeric column with a value is
    listed among its ['coordinate_columns'] as soon as the detector could
    take its name for a latitude or a longitude, and also, whatever its
    name, as soon as all its values lie between -90 and 90; the listed
    range is the least and the greatest value of the column. *)
Theorem X15_coordinate_columns_by_name_or_by_range :
  forall (df : list (string * App.series)) (col : string)
         (d : list (option Q)),
    (forall col' d',
        In (col', App.NumSeries d') df ->
        length (App.dropna d') = 0%nat
        \/ (10 <= length (App.dropna d'))%nat) ->
    In (col, App.NumSeries d) df ->
    App.dropna d <> [] ->
    (App.is_lat col = true \/ App.is_lon col = true
     \/ forall v, In v (App.dropna d) -> -90 <= v /\ v <= 90) ->
    exists listed e lo hi,
      Routes.coordinate_columns df = App.Ok listed
      /\ In e listed
      /\ Routes.cc_name e = col
      /\ Routes.cc_range e = (lo, hi)
      /\ In lo (App.dropna d) /\ In hi (App.dropna d)
      /\ forall v, In v (App.dropna d) -> lo <= v /\ v <= hi.
Proof.
  intros df col d Hdense Hin Hne Hcase.
  destruct (amin_is_Some _ Hne) as (lo & Hlo).
  destruct (amax_is_Some _ Hne) as (hi & Hhi).
  exists (Routes.collect_coordinate_columns df),
    (Routes.CoordinateColumn col
       (Routes.coordinate_type (PyStr.lower col)) (lo, hi)), lo, hi.
  split; [|split; [|split; [reflexivity|split; [reflexivity|]]]].
  - unfold Routes.coordinate_columns.
    rewrite (get_all_variables_Ok df Hdense). reflexivity.
  - apply list_elem_of_In, list_elem_of_omap.
    exists (col, App.NumSeries d). split; [apply list_elem_of_In, Hin|].
    cbn [Routes.coordinate_entry]. rewrite Hlo, Hhi.
    assert (Hlisted :
              PyStr.any_in Routes.coordinate_terms (PyStr.lower col)
              || Routes.looks_like_coordinates lo hi = true).
    { destruct Hcase as [H | [H | H]].
      - rewrite detector_patterns_are_coordinate_terms by auto. reflexivity.
      - rewrite detector_patterns_are_coordinate_terms by auto. reflexivity.
      - apply orb_true_iff. right.
        destruct (H lo (amin_In _ _ Hlo)) as [Hlo1 Hlo2].
        destruct (H hi (amax_In _ _ Hhi)) as [Hhi1 Hhi2].
        unfold Routes.looks_like_coordinates.
        rewrite !andb_true_iff, !Qle_bool_iff.
        repeat split; try assumption; lra. }
    rewrite Hlisted. reflexivity.
  - split; [apply amin_In, Hlo|]. split; [apply amax_In, Hhi|].
    intros v Hv. split.
    + eapply amin_lower_bound; eassumption.
    + eapply amax_upper_bound; eassumption.
Qed.

(** X15 at a column of twelve values between 1 and 6, whose name says
    nothing of a coordinate. *)
Lemma X15_index_witness :
  exists listed e lo hi,
    Routes.coordinate_columns Examples.dense_table = App.Ok listed
    /\ In e listed
    /\ Routes.cc_name e = "pm25"
    /\ Routes.cc_range e = (lo, hi)
    /\ In lo (App.dropna Examples.twelve_values)
    /\ In hi (App.dropna Examples.twelve_values)
    /\ forall v, In v (App.dropna Examples.twelve_values) ->
                 lo <= v /\ v <= hi.
Proof.
  apply (X15_coordinate_columns_by_name_or_by_range
           Examples.dense_table "pm25" Examples.twelve_values).
  - intros col' d' [E | [E | []]]; [discriminate E|].
    injection E as <- <-. right. vm_compute. lia.
  - right. left. reflexivity.
  - discriminate.
  - right. right. intros v Hv. vm_compute in Hv.
    repeat (destruct Hv as [<- | Hv];
            [split; vm_compute; discriminate|]).
    destruct Hv.
Defined.

(** The list of a table of ten rows, with the type given to a longitude
    whose name happens to contain [lat]; and the answer once a column of
    two values stands beside the others. *)
Example coordinate_columns_example :
  Routes.coordinate_columns
    [("NDVI", App.NumSeries (replicate 5 (Some (1 # 2))
                             ++ replicate 5 (Some (3 # 4))));
     ("platform_lon", App.NumSeries (replicate 5 (Some 30)
                                     ++ replicate 5 (Some 31)));
     ("elevation", App.NumSeries (replicate 5 (Some 1200)
                                  ++ replicate 5 (Some 1100)))]
  = App.Ok [Routes.CoordinateColumn "NDVI" "coordinate" (1 # 2, 3 # 4);
            Routes.CoordinateColumn "platform_lon" "latitude" (30, 31)]
  /\ Routes.coordinate_columns Examples.sparse_table = App.ServerError.
Proof. split; reflexivity. Qed.

(** ** [process_csv] *)

Lemma filter_idempotent {A : Type} (p : A -> bool) (l : list A) :
  List.filter p (List.filter p l) = List.filter p l.
Proof.
  induction l as [|x l IH]; [reflexivity|].
  cbn [List.filter]. destruct (p x) eqn:E; [|exact IH].
  cbn [List.filter]. rewrite E, IH. reflexivity.
Qed.

(** X16. [process_csv] on a file of the data directory: the operation
    [export_clean] answers 200, reports the row counts of the table and of
    the cleaned table, writes the cleaned table under [cleaned_<filename>]
    and changes no other output file; the cleaned table has the columns of
    the original, no more rows, a value in every row, and cleaning it again
    changes nothing.  Every other operation leaves the output directory as
    it was. *)
Theorem X16_export_clean_drops_only_empty_rows :
  forall (filename operation : string)
         (data outputs : gmap string Enhanced.table) (df : Enhanced.table),
    data !! filename = Some df ->
    let '(status, body, outputs') :=
      Routes.process_csv filename operation data outputs in
    status = 200%nat
    /\ (operation <> "export_clean" -> outputs' = outputs)
    /\ (operation = "export_clean" ->
          exists df_clean,
            outputs' !! ("cleaned_" +:+ filename) = Some df_clean
            /\ body = Routes.ExportResult (length (Enhanced.rows df))
                        (length (Enhanced.rows df_clean))
                        ("cleaned_" +:+ filename)
            /\ (forall p, p <> "cleaned_" +:+ filename ->
                          outputs' !! p = outputs !! p)
            /\ Enhanced.columns df_clean = Enhanced.columns df
            /\ (length (Enhanced.rows df_clean) <= length (Enhanced.rows df))%nat
            /\ (forall row, In row (Enhanced.rows df_clean) <->
                  In row (Enhanced.rows df)
                  /\ exists col, In col (Enhanced.columns df)
                                 /\ is_Some (row !! col))
            /\ Routes.dropna_all df_clean = df_clean).
Proof.
  intros filename operation data outputs df Hdf.
  unfold Routes.process_csv. rewrite Hdf.
  destruct (String.eqb_spec operation "info") as [-> | Hinfo].
  { split; [reflexivity|]. split; [reflexivity | discriminate]. }
  destruct (String.eqb_spec operation "summary") as [-> | Hsummary].
  { split; [reflexivity|]. split; [reflexivity | discriminate]. }
  destruct (String.eqb_spec operation "export_clean") as [-> | Hexport].
  - split; [reflexivity|]. split; [congruence|]. intros _.
    exists (Routes.dropna_all df).
    split; [apply lookup_insert_eq|]. split; [reflexivity|].
    split; [intros p Hp; apply lookup_insert_ne; congruence|].
    split; [reflexivity|].
    split; [apply List.filter_length_le|]. split.
    + intros row. cbn [Routes.dropna_all Enhanced.rows].
      rewrite filter_In. unfold Routes.has_some_value.
      rewrite existsb_exists. split.
      * intros [Hrow (col & Hcol & Hsome)]. split; [exact Hrow|].
        exists col. split; [exact Hcol|].
        apply bool_decide_eq_true in Hsome. exact Hsome.
      * intros [Hrow (col & Hcol & Hsome)]. split; [exact Hrow|].
        exists col. split; [exact Hcol|].
        apply bool_decide_eq_true. exact Hsome.
    + unfold Routes.dropna_all. cbn [Enhanced.columns Enhanced.rows].
      rewrite filter_idempotent. reflexivity.
  - split; [reflexivity|]. split; [reflexivity | congruence].
Qed.

(** X16 at a table with one empty row. *)
Lemma X16_empty_row_witness :
  let '(status, body, outputs') :=
    Routes.process_csv "sites.csv" "export_clean"
      {[ "sites.csv" := Samples.with_empty_row ]} ∅ in
  status = 200%nat
  /\ ("export_clean" <> "export_clean" -> outputs' = ∅)
  /\ ("export_clean" = "export_clean" ->
        exists df_clean,
          outputs' !! ("cleaned_" +:+ "sites.csv") = Some df_clean
          /\ body = Routes.ExportResult
                      (length (Enhanced.rows Samples.with_empty_row))
                      (length (Enhanced.rows df_clean))
                      ("cleaned_" +:+ "sites.csv")
          /\ (forall p, p <> "cleaned_" +:+ "sites.csv" ->
                        outputs' !! p = (∅ : gmap string Enhanced.table) !! p)
          /\ Enhanced.columns df_clean = Enhanced.columns Samples.with_empty_row
          /\ (length (Enhanced.rows df_clean)
              <= length (Enhanced.rows Samples.with_empty_row))%nat
          /\ (forall row, In row (Enhanced.rows df_clean) <->
                In row (Enhanced.rows Samples.with_empty_row)
                /\ exists col, In col (Enhanced.columns Samples.with_empty_row)
                               /\ is_Some (row !! col))
          /\ Routes.dropna_all df_clean = df_clean).
Proof.
  apply (X16_export_clean_drops_only_empty_rows "sites.csv" "export_clean"
           {[ "sites.csv" := Samples.with_empty_row ]} ∅
           Samples.with_empty_row).
  apply lookup_singleton_eq.
Defined.

(** The body of that answer, and the answer to an operation that the route
    does not know: an error body under status 200. *)
Example process_csv_answers :
  (fst (Routes.process_csv "sites.csv" "export_clean"
          {[ "sites.csv" := Samples.with_empty_row ]} ∅),
   fst (Routes.process_csv "sites.csv" "describe"
          {[ "sites.csv" := Samples.with_empty_row ]} ∅),
   fst (Routes.process_csv "other.csv" "info"
          {[ "sites.csv" := Samples.with_empty_row ]} ∅))
  = ((200%nat, Routes.ExportResult 3 2 "cleaned_sites.csv"),
     (200%nat, Routes.ErrorResult "Unknown operation"),
     (404%nat, Routes.ErrorResult "File not found")).
Proof. vm_compute. reflexivity. Qed.

(** ** The request handler [run_interpolation] *)

Lemma app_build_grid_total (lats lons : list Q) (resolution : Z) :
  lats <> [] -> lons <> [] -> (0 <= resolution)%Z ->
  exists grid_lats grid_lons,
    App.build_grid lats lons resolution = Returned (grid_lats, grid_lons)
    /\ length grid_lats = Z.to_nat resolution
    /\ length grid_lons = Z.to_nat resolution.
Proof.
  intros Hlats Hlons Hres. unfold App.build_grid.
  destruct (amin_is_Some _ Hlats) as (lat_min & ->).
  destruct (amax_is_Some _ Hlats) as (lat_max & ->).
  destruct (amin_is_Some _ Hlons) as (lon_min & ->).
  destruct (amax_is_Some _ Hlons) as (lon_max & ->).
  cbn [App.require mbind outcome_bind].
  destruct (linspace_length (lat_min - (lat_max - lat_min) * (1 # 10))
              (lat_max + (lat_max - lat_min) * (1 # 10)) resolution Hres)
    as (grid_lats & -> & Hlat).
  destruct (linspace_length (lon_min - (lon_max - lon_min) * (1 # 10))
              (lon_max + (lon_max - lon_min) * (1 # 10)) resolution Hres)
    as (grid_lons & -> & Hlon).
  cbn [mbind outcome_bind]. eauto.
Qed.

Lemma app_build_grid_Returned_nonneg (lats lons : list Q) (resolution : Z)
    (g : list Q * list Q) :
  App.build_grid lats lons resolution = Returned g -> (0 <= resolution)%Z.
Proof.
  destruct g as [grid_lats grid_lons]. intros H.
  apply app_build_grid_inv in H.
  destruct H as (lat_min & lat_max & _ & _ & _ & _ & _ & _ & H & _).
  apply linspace_Returned_length in H. tauto.
Qed.

(** What [interpolate_variable] answers, by the number of samples and the
    sign of the resolution. *)
Lemma interpolate_variable_cases kriging (method : string) (resolution : Z)
    (var_data : list App.sample) :
  ((length var_data < 10)%nat ->
     App.interpolate_variable kriging method resolution var_data
     = Returned (App.VarError "Insufficient data points"))
  /\ ((10 <= length var_data)%nat -> (resolution < 0)%Z ->
        exists e, App.interpolate_variable kriging method resolution var_data
                  = Raised e)
  /\ ((0 <= resolution)%Z ->
        exists r, App.interpolate_variable kriging method resolution var_data
                  = Returned r)
  /\ (forall method_used z bounds,
        App.interpolate_variable kriging method resolution var_data
        = Returned (App.VarSuccess method_used z bounds) ->
        (10 <= length var_data)%nat /\ (0 <= resolution)%Z
        /\ method_used = PyStr.lower method).
Proof.
  unfold App.interpolate_variable.
  destruct (Nat.ltb_spec (length var_data) 10) as [Hfew | Hmany].
  { split; [reflexivity|]. split; [lia|]. split; [eauto|].
    intros ? ? ? H. discriminate H. }
  split; [lia|].
  destruct (App.build_grid (map App.s_lat var_data) (map App.s_lon var_data)
              resolution) as [[grid_lats grid_lons]|e] eqn:Hg.
  - pose proof (app_build_grid_Returned_nonneg _ _ _ _ Hg) as Hres.
    cbn [mbind outcome_bind].
    split; [lia|]. split.
    + intros _.
      destruct (App.interpolate kriging method _ _ _ grid_lats grid_lons ≫= _);
        eauto.
    + intros method_used z bounds H.
      split; [exact Hmany|]. split; [exact Hres|].
      destruct (App.interpolate kriging method _ _ _ grid_lats grid_lons)
        as [interpolated|e]; cbn [mbind outcome_bind] in H; [|discriminate H].
      destruct (App.require (Np.amin grid_lons) _); cbn [mbind outcome_bind] in H;
        [|discriminate H].
      destruct (App.require (Np.amin grid_lats) _); cbn [mbind outcome_bind] in H;
        [|discriminate H].
      destruct (App.require (Np.amax grid_lons) _); cbn [mbind outcome_bind] in H;
        [|discriminate H].
      destruct (App.require (Np.amax grid_lats) _); cbn [mbind outcome_bind] in H;
        [|discriminate H].
      injection H as <- _ _. reflexivity.
  - cbn [mbind outcome_bind]. split; [eauto|]. split.
    + intros Hres.
      destruct (app_build_grid_total (map App.s_lat var_data)
                  (map App.s_lon var_data) resolution) as (? & ? & Hg' & _);
        try exact Hres; try congruence;
        destruct var_data; simpl in *; try lia; discriminate.
    + intros ? ? ? H. discriminate H.
Qed.


(** One iteration that returns: the variable is skipped, or it gets an
    entry; a success entry comes with one more output file, written as a
    raster of the declared size. *)
Lemma handle_variable_Returned kriging run_id (filename method : string)
    (resolution : Z) (lat_column lon_column : string) (columns : list string)
    (df_clean : list (gmap string Q)) (st st' : Routes.loop_state)
    (i : nat) (variable : string) :
  Routes.handle_variable kriging run_id filename method resolution lat_column
    lon_column columns df_clean st (i, variable) = Returned st' ->
  ((variable ∉ columns) /\ st' = st)
  \/ ((variable ∈ columns)
      /\ exists e,
           Routes.ls_results st' = <[variable := e]> (Routes.ls_results st)
           /\ ((Routes.ls_output_files st' = Routes.ls_output_files st
                /\ Routes.ls_outputs st' = Routes.ls_outputs st
                /\ exists msg, e = Routes.EntryError msg)
               \/ (exists t,
                     Routes.ls_output_files st'
                     = Routes.ls_output_files st
                       ++ [Routes.output_name run_id filename variable i]
                     /\ Routes.ls_outputs st'
                        = <[Routes.output_name run_id filename variable i := t]>
                            (Routes.ls_outputs st)
                     /\ RouteSpec.raster_ok resolution t
                     /\ (0 <= resolution)%Z
                     /\ RouteSpec.entry_ok method resolution
                          (Routes.ls_output_files st') (Routes.ls_outputs st') e
                     /\ exists n range m b,
                          e = Routes.EntrySuccess n range m
                                (Routes.output_name run_id filename variable i) b))).
Proof.
  unfold Routes.handle_variable.
  destruct (bool_decide_reflect (variable ∈ columns)) as [Hin | Hout];
    cbn [negb]; [|intros [= <-]; left; auto].
  intros H. right. split; [exact Hin|].
  set (samples := omap (Routes.to_sample lat_column lon_column variable)
                    (List.filter (Routes.has variable) df_clean)) in *.
  destruct (App.interpolate_variable kriging method resolution samples)
    as [r|e] eqn:Hr; cbn [mbind outcome_bind] in H; [|discriminate H].
  destruct r as [msg | method_used interpolated bounds].
  { injection H as <-. eexists. split; [reflexivity|]. left. eauto. }
  destruct (proj2 (proj2 (proj2 (interpolate_variable_cases kriging method
                                   resolution samples)))
              _ _ _ Hr) as (Hmany & Hres & ->).
  destruct (Routes.shape_ok interpolated resolution) eqn:Hshape;
    [|injection H as <-; eexists; split; [reflexivity|]; left; eauto].
  destruct (Np.amin (map App.s_value samples)) as [lo|] eqn:Hlo;
    [|injection H as <-; eexists; split; [reflexivity|]; left; eauto].
  destruct (Np.amax (map App.s_value samples)) as [hi|] eqn:Hhi;
    [|injection H as <-; eexists; split; [reflexivity|]; left; eauto].
  injection H as <-. eexists. split; [reflexivity|]. right.
  cbn [Routes.ls_output_files Routes.ls_outputs].
  assert (Hok : RouteSpec.raster_ok resolution
                  (Routes.GeoTiff resolution resolution bounds interpolated)).
  { repeat split. exact Hshape. }
  eexists. split; [reflexivity|]. split; [reflexivity|].
  split; [exact Hok|]. split; [exact Hres|]. split; [|eauto].
  cbn [RouteSpec.entry_ok fst snd]. rewrite length_map.
  split; [exact Hmany|]. split; [eapply amin_le_amax; eassumption|].
  split; [reflexivity|].
  split; [apply in_or_app; right; left; reflexivity|].
  eexists. split; [apply lookup_insert_eq | exact Hok].
Qed.

(** An entry that is in order stays so when files are added and rasters
    keep their size. *)
Lemma entry_ok_mono (method : string) (resolution : Z)
    (files files' : list string) (outputs outputs' : gmap string Routes.geotiff)
    (e : Routes.entry) :
  (forall f, In f files -> In f files') ->
  (forall p t, outputs !! p = Some t -> RouteSpec.raster_ok resolution t ->
               exists t', outputs' !! p = Some t'
                          /\ RouteSpec.raster_ok resolution t') ->
  RouteSpec.entry_ok method resolution files outputs e ->
  RouteSpec.entry_ok method resolution files' outputs' e.
Proof.
  intros Hfiles Houtputs. destruct e as [msg | n range m file b]; [auto|].
  cbn [RouteSpec.entry_ok]. intros (Hn & Hrange & Hm & Hfile & t & Ht & Hok).
  split; [exact Hn|]. split; [exact Hrange|]. split; [exact Hm|].
  split; [apply Hfiles, Hfile|]. exact (Houtputs file t Ht Hok).
Qed.

(** The loop that runs to its end. *)
Lemma handle_all_completed kriging run_id (filename method : string)
    (resolution : Z) (lat_column lon_column : string) (columns : list string)
    (df_clean : list (gmap string Q)) :
  forall (items : list (nat * string)) (st st' : Routes.loop_state),
    Routes.handle_all kriging run_id filename method resolution lat_column
      lon_column columns df_clean items st = (st', None) ->
    (forall v, is_Some (Routes.ls_results st' !! v) <->
               is_Some (Routes.ls_results st !! v)
               \/ (In v (map snd items) /\ v ∈ columns))
    /\ (exists new,
          Routes.ls_output_files st' = Routes.ls_output_files st ++ new
          /\ (length new <= length items)%nat
          /\ forall f, In f new -> is_Some (Routes.ls_outputs st' !! f))
    /\ (forall p, is_Some (Routes.ls_outputs st !! p) ->
                  is_Some (Routes.ls_outputs st' !! p))
    /\ (forall p t, Routes.ls_outputs st !! p = Some t ->
                    RouteSpec.raster_ok resolution t ->
                    exists t', Routes.ls_outputs st' !! p = Some t'
                               /\ RouteSpec.raster_ok resolution t')
    /\ (forall v e, Routes.ls_results st' !! v = Some e ->
          Routes.ls_results st !! v = Some e
          \/ RouteSpec.entry_ok method resolution
               (Routes.ls_output_files st') (Routes.ls_outputs st') e).
Proof.
  induction items as [|[i variable] items IH]; intros st st' H.
  - injection H as <-. split; [intros v; cbn [map In]; tauto|].
    split.
    { exists []. rewrite app_nil_r. split; [reflexivity|].
      split; [cbn [length]; lia | intros f []]. }
    split; [auto|]. split; [eauto | auto].
  - cbn [Routes.handle_all] in H.
    destruct (Routes.handle_variable kriging run_id filename method resolution
                lat_column lon_column columns df_clean st (i, variable))
      as [st1|e] eqn:Hstep; [|discriminate H].
    destruct (IH st1 st' H) as (Hkeys & (new & Hfiles & Hlen & Hnew) & Hkeep
                                & Hgood & Hentries).
    apply handle_variable_Returned in Hstep.
    destruct Hstep as [[Hout ->] | (Hin & e & Hres & Hcase)].
    { split; [|split; [|split; [exact Hkeep|split; [exact Hgood | exact Hentries]]]].
      - intros v. rewrite Hkeys. cbn [map snd]. split.
        + intros [? | [? ?]]; [left; assumption | right; split; [right|]; assumption].
        + intros [? | [[<- | ?] Hv]]; [left; assumption | contradiction
                                        | right; split; assumption].
      - exists new. split; [exact Hfiles|]. split; [cbn [length]; lia | exact Hnew]. }
    assert (Hkeys' : forall v, is_Some (Routes.ls_results st' !! v) <->
                       is_Some (Routes.ls_results st !! v)
                       \/ (In v (map snd ((i, variable) :: items)) /\ v ∈ columns)).
    { intros v. rewrite Hkeys, Hres. cbn [map snd].
      rewrite lookup_insert_is_Some. split.
      - intros [[<- | [_ ?]] | [? ?]].
        + right. split; [left; reflexivity | exact Hin].
        + left. assumption.
        + right. split; [right|]; assumption.
      - intros [Hv | [[<- | ?] Hv]].
        + destruct (decide (variable = v)); [left; left; assumption|].
          left. right. split; assumption.
        + left. left. reflexivity.
        + right. split; assumption. }
    split; [exact Hkeys'|].
    destruct Hcase as [(Hf & Ho & msg & ->) | (t & Hf & Ho & Hok & _ & Hentry & Hsucc)].
    + rewrite Hf in Hfiles. rewrite Ho in Hkeep, Hgood.
      split; [exists new; split; [exact Hfiles|];
              split; [cbn [length]; lia | exact Hnew]|].
      split; [exact Hkeep|]. split; [exact Hgood|].
      intros v e He. destruct (Hentries v e He) as [Hold | Hnew']; [|right; exact Hnew'].
      rewrite Hres in Hold. apply lookup_insert_Some in Hold.
      destruct Hold as [[_ <-] | [_ Hold]]; [right; exact I | left; exact Hold].
    + assert (Hkeep1 : forall p, is_Some (Routes.ls_outputs st !! p) ->
                                 is_Some (Routes.ls_outputs st1 !! p)).
      { intros p Hp. rewrite Ho. apply lookup_insert_is_Some'. right. exact Hp. }
      assert (Hgood1 : forall p t0, Routes.ls_outputs st !! p = Some t0 ->
                         RouteSpec.raster_ok resolution t0 ->
                         exists t', Routes.ls_outputs st1 !! p = Some t'
                                    /\ RouteSpec.raster_ok resolution t').
      { intros p t0 Hp Ht0. rewrite Ho.
        destruct (decide (Routes.output_name run_id filename variable i = p))
          as [<- | Hne].
        - exists t. split; [apply lookup_insert_eq | exact Hok].
        - exists t0. split; [rewrite lookup_insert_ne by exact Hne; exact Hp
                            | exact Ht0]. }
      split; [|split; [|split]].
      * exists (Routes.output_name run_id filename variable i :: new).
        rewrite Hfiles, Hf, <- app_assoc. split; [reflexivity|].
        split; [cbn [length]; lia|].
        intros f [<- | Hfnew]; [|exact (Hnew f Hfnew)].
        apply Hkeep. rewrite Ho. apply lookup_insert_is_Some'. left. reflexivity.
      * intros p Hp. apply Hkeep, Hkeep1, Hp.
      * intros p t0 Hp Ht0. destruct (Hgood1 p t0 Hp Ht0) as (t1 & Hp1 & Ht1).
        exact (Hgood p t1 Hp1 Ht1).
      * intros v e0 He0.
        destruct (Hentries v e0 He0) as [Hold | Hnew']; [|right; exact Hnew'].
        rewrite Hres in Hold. apply lookup_insert_Some in Hold.
        destruct Hold as [[_ <-] | [_ Hold]]; [|left; exact Hold].
        right. eapply entry_ok_mono; [| |exact Hentry].
        -- intros f Hfin. rewrite Hfiles. apply in_or_app. left. exact Hfin.
        -- exact Hgood.
Qed.

(** With a non-negative resolution no exception escapes the loop. *)
Lemma handle_all_nonneg kriging run_id (filename method : string)
    (resolution : Z) (lat_column lon_column : string) (columns : list string)
    (df_clean : list (gmap string Q)) :
  (0 <= resolution)%Z ->
  forall (items : list (nat * string)) (st : Routes.loop_state),
    exists st',
      Routes.handle_all kriging run_id filename method resolution lat_column
        lon_column columns df_clean items st = (st', None).
Proof.
  intros Hres. induction items as [|[i variable] items IH]; intros st.
  - exists st. reflexivity.
  - cbn [Routes.handle_all].
    assert (Hstep : exists st1,
               Routes.handle_variable kriging run_id filename method resolution
                 lat_column lon_column columns df_clean st (i, variable)
               = Returned st1).
    { unfold Routes.handle_variable.
      destruct (negb (bool_decide (variable ∈ columns))); [eauto|].
      destruct (proj1 (proj2 (proj2 (interpolate_variable_cases kriging method
                  resolution
                  (omap (Routes.to_sample lat_column lon_column variable)
                     (List.filter (Routes.has variable) df_clean))))) Hres)
        as (r & ->).
      cbn [mbind outcome_bind]. destruct r as [msg | m z b]; [eauto|].
      destruct (Routes.shape_ok z resolution); [|eauto].
      destruct (Np.amin _); [|eauto]. destruct (Np.amax _); eauto. }
    destruct Hstep as (st1 & ->). apply IH.
Qed.

(** With a negative resolution nothing is written. *)
Lemma handle_all_negative kriging run_id (filename method : string)
    (resolution : Z) (lat_column lon_column : string) (columns : list string)
    (df_clean : list (gmap string Q)) :
  (resolution < 0)%Z ->
  forall (items : list (nat * string)) (st : Routes.loop_state),
    Routes.ls_outputs
      (fst (Routes.handle_all kriging run_id filename method resolution
              lat_column lon_column columns df_clean items st))
    = Routes.ls_outputs st.
Proof.
  intros Hres. induction items as [|[i variable] items IH]; intros st;
    [reflexivity|].
  cbn [Routes.handle_all].
  destruct (Routes.handle_variable kriging run_id filename method resolution
              lat_column lon_column columns df_clean st (i, variable))
    as [st1|e] eqn:Hstep; [|reflexivity].
  rewrite IH. apply handle_variable_Returned in Hstep.
  destruct Hstep as [[_ ->] | (_ & e & _ & [(_ & Ho & _) | (t & _ & _ & _ & Hpos & _)])];
    [reflexivity | exact Ho | lia].
Qed.

(** X17. The answers of [run_interpolation].  An error answer has status
    400 or 500 and leaves the output directory exactly as it was.  A
    completed answer means that the request named a file of the data
    directory and at least one variable, that the coordinate columns of
    the answer are columns of the table with at least ten rows that have
    both, and that they are the two requested names when both were given
    and otherwise both the detector's choice; no output file has been
    removed. *)
Theorem X17_error_answers_write_nothing :
  forall kriging run_id (rq : Routes.request) (data : gmap string Routes.frame)
         (outputs : gmap string Routes.geotiff),
    match Routes.run_interpolation kriging run_id rq data outputs with
    | (Routes.ErrorReply status _, outputs') =>
        outputs' = outputs /\ (status = 400%nat \/ status = 500%nat)
    | (Routes.Completed _ _ lat_column lon_column, outputs') =>
        RouteSpec.validated rq data lat_column lon_column
        /\ (Routes.given (Routes.rq_lat_column rq)
            && Routes.given (Routes.rq_lon_column rq) = true ->
            Routes.rq_lat_column rq = Some lat_column
            /\ Routes.rq_lon_column rq = Some lon_column)
        /\ (Routes.given (Routes.rq_lat_column rq)
            && Routes.given (Routes.rq_lon_column rq) = false ->
            exists df filename,
              Routes.rq_filename rq = Some filename
              /\ data !! filename = Some df
              /\ App.detect_coordinate_columns (Routes.fr_columns df)
                 = Some (App.CoordColumns lat_column lon_column))
        /\ (forall p, is_Some (outputs !! p) -> is_Some (outputs' !! p))
    end.
Proof.
  intros kriging run_id rq data outputs. unfold Routes.run_interpolation.
  destruct (Routes.rq_filename rq) as [filename|] eqn:Hfile; [|auto].
  destruct (PyStr.truthy filename) eqn:Htruthy; cbn [negb]; [|auto].
  destruct (Routes.rq_variables rq) as [|v0 vars] eqn:Hvars; [auto|].
  rewrite <- Hvars.
  destruct (data !! filename) as [df|] eqn:Hdf; [|auto].
  destruct (Routes.coordinates_of rq df) as [[lat_column lon_column]|] eqn:Hcoords;
    [|auto].
  destruct (bool_decide_reflect (lat_column ∈ Routes.fr_columns df)) as [Hlat|];
    cbn [negb orb]; [|auto].
  destruct (bool_decide_reflect (lon_column ∈ Routes.fr_columns df)) as [Hlon|];
    cbn [negb orb]; [|auto].
  set (df_clean := List.filter _ (Routes.fr_rows df)).
  destruct (Nat.ltb_spec (length df_clean) 10) as [|Hrows]; [auto|].
  destruct (Routes.handle_all kriging run_id filename (Routes.rq_method rq)
              (Routes.rq_resolution rq) lat_column lon_column
              (Routes.fr_columns df) df_clean
              (enumerate 0 (Routes.rq_variables rq))
              (Routes.LoopState ∅ [] outputs)) as [st raised] eqn:Hloop.
  destruct raised as [e|].
  - split; [|auto].
    destruct (Z.lt_ge_cases (Routes.rq_resolution rq) 0) as [Hneg | Hpos].
    + pose proof (handle_all_negative kriging run_id filename
                    (Routes.rq_method rq) (Routes.rq_resolution rq)
                    lat_column lon_column (Routes.fr_columns df) df_clean Hneg
                    (enumerate 0 (Routes.rq_variables rq))
                    (Routes.LoopState ∅ [] outputs)) as Hsame.
      rewrite Hloop in Hsame. exact Hsame.
    + destruct (handle_all_nonneg kriging run_id filename
                  (Routes.rq_method rq) (Routes.rq_resolution rq)
                  lat_column lon_column (Routes.fr_columns df) df_clean Hpos
                  (enumerate 0 (Routes.rq_variables rq))
                  (Routes.LoopState ∅ [] outputs)) as (st' & Hst').
      congruence.
  - destruct (handle_all_completed _ _ _ _ _ _ _ _ _ _ _ _ Hloop)
      as (_ & _ & Hkeep & _).
    split; [|split; [|split; [|exact Hkeep]]].
    + exists filename, df. repeat split; try assumption.
      * intros ->. discriminate Htruthy.
      * rewrite Hvars. discriminate.
    + unfold Routes.coordinates_of, Routes.given in *.
      destruct (Routes.rq_lat_column rq) as [la|]; [|discriminate].
      destruct (Routes.rq_lon_column rq) as [lo|];
        [|rewrite andb_false_r; discriminate].
      intros Hg. rewrite Hg in Hcoords. injection Hcoords as -> ->. auto.
    + intros Hg. exists df, filename. split; [reflexivity|]. split; [exact Hdf|].
      unfold Routes.coordinates_of, Routes.given in *.
      assert (Hdet : option_map
                       (fun c => (App.latitude c, App.longitude c))
                       (App.detect_coordinate_columns (Routes.fr_columns df))
                     = Some (lat_column, lon_column)).
      { destruct (Routes.rq_lat_column rq) as [la|]; [|exact Hcoords].
        destruct (Routes.rq_lon_column rq) as [lo|]; [|exact Hcoords].
        rewrite Hg in Hcoords. exact Hcoords. }
      destruct (App.detect_coordinate_columns (Routes.fr_columns df))
        as [[la lo]|]; [|discriminate Hdet].
      cbn in Hdet. injection Hdet as -> ->. reflexivity.
Qed.

Lemma enumerate_snd {A : Type} (start : nat) (l : list A) :
  map snd (enumerate start l) = l.
Proof.
  unfold enumerate. revert start.
  induction l as [|x l IH]; intros start; [reflexivity|].
  cbn [length seq zip_with map snd]. f_equal. apply IH.
Qed.

(** X18. The body of a completed answer: [results] has an entry for
    exactly the requested variables that are columns of the table; there
    are at most as many output files as requested variables and each of
    them is in the output directory; every success entry counts at least
    ten points, gives a value range whose lower end is not above its upper
    end, names the lower-cased method and an output file that is listed
    and is in the output directory as a raster of [resolution] rows and
    columns. *)
Theorem X18_completed_results :
  forall kriging run_id (rq : Routes.request) (data : gmap string Routes.frame)
         (outputs : gmap string Routes.geotiff),
    match Routes.run_interpolation kriging run_id rq data outputs with
    | (Routes.Completed results output_files _ _, outputs') =>
        exists filename df,
          Routes.rq_filename rq = Some filename
          /\ data !! filename = Some df
          /\ (forall v, is_Some (results !! v) <->
                        In v (Routes.rq_variables rq)
                        /\ v ∈ Routes.fr_columns df)
          /\ (length output_files <= length (Routes.rq_variables rq))%nat
          /\ (forall f, In f output_files -> is_Some (outputs' !! f))
          /\ (forall v e, results !! v = Some e ->
                RouteSpec.entry_ok (Routes.rq_method rq)
                  (Routes.rq_resolution rq) output_files outputs' e)
    | (Routes.ErrorReply _ _, _) => True
    end.
Proof.
  intros kriging run_id rq data outputs. unfold Routes.run_interpolation.
  destruct (Routes.rq_filename rq) as [filename|] eqn:Hfile; [|exact I].
  destruct (negb (PyStr.truthy filename)); [exact I|].
  destruct (Routes.rq_variables rq) as [|v0 vars] eqn:Hvars; [exact I|].
  rewrite <- Hvars.
  destruct (data !! filename) as [df|] eqn:Hdf; [|exact I].
  destruct (Routes.coordinates_of rq df) as [[lat_column lon_column]|];
    [|exact I].
  destruct (negb _ || negb _); [exact I|].
  set (df_clean := List.filter _ (Routes.fr_rows df)).
  destruct (length df_clean <? 10)%nat; [exact I|].
  destruct (Routes.handle_all kriging run_id filename (Routes.rq_method rq)
              (Routes.rq_resolution rq) lat_column lon_column
              (Routes.fr_columns df) df_clean
              (enumerate 0 (Routes.rq_variables rq))
              (Routes.LoopState ∅ [] outputs)) as [st raised] eqn:Hloop.
  destruct raised as [e|]; [exact I|].
  destruct (handle_all_completed _ _ _ _ _ _ _ _ _ _ _ _ Hloop)
    as (Hkeys & (new & Hfiles & Hlen & Hnew) & _ & _ & Hentries).
  cbn [Routes.ls_results Routes.ls_output_files app] in Hkeys, Hfiles, Hentries.
  pose proof (enumerate_snd 0 (Routes.rq_variables rq)) as Hsnd.
  exists filename, df. split; [reflexivity|]. split; [exact Hdf|].
  split; [|split; [|split]].
  - intros v. rewrite Hkeys, Hsnd, lookup_empty. split.
    + intros [Hv | Hv]; [destruct Hv; discriminate | exact Hv].
    + auto.
  - rewrite Hfiles. rewrite enumerate_length in Hlen. exact Hlen.
  - rewrite Hfiles. exact Hnew.
  - intros v e He. destruct (Hentries v e He) as [Hold | Hok]; [|exact Hok].
    rewrite lookup_empty in Hold. discriminate.
Qed.



(** X20. A request that passes the checks and asks for a non-negative
    number of nodes is answered with status 200, whatever becomes of the
    single variables. *)
Theorem X20_validated_request_completes :
  forall kriging run_id (rq : Routes.request) (data : gmap string Routes.frame)
         (outputs : gmap string Routes.geotiff) (lat_column lon_column : string),
    RouteSpec.validated rq data lat_column lon_column ->
    (0 <= Routes.rq_resolution rq)%Z ->
    exists results output_files outputs',
      Routes.run_interpolation kriging run_id rq data outputs
      = (Routes.Completed results output_files lat_column lon_column, outputs').
Proof.
  intros kriging run_id rq data outputs lat_column lon_column
    (filename & df & Hfile & Hname & Hvars & Hdf & Hcoords & Hlat & Hlon & Hrows)
    Hres.
  unfold Routes.run_interpolation. rewrite Hfile.
  destruct filename as [|c name]; [congruence|]. cbn [PyStr.truthy negb].
  destruct (Routes.rq_variables rq) as [|v0 vars] eqn:Ev; [congruence|].
  rewrite <- Ev. rewrite Hdf, Hcoords.
  rewrite (bool_decide_eq_true_2 _ Hlat), (bool_decide_eq_true_2 _ Hlon).
  cbn [negb orb].
  destruct (Nat.ltb_spec
              (length (List.filter
                         (fun row => Routes.has lat_column row
                                     && Routes.has lon_column row)
                         (Routes.fr_rows df))) 10) as [|_]; [lia|].
  destruct (handle_all_nonneg kriging run_id (String c name)
              (Routes.rq_method rq) (Routes.rq_resolution rq) lat_column
              lon_column (Routes.fr_columns df)
              (List.filter (fun row => Routes.has lat_column row
                                       && Routes.has lon_column row)
                 (Routes.fr_rows df))
              Hres (enumerate 0 (Routes.rq_variables rq))
              (Routes.LoopState ∅ [] outputs)) as (st & ->).
  eauto.
Qed.


(** X20 at the request [Samples.idw_request] for that table. *)
Lemma X20_idw_request_witness :
  exists results output_files outputs',
    Routes.run_interpolation Examples.no_app_kriging Samples.one_run_id
      Samples.idw_request {[ "sites.csv" := Samples.ten_sites ]} ∅
    = (Routes.Completed results output_files "lat" "lon", outputs').
Proof.
  apply (X20_validated_request_completes Examples.no_app_kriging
           Samples.one_run_id Samples.idw_request
           {[ "sites.csv" := Samples.ten_sites ]} ∅ "lat" "lon").
  - exists "sites.csv", Samples.ten_sites.
    split; [reflexivity|]. split; [discriminate|]. split; [discriminate|].
    split; [apply lookup_singleton_eq|]. split; [reflexivity|].
    split; [apply list_elem_of_In; cbn [Samples.ten_sites Routes.fr_columns In];
            tauto|].
    split; [apply list_elem_of_In; cbn [Samples.ten_sites Routes.fr_columns In];
            tauto|].
    vm_compute. lia.
  - discriminate.
Defined.

(** The answers to that request, to the same request with a negative
    resolution, for a file that does not exist, and without variables:
    [pm25] succeeds, [no2] has too few values, [ozone] is no column and is
    passed over in silence. *)
Example run_interpolation_answers :
  (Samples.summary
     (Routes.run_interpolation Examples.no_app_kriging Samples.one_run_id
        Samples.idw_request {[ "sites.csv" := Samples.ten_sites ]} ∅),
   Samples.summary
     (Routes.run_interpolation Examples.no_app_kriging Samples.one_run_id
        (Routes.Request (Some "sites.csv") None None ["pm25"] "IDW" (-1))
        {[ "sites.csv" := Samples.ten_sites ]} ∅),
   Samples.summary
     (Routes.run_interpolation Examples.no_app_kriging Samples.one_run_id
        Samples.idw_request ∅ ∅),
   Samples.summary
     (Routes.run_interpolation Examples.no_app_kriging Samples.one_run_id
        (Routes.Request (Some "sites.csv") (Some "lat") (Some "lon") [] "IDW" 3)
        {[ "sites.csv" := Samples.ten_sites ]} ∅))
  = ((200%nat, [("pm25", true); ("no2", false)], ["sites_pm25_0a1b2c3d.tif"]),
     (500%nat, [], []),
     (500%nat, [], []),
     (400%nat, [], [])).
Proof. vm_compute. reflexivity. Qed.

(** * Part V: the two pipelines side by side *)

(** ** The two implementations of inverse distance weighting *)

Lemma sum_Forall2 (ws ws' : list Q) :
  Forall2 Qeq ws ws' -> Np.sum ws == Np.sum ws'.
Proof.
  induction 1 as [|w w' ws ws' Hw _ IH]; simpl; [reflexivity|].
  rewrite Hw, IH. reflexivity.
Qed.

Lemma sum_products_Forall2 (ws ws' vs : list Q) :
  Forall2 Qeq ws ws' ->
  Np.sum (zip_with Qmult ws vs) == Np.sum (zip_with Qmult ws' vs).
Proof.
  intros H. revert vs. induction H as [|w w' ws ws' Hw _ IH]; intros vs;
    [reflexivity|].
  destruct vs as [|v vs]; simpl; [reflexivity|].
  rewrite Hw, IH. reflexivity.
Qed.

Lemma weighted_average_Forall2 (ws ws' vs : list Q) :
  Forall2 Qeq ws ws' ->
  IDW.weighted_average ws vs == IDW.weighted_average ws' vs.
Proof.
  intros H. unfold IDW.weighted_average.
  rewrite (sum_products_Forall2 ws ws' vs H), (sum_Forall2 ws ws' H).
  reflexivity.
Qed.

Lemma weights_of_Forall2 (ds ds' : list Q) :
  Forall2 Qeq ds ds' -> Forall2 Qeq (IDW.weights_of ds) (IDW.weights_of ds').
Proof.
  induction 1 as [|s s' ds ds' Hs _ IH]; simpl; constructor; [|exact IH].
  rewrite Hs. reflexivity.
Qed.

(** X21. The two implementations of inverse distance weighting give the
    same estimate at a node as long as every sample either coincides with
    the node or lies at least 1e-10 away from it: the enhanced pipeline
    replaces only a zero distance by 1e-10, the web handler raises every
    distance below 1e-10 to 1e-10. *)
Theorem X21_idw_implementations_agree_off_the_floor :
  forall (lats lons values : list Q) (glat glon : Q),
    (forall la lo, In (la, lo) (zip lats lons) ->
                   IDW.dist_sq glat glon la lo == 0
                   \/ IDW.floor_sq <= IDW.dist_sq glat glon la lo) ->
    Enhanced.idw_cell (zip lons lats) values glon glat
    == App.idw_cell lats lons values glat glon.
Proof.
  intros lats lons values glat glon Hfar.
  unfold Enhanced.idw_cell, App.idw_cell. cbv zeta.
  apply weighted_average_Forall2, weights_of_Forall2.
  revert lons Hfar. induction lats as [|la lats IH]; intros [|lo lons] Hfar;
    try (cbn; constructor).
  - assert (Hsym : IDW.dist_sq glon glat lo la == IDW.dist_sq glat glon la lo)
      by (unfold IDW.dist_sq; ring).
    pose proof floor_sq_pos as Hfloor.
    destruct (Hfar la lo (or_introl eq_refl)) as [Hzero | Hge].
    + assert (E : Qeq_bool (IDW.dist_sq glon glat lo la) 0 = true).
      { apply Qeq_bool_iff. rewrite Hsym. exact Hzero. }
      rewrite E. symmetry. rewrite Hzero. apply Q.max_r. lra.
    + assert (E : Qeq_bool (IDW.dist_sq glon glat lo la) 0 = false).
      { destruct (Qeq_bool (IDW.dist_sq glon glat lo la) 0) eqn:E;
          [|reflexivity].
        apply Qeq_bool_iff in E. rewrite Hsym in E. lra. }
      rewrite E, Hsym. symmetry. apply Q.max_l. exact Hge.
  - apply IH. intros la' lo' Hin. apply Hfar. right. exact Hin.
Qed.

(** X21 at two samples one unit and two units away from the node. *)
Lemma X21_two_samples_witness :
  Enhanced.idw_cell (zip [1; 2] [0; 0]) [3; 5] 0 0
  == App.idw_cell [0; 0] [1; 2] [3; 5] 0 0.
Proof.
  apply (X21_idw_implementations_agree_off_the_floor [0; 0] [1; 2] [3; 5] 0 0).
  intros la lo [[= <- <-] | [[= <- <-] | []]]; right; vm_compute; discriminate.
Defined.

(** A sample closer than 1e-10 that does not coincide with the node: the
    two estimates differ. *)
Example idw_implementations_differ_below_the_floor :
  ~ Enhanced.idw_cell (zip [1 # 100000000000; 1] [0; 0]) [3; 5] 0 0
    == App.idw_cell [0; 0] [1 # 100000000000; 1] [3; 5] 0 0.
Proof. vm_compute. discriminate. Qed.

(** ** The order of the days *)

Lemma date_eqb_eq (d1 d2 : Enhanced.date) :
  Enhanced.date_eqb d1 d2 = true <-> d1 = d2.
Proof.
  destruct d1 as [y1 m1 a1], d2 as [y2 m2 a2]. unfold Enhanced.date_eqb.
  cbn [Enhanced.year Enhanced.month Enhanced.day].
  rewrite !andb_true_iff, !Nat.eqb_eq. split.
  - intros [[-> ->] ->]. reflexivity.
  - intros [= -> -> ->]. auto.
Qed.

Lemma date_leb_spec (d1 d2 : Enhanced.date) :
  Is_true (Enhanced.date_leb d1 d2) <->
  (Enhanced.year d1 < Enhanced.year d2
   \/ (Enhanced.year d1 = Enhanced.year d2
       /\ (Enhanced.month d1 < Enhanced.month d2
           \/ (Enhanced.month d1 = Enhanced.month d2
               /\ Enhanced.day d1 <= Enhanced.day d2))))%nat.
Proof.
  rewrite Is_true_true. unfold Enhanced.date_leb.
  rewrite !orb_true_iff, !andb_true_iff, !orb_true_iff, !andb_true_iff,
    !Nat.ltb_lt, !Nat.eqb_eq, Nat.leb_le.
  reflexivity.
Qed.

Lemma date_leb_total :
  Total (fun d1 d2 : Enhanced.date => Is_true (Enhanced.date_leb d1 d2)).
Proof. intros d1 d2. rewrite !date_leb_spec. lia. Qed.

Lemma date_leb_transitive :
  Transitive (fun d1 d2 : Enhanced.date => Is_true (Enhanced.date_leb d1 d2)).
Proof. intros d1 d2 d3. rewrite !date_leb_spec. lia. Qed.

Lemma date_eqb_trans (x y z : Enhanced.date) :
  Enhanced.date_eqb x y = true -> Enhanced.date_eqb y z = true ->
  Enhanced.date_eqb x z = true.
Proof. rewrite !date_eqb_eq. congruence. Qed.

Lemma date_eqb_refl (x : Enhanced.date) : Enhanced.date_eqb x x = true.
Proof. apply date_eqb_eq. reflexivity. Qed.

(** X22. The days of a variable are taken in ascending order, each once:
    the list [dates] is sorted, has no repetition and holds exactly the
    dates of the valid rows, and every selected date (one of the first
    [max_days_per_variable]) is on or before every date that is left out. *)
Theorem X22_days_selected_in_ascending_order :
  forall (valid_data : list Enhanced.record) (max_days : nat),
    let dates := Enhanced.unique_dates valid_data in
    StronglySorted (fun d1 d2 => Is_true (Enhanced.date_leb d1 d2)) dates
    /\ NoDup dates
    /\ (forall d, In d dates <->
                  exists r, In r valid_data /\ Enhanced.r_date r = d)
    /\ (forall d d', In d (take max_days dates) -> In d' (drop max_days dates) ->
                     Is_true (Enhanced.date_leb d d')).
Proof.
  intros valid_data max_days dates.
  assert (Hsorted : StronglySorted
                      (fun d1 d2 => Is_true (Enhanced.date_leb d1 d2)) dates).
  { unfold dates, Enhanced.unique_dates.
    apply (@StronglySorted_merge_sort _ _ _ date_leb_transitive date_leb_total). }
  split; [exact Hsorted|]. split; [|split].
  - unfold dates, Enhanced.unique_dates. rewrite merge_sort_Permutation.
    apply NoDup_ListNoDup, NoDup_iff_ForallOrdPairs.
    pose proof (distinct_pairwise Enhanced.date_eqb
                  (map Enhanced.r_date valid_data)) as Hpairs.
    induction Hpairs as [|d l Hd _ IH]; constructor; [|exact IH].
    apply List.Forall_forall. intros d' Hd' Heq.
    assert (Hne : Enhanced.date_eqb d d' = false)
      by (clear Heq; revert d' Hd'; apply List.Forall_forall, Hd).
    rewrite <- Heq, date_eqb_refl in Hne. discriminate.
  - intros d. unfold dates, Enhanced.unique_dates.
    rewrite <- list_elem_of_In, merge_sort_Permutation, list_elem_of_In. split.
    + intros Hd. apply distinct_incl, in_map_iff in Hd.
      destruct Hd as (r & <- & Hr). eauto.
    + intros (r & Hr & <-).
      destruct (distinct_complete Enhanced.date_eqb date_eqb_trans date_eqb_refl
                  (map Enhanced.r_date valid_data) (Enhanced.r_date r))
        as (d & Hd & Heq); [apply in_map, Hr|].
      apply date_eqb_eq in Heq. subst d. exact Hd.
  - intros d d' Hd Hd'. rewrite <- (take_drop max_days dates) in Hsorted.
    apply (StronglySorted_app_1_elem_of
             (fun d1 d2 => Is_true (Enhanced.date_leb d1 d2))
             (take max_days dates) (drop max_days dates) d d' Hsorted);
      apply list_elem_of_In; assumption.
Qed.

(** The dates of [Samples.two_days], and of the same rows in reverse. *)
Example unique_dates_two_days :
  Enhanced.unique_dates Samples.two_days = [Examples.day1; Samples.day2]
  /\ Enhanced.unique_dates (rev Samples.two_days)
     = [Examples.day1; Samples.day2].
Proof. split; vm_compute; reflexivity. Qed.

(** ** The totals of the summary *)

Lemma totals_bound (m : gmap string Enhanced.interpolation_log) (bound : nat) :
  (forall v log, m !! v = Some log ->
                 (Enhanced.successful_interpolations log
                  + Enhanced.failed_interpolations log <= bound)%nat) ->
  (map_fold (fun _ log acc => (Enhanced.successful_interpolations log + acc)%nat)
     0%nat m
   + map_fold (fun _ log acc => (Enhanced.failed_interpolations log + acc)%nat)
       0%nat m
   <= bound * size m)%nat.
Proof.
  intros Hm. rewrite !map_fold_foldr, <- length_map_to_list.
  assert (Hl : forall item, In item (map_to_list m) ->
                 (Enhanced.successful_interpolations (snd item)
                  + Enhanced.failed_interpolations (snd item) <= bound)%nat).
  { intros [v log] Hin. apply list_elem_of_In, elem_of_map_to_list in Hin.
    exact (Hm v log Hin). }
  induction (map_to_list m) as [|[v log] l IH]; cbn [foldr length uncurry].
  - lia.
  - pose proof (Hl (v, log) (or_introl eq_refl)) as Hlog. cbn [snd] in Hlog.
    specialize (IH (fun item Hitem => Hl item (or_intror Hitem))).
    cbn [uncurry] in *. lia.
Qed.

Lemma size_le_keys {A : Type} (m : gmap string A) (keys : list string) :
  (forall v, is_Some (m !! v) -> In v keys) -> (size m <= length keys)%nat.
Proof.
  intros Hkeys. rewrite <- length_map_to_list.
  rewrite <- (length_map fst (map_to_list m)).
  apply NoDup_incl_length.
  - apply NoDup_ListNoDup.
    change (map fst (map_to_list m)) with ((map_to_list m).*1).
    apply NoDup_fst_map_to_list.
  - intros v Hv. apply in_map_iff in Hv. destruct Hv as ([v' a] & <- & Hin).
    apply list_elem_of_In, elem_of_map_to_list in Hin. apply Hkeys. eauto.
Qed.

Lemma load_available_vars to_datetime (input : option Enhanced.table)
    (data : Enhanced.dataset) :
  Enhanced.load to_datetime input = Returned data ->
  (length (Enhanced.available_vars data)
   <= length Enhanced.target_variables)%nat.
Proof.
  unfold Enhanced.load. generalize Enhanced.target_variables.
  intros targets H.
  destruct input as [df|]; [|discriminate].
  cbn [Enhanced.require mbind outcome_bind] in H.
  destruct (negb (Enhanced.has_column df "country")); [discriminate|].
  destruct (negb _); [discriminate|].
  inv_bind H. injection H as <-. cbn [Enhanced.available_vars].
  apply List.filter_length_le.
Qed.

(** X23. The totals of the final summary: a run that got past loading has
    processed at most the twelve target variables, and the interpolations
    it counts as successful and as failed add up to at most
    [max_days_per_variable] for each processed variable. *)
Theorem X23_totals_bounded_by_days_times_variables :
  forall to_datetime kriging rbf resample (cfg : Enhanced.config)
         (input : option Enhanced.table) (fs0 : gmap string Enhanced.raster)
         (data : Enhanced.dataset),
    0 < Enhanced.grid_resolution cfg ->
    0 <= Enhanced.buffer_percent cfg ->
    Spec.readable fs0 ->
    Enhanced.load to_datetime input = Returned data ->
    exists rep,
      Enhanced.run to_datetime kriging rbf resample cfg input fs0
      = Returned (true, Some rep)
      /\ (length (Enhanced.report_variables rep) <= 12)%nat
      /\ (Enhanced.total_successful rep + Enhanced.total_failed rep
          <= Enhanced.max_days_per_variable cfg
             * length (Enhanced.report_variables rep))%nat.
Proof.
  intros to_datetime kriging rbf
    resample cfg input fs0 data Hres Hbuf Hfs Hload.
  unfold Enhanced.run. rewrite Hload.
  destruct (variables_loop_spec kriging rbf
    resample cfg (Enhanced.uganda_clean data)
              (Enhanced.available_vars data) (Enhanced.RunState fs0 [] ∅)
              Hres Hbuf Hfs)
    as (st & -> & Hst & Hvars & Hother & Hlogs & _).
  cbn [mbind outcome_bind].
  destruct (create_multi_geostack_spec resample _ Hst) as (fs' & cat & -> & _).
  cbn [mbind outcome_bind]. eexists. split; [reflexivity|].
  unfold Enhanced.total_successful, Enhanced.total_failed.
  cbn [Enhanced.report_variables Enhanced.report_results].
  cbn [Enhanced.variables_processed Enhanced.processing_results app]
    in Hvars, Hother.
  split.
  - rewrite Hvars. etransitivity; [apply List.filter_length_le|].
    apply (load_available_vars to_datetime input data Hload).
  - etransitivity; [apply totals_bound|].
    + intros v log Hv.
      destruct (in_dec string_dec v
                  (List.filter
                     (fun v => (10 <=? length
                                  (List.filter (Enhanced.has_value v)
                                     (Enhanced.uganda_clean data)))%nat)
                     (Enhanced.available_vars data))) as [Hin | Hout].
      * destruct (Hlogs v Hin) as (log' & Hlog' & _ & Hsum & _).
        rewrite Hlog' in Hv. injection Hv as <-. exact Hsum.
      * rewrite (Hother v Hout), lookup_empty in Hv. discriminate.
    + apply Nat.mul_le_mono_l, size_le_keys. intros v Hv. rewrite Hvars.
      destruct (in_dec string_dec v
                  (List.filter
                     (fun v => (10 <=? length
                                  (List.filter (Enhanced.has_value v)
                                     (Enhanced.uganda_clean data)))%nat)
                     (Enhanced.available_vars data))) as [Hin | Hout];
        [exact Hin|].
      rewrite (Hother v Hout), lookup_empty in Hv. destruct Hv; discriminate.
Qed.

(** X23 at the three samples of scenario B. *)
Lemma X23_three_points_witness :
  exists rep,
    Enhanced.run Examples.parse_day1 Examples.no_kriging Examples.no_rbf
      Examples.no_resample
      Examples.idw_config (Some Examples.three_points) ∅
    = Returned (true, Some rep)
    /\ (length (Enhanced.report_variables rep) <= 12)%nat
    /\ (Enhanced.total_successful rep + Enhanced.total_failed rep
        <= Enhanced.max_days_per_variable Examples.idw_config
           * length (Enhanced.report_variables rep))%nat.
Proof.
  apply (X23_totals_bounded_by_days_times_variables Examples.parse_day1
           Examples.no_kriging Examples.no_rbf
             Examples.no_resample Examples.idw_config
           (Some Examples.three_points) ∅ Samples.three_points_data).
  - reflexivity.
  - discriminate.
  - apply readable_empty.
  - vm_compute. reflexivity.
Defined.

(** * Part VI: from the name of a daily raster back to its variable and day *)

(** ** Appending strings *)

Lemma append_cons (c : ascii) (a b : string) :
  String c a +:+ b = String c (a +:+ b).
Proof. reflexivity. Qed.

Lemma append_empty_r (a : string) : a +:+ "" = a.
Proof. induction a as [|c a IH]; [reflexivity|]. rewrite append_cons, IH. reflexivity. Qed.

Lemma append_assoc' (a b c : string) : (a +:+ b) +:+ c = a +:+ (b +:+ c).
Proof. induction a as [|x a IH]; [reflexivity|]. rewrite !append_cons, IH. reflexivity. Qed.

Lemma all_chars_app (p : ascii -> bool) (a b : string) :
  Names.all_chars p (a +:+ b) = Names.all_chars p a && Names.all_chars p b.
Proof.
  induction a as [|c a IH]; [reflexivity|].
  rewrite append_cons. cbn [Names.all_chars]. rewrite IH, andb_assoc. reflexivity.
Qed.

Lemma all_chars_impl (p q : ascii -> bool) (s : string) :
  (forall c, p c = true -> q c = true) ->
  Names.all_chars p s = true -> Names.all_chars q s = true.
Proof.
  intros Hpq. induction s as [|c s IH]; [reflexivity|].
  cbn [Names.all_chars]. rewrite !andb_true_iff. intros [Hc Hs]. auto.
Qed.

(** *** Strings without the first character of a pattern *)

Lemma prefix_cons_differs (c0 c : ascii) (sep' s : string) :
  Names.differs c0 c = true -> String.prefix (String c0 sep') (String c s) = false.
Proof.
  intros Hc. unfold Names.differs in Hc. apply negb_true_iff, Ascii.eqb_neq in Hc.
  simpl. destruct (ascii_dec c0 c); [congruence | reflexivity].
Qed.

Lemma differs_contains (c0 : ascii) (sep' s : string) :
  Names.all_chars (Names.differs c0) s = true ->
  PyStr.contains (String c0 sep') s = false.
Proof.
  induction s as [|c s IH]; [reflexivity|].
  cbn [Names.all_chars]. intros H. apply andb_true_iff in H. destruct H as [Hc Hs].
  rewrite contains_unfold, (prefix_cons_differs _ _ _ _ Hc), IH by exact Hs.
  reflexivity.
Qed.

Lemma split_aux_cons_differs (c0 c : ascii) (sep' s : string) :
  Names.differs c0 c = true ->
  PyStr.split_aux (String c0 sep') 0 (String c s)
  = match PyStr.split_aux (String c0 sep') 0 s with
    | piece :: pieces => String c piece :: pieces
    | [] => [String c EmptyString]
    end.
Proof.
  intros Hc. cbn [PyStr.split_aux].
  rewrite (prefix_cons_differs _ _ _ _ Hc). reflexivity.
Qed.

(** A stretch without the first character of the separator goes to the
    first piece. *)
Lemma split_aux_plain (c0 : ascii) (sep' a rest : string) :
  Names.all_chars (Names.differs c0) a = true ->
  exists piece pieces,
    PyStr.split_aux (String c0 sep') 0 rest = piece :: pieces
    /\ PyStr.split_aux (String c0 sep') 0 (a +:+ rest) = (a +:+ piece) :: pieces.
Proof.
  induction a as [|c a IH]; intros Ha.
  - destruct (PyStr.split_aux (String c0 sep') 0 rest) as [|piece pieces] eqn:E.
    + exfalso. exact (split_aux_nonempty _ _ _ E).
    + exists piece, pieces. auto.
  - cbn [Names.all_chars] in Ha. apply andb_true_iff in Ha. destruct Ha as [Hc Ha].
    destruct (IH Ha) as (piece & pieces & Hrest & Hsplit).
    exists piece, pieces. split; [exact Hrest|].
    rewrite append_cons, (split_aux_cons_differs _ _ _ _ Hc), Hsplit.
    reflexivity.
Qed.

Lemma split_aux_none (c0 : ascii) (sep' s : string) :
  Names.all_chars (Names.differs c0) s = true ->
  PyStr.split_aux (String c0 sep') 0 s = [s].
Proof.
  intros Hs. destruct (split_aux_plain c0 sep' s "" Hs)
    as (piece & pieces & Hrest & Hsplit).
  cbn [PyStr.split_aux] in Hrest. injection Hrest as <- <-.
  rewrite !append_empty_r in Hsplit. exact Hsplit.
Qed.

Lemma replace_aux_plain (c0 : ascii) (sep' new a rest : string) :
  Names.all_chars (Names.differs c0) a = true ->
  PyStr.replace_aux (String c0 sep') new 0 (a +:+ rest)
  = a +:+ PyStr.replace_aux (String c0 sep') new 0 rest.
Proof.
  induction a as [|c a IH]; intros Ha; [reflexivity|].
  cbn [Names.all_chars] in Ha. apply andb_true_iff in Ha. destruct Ha as [Hc Ha].
  rewrite !append_cons. cbn [PyStr.replace_aux].
  rewrite (prefix_cons_differs _ _ _ _ Hc), IH by exact Ha. reflexivity.
Qed.

Lemma replace_aux_none (c0 : ascii) (sep' new s : string) :
  Names.all_chars (Names.differs c0) s = true ->
  PyStr.replace_aux (String c0 sep') new 0 s = s.
Proof.
  intros Hs. rewrite <- (append_empty_r s) at 1.
  rewrite replace_aux_plain by exact Hs. cbn [PyStr.replace_aux].
  apply append_empty_r.
Qed.

Lemma prefix_app (p s : string) : String.prefix p (p +:+ s) = true.
Proof.
  induction p as [|c p IH]; [apply prefix_empty|].
  rewrite append_cons. simpl. destruct (ascii_dec c c); [exact IH | congruence].
Qed.

Lemma contains_app (p a b : string) : PyStr.contains p (a +:+ p +:+ b) = true.
Proof.
  induction a as [|c a IH].
  - change ("" +:+ p +:+ b) with (p +:+ b).
    destruct (p +:+ b) as [|c s] eqn:E.
    + destruct p; [reflexivity | discriminate E].
    + rewrite contains_unfold, <- E, prefix_app. reflexivity.
  - rewrite append_cons. apply contains_cons, IH.
Qed.

(** *** Paths *)

Lemma basename_join (dir name : string) :
  PyStr.contains "/" name = false ->
  PyStr.basename (Enhanced.join dir name) = name.
Proof.
  intros Hname. unfold Enhanced.join.
  induction dir as [|c dir IH].
  - change ("" +:+ "/" +:+ name) with (String "/" name).
    cbn [PyStr.basename]. rewrite Hname. reflexivity.
  - rewrite append_cons. cbn [PyStr.basename].
    rewrite (contains_app "/" dir name). exact IH.
Qed.

Lemma dirname_join (dir name : string) :
  PyStr.contains "/" name = false ->
  PyStr.dirname (Enhanced.join dir name) = dir.
Proof.
  intros Hname. unfold Enhanced.join.
  induction dir as [|c dir IH].
  - change ("" +:+ "/" +:+ name) with (String "/" name).
    cbn [PyStr.dirname]. rewrite Hname. reflexivity.
  - rewrite append_cons. cbn [PyStr.dirname].
    rewrite (contains_app "/" dir name), IH. reflexivity.
Qed.

(** *** Suffixes and the middle of a name *)

Lemma rev_app_app (a b acc : string) :
  String.rev_app (a +:+ b) acc = String.rev_app b (String.rev_app a acc).
Proof.
  revert acc. induction a as [|c a IH]; intros acc; [reflexivity|].
  rewrite append_cons. cbn [String.rev_app]. apply IH.
Qed.

Lemma rev_app_acc (a acc : string) :
  String.rev_app a acc = String.rev_app a "" +:+ acc.
Proof.
  revert acc. induction a as [|c a IH]; intros acc; [reflexivity|].
  cbn [String.rev_app]. rewrite IH, (IH (String c "")), append_assoc'.
  reflexivity.
Qed.

Lemma endswith_app (suffix a : string) :
  PyStr.endswith suffix (a +:+ suffix) = true.
Proof.
  unfold PyStr.endswith, String.rev.
  rewrite rev_app_app, (rev_app_acc suffix (String.rev_app a "")).
  apply prefix_app.
Qed.

Lemma length_app (a b : string) :
  String.length (a +:+ b) = (String.length a + String.length b)%nat.
Proof.
  induction a as [|c a IH]; [reflexivity|].
  rewrite append_cons. cbn [String.length]. rewrite IH. reflexivity.
Qed.

Lemma substring_0_app (m b : string) :
  String.substring 0 (String.length m) (m +:+ b) = m.
Proof.
  induction m as [|c m IH].
  - change ("" +:+ b) with b. destruct b; reflexivity.
  - rewrite append_cons. cbn [String.length String.substring]. rewrite IH.
    reflexivity.
Qed.

Lemma substring_middle (a m b : string) :
  String.substring (String.length a) (String.length m) (a +:+ m +:+ b) = m.
Proof.
  induction a as [|c a IH]; [exact (substring_0_app m b)|].
  rewrite append_cons. cbn [String.length String.substring]. exact IH.
Qed.

(** The name of a daily raster matches the pattern of step 5. *)
Lemma fnmatch_daily_name (v t : string) :
  Enhanced.fnmatch_daily ("uganda_" +:+ v +:+ "_daily_" +:+ t +:+ ".tif") = true.
Proof.
  unfold Enhanced.fnmatch_daily.
  rewrite prefix_app.
  assert (Hname : "uganda_" +:+ v +:+ "_daily_" +:+ t +:+ ".tif"
                  = ("uganda_" +:+ v +:+ "_daily_" +:+ t) +:+ ".tif").
  { rewrite !append_assoc'. reflexivity. }
  rewrite Hname at 1. rewrite endswith_app. cbn [andb].
  assert (Hmid : "uganda_" +:+ v +:+ "_daily_" +:+ t +:+ ".tif"
                 = "uganda_" +:+ (v +:+ "_daily_" +:+ t) +:+ ".tif").
  { rewrite !append_assoc'. reflexivity. }
  assert (Hlen : (String.length ("uganda_" +:+ v +:+ "_daily_" +:+ t +:+ ".tif") - 11
                  = String.length (v +:+ "_daily_" +:+ t))%nat).
  { rewrite !length_app. cbn [String.length]. lia. }
  rewrite Hlen, Hmid.
  change 7%nat with (String.length "uganda_").
  rewrite substring_middle. apply (contains_app "_daily_" v t).
Qed.

(** *** The text of a date *)

Lemma pretty_N_char_date (x : N) : Names.date_char (pretty_N_char x) = true.
Proof. unfold pretty_N_char. repeat case_match; reflexivity. Qed.

Lemma pretty_N_go_date (x : N) (s : string) :
  Names.all_chars Names.date_char s = true ->
  Names.all_chars Names.date_char (pretty_N_go x s) = true.
Proof.
  revert s. induction (N.lt_wf_0 x) as [x _ IH]; intros s Hs.
  destruct (decide (x = 0)%N) as [-> | Hx].
  - rewrite pretty_N_go_0. exact Hs.
  - rewrite pretty_N_go_step by lia. apply IH.
    + apply N.div_lt; lia.
    + cbn [Names.all_chars]. rewrite pretty_N_char_date, Hs. reflexivity.
Qed.

Lemma pretty_nat_date (n : nat) :
  Names.all_chars Names.date_char (pretty n) = true.
Proof.
  unfold pretty, pretty_nat, pretty, pretty_N.
  destruct (decide (N.of_nat n = 0%N)); [reflexivity|].
  apply pretty_N_go_date. reflexivity.
Qed.

Lemma zeros_str_date (k : nat) :
  Names.all_chars Names.date_char (Enhanced.zeros_str k) = true.
Proof.
  induction k as [|k IH]; [reflexivity|].
  cbn [Enhanced.zeros_str Names.all_chars]. rewrite IH. reflexivity.
Qed.

Lemma pad_date (width n : nat) :
  Names.all_chars Names.date_char (Enhanced.pad width n) = true.
Proof.
  unfold Enhanced.pad. rewrite all_chars_app, zeros_str_date, pretty_nat_date.
  reflexivity.
Qed.

Lemma date_str_date (d : Enhanced.date) :
  Names.all_chars Names.date_char (Enhanced.date_str d) = true.
Proof.
  unfold Enhanced.date_str. rewrite !all_chars_app, !pad_date. reflexivity.
Qed.

Lemma date_char_simple (c : ascii) :
  Names.date_char c = true -> Names.simple_char c = true.
Proof.
  destruct c as [[] [] [] [] [] [] [] []]; intros H;
    first [reflexivity | discriminate H].
Qed.

Lemma simple_char_differs (c : ascii) :
  Names.simple_char c = true ->
  Names.differs "/" c = true /\ Names.differs "_" c = true
  /\ Names.differs "." c = true /\ Names.differs "u" c = true.
Proof.
  unfold Names.simple_char. rewrite !andb_true_iff. tauto.
Qed.

Lemma simple_chars (s : string) (c0 : ascii) :
  Names.all_chars Names.simple_char s = true ->
  In c0 ["/"; "_"; "."; "u"]%char ->
  Names.all_chars (Names.differs c0) s = true.
Proof.
  intros Hs Hc0. eapply all_chars_impl; [|exact Hs].
  intros c Hc. apply simple_char_differs in Hc.
  destruct Hc as (H1 & H2 & H3 & H4).
  cbn [In] in Hc0. destruct Hc0 as [<- | [<- | [<- | [<- | []]]]]; assumption.
Qed.

Lemma date_chars_simple (t : string) :
  Names.all_chars Names.date_char t = true -> Names.all_chars Names.simple_char t = true.
Proof. apply all_chars_impl, date_char_simple. Qed.

(** *** The name of a daily raster, taken apart *)

(** A stretch without [c0], followed by [c0], starts with [a] followed by
    [c0] only if it is [a]. *)
Lemma prefix_plain_eq (c0 : ascii) (a v rest : string) :
  Names.all_chars (Names.differs c0) a = true ->
  Names.all_chars (Names.differs c0) v = true ->
  String.prefix (a +:+ String c0 "") (v +:+ String c0 rest) = true ->
  v = a.
Proof.
  revert v. induction a as [|x a IH]; intros v Ha Hv H.
  - destruct v as [|c v]; [reflexivity|]. exfalso.
    cbn [Names.all_chars] in Hv. apply andb_true_iff in Hv. destruct Hv as [Hc _].
    change ("" +:+ String c0 "") with (String c0 "") in H.
    rewrite append_cons, (prefix_cons_differs _ _ _ _ Hc) in H. discriminate.
  - cbn [Names.all_chars] in Ha. apply andb_true_iff in Ha. destruct Ha as [Hx Ha].
    rewrite append_cons in H.
    destruct v as [|c v].
    + exfalso. change ("" +:+ String c0 rest) with (String c0 rest) in H.
      simpl in H. unfold Names.differs in Hx.
      apply negb_true_iff, Ascii.eqb_neq in Hx.
      destruct (ascii_dec x c0); [congruence | discriminate].
    + cbn [Names.all_chars] in Hv. apply andb_true_iff in Hv. destruct Hv as [_ Hv].
      rewrite append_cons in H. simpl in H.
      destruct (ascii_dec x c) as [-> | _]; [|discriminate].
      f_equal. apply IH; assumption.
Qed.

Section DailyName.
Variables (v t : string).
Hypothesis Hv : Names.simple_name v = true.
Hypothesis Ht : Names.all_chars Names.date_char t = true.

Lemma name_v_chars (c0 : ascii) :
  In c0 ["/"; "_"; "."; "u"]%char -> Names.all_chars (Names.differs c0) v = true.
Proof.
  intros Hc0. apply simple_chars; [|exact Hc0].
  unfold Names.simple_name in Hv. apply andb_true_iff in Hv. tauto.
Qed.

Lemma name_v_not_daily : v <> "daily".
Proof.
  unfold Names.simple_name in Hv. apply andb_true_iff in Hv. destruct Hv as [_ H].
  apply negb_true_iff, String.eqb_neq in H. exact H.
Qed.

Lemma name_t_chars (c0 : ascii) :
  In c0 ["/"; "_"; "."; "u"]%char -> Names.all_chars (Names.differs c0) t = true.
Proof.
  intros Hc0. apply simple_chars; [|exact Hc0]. apply date_chars_simple, Ht.
Qed.

Lemma name_tail_chars (c0 : ascii) :
  In c0 ["/"; "_"; "u"]%char -> Names.all_chars (Names.differs c0) (t +:+ ".tif") = true.
Proof.
  intros Hc0. rewrite all_chars_app.
  cbn [In] in Hc0. destruct Hc0 as [<- | [<- | [<- | []]]];
    (rewrite name_t_chars; [reflexivity | cbn [In]; tauto]).
Qed.

Lemma name_no_slash :
  PyStr.contains "/" ("uganda_" +:+ v +:+ "_daily_" +:+ t +:+ ".tif") = false.
Proof.
  apply differs_contains. rewrite !all_chars_app.
  rewrite (name_v_chars "/"), (name_t_chars "/") by (cbn [In]; tauto).
  reflexivity.
Qed.

Lemma name_split_underscore :
  exists rest,
    PyStr.split "_" ("uganda_" +:+ v +:+ "_daily_" +:+ t +:+ ".tif")
    = "uganda" :: v :: rest.
Proof.
  unfold PyStr.split.
  change ("uganda_" +:+ v +:+ "_daily_" +:+ t +:+ ".tif")
    with ("uganda" +:+ String "_" (v +:+ String "_" ("daily_" +:+ t +:+ ".tif"))).
  destruct (split_aux_plain "_" "" "uganda"
              (String "_" (v +:+ String "_" ("daily_" +:+ t +:+ ".tif"))))
    as (piece & pieces & Hrest & ->); [reflexivity|].
  cbn [PyStr.split_aux] in Hrest.
  assert (Hp : String.prefix "_"
                 (String "_" (v +:+ String "_" ("daily_" +:+ t +:+ ".tif")))
               = true).
  { simpl. apply prefix_empty. }
  rewrite Hp in Hrest. cbn [String.length Nat.sub] in Hrest.
  destruct (split_aux_plain "_" "" v (String "_" ("daily_" +:+ t +:+ ".tif")))
    as (piece' & pieces' & Hrest' & Hsplit');
    [apply name_v_chars; cbn [In]; tauto|].
  rewrite Hsplit' in Hrest. injection Hrest as <- <-.
  cbn [PyStr.split_aux] in Hrest'.
  assert (Hp' : String.prefix "_" (String "_" ("daily_" +:+ t +:+ ".tif")) = true).
  { reflexivity. }
  rewrite Hp' in Hrest'. injection Hrest' as <- _.
  rewrite !append_empty_r. eexists. reflexivity.
Qed.

Lemma name_split_daily :
  PyStr.split "_daily_" ("uganda_" +:+ v +:+ "_daily_" +:+ t +:+ ".tif")
  = ["uganda_" +:+ v; t +:+ ".tif"].
Proof.
  unfold PyStr.split.
  change ("uganda_" +:+ v +:+ "_daily_" +:+ t +:+ ".tif")
    with ("uganda" +:+ String "_" (v +:+ String "_" ("daily_" +:+ t +:+ ".tif"))).
  destruct (split_aux_plain "_" "daily_" "uganda"
              (String "_" (v +:+ String "_" ("daily_" +:+ t +:+ ".tif"))))
    as (piece & pieces & Hrest & ->); [reflexivity|].
  cbn [PyStr.split_aux] in Hrest.
  assert (Hp : String.prefix "_daily_"
                 (String "_" (v +:+ String "_" ("daily_" +:+ t +:+ ".tif")))
               = false).
  { destruct (String.prefix "_daily_" _) eqn:E; [|reflexivity]. exfalso.
    simpl in E.
    apply name_v_not_daily.
    apply (prefix_plain_eq "_" "daily" v ("daily_" +:+ t +:+ ".tif"));
      [reflexivity | apply name_v_chars; cbn [In]; tauto | exact E]. }
  rewrite Hp in Hrest.
  destruct (split_aux_plain "_" "daily_" v
              (String "_" ("daily_" +:+ t +:+ ".tif")))
    as (piece' & pieces' & Hrest' & Hsplit');
    [apply name_v_chars; cbn [In]; tauto|].
  rewrite Hsplit' in Hrest. injection Hrest as <- <-.
  cbn [PyStr.split_aux] in Hrest'.
  assert (Hp' : String.prefix "_daily_"
                  (String "_" ("daily_" +:+ t +:+ ".tif")) = true).
  { exact (prefix_app "_daily_" (t +:+ ".tif")). }
  rewrite Hp' in Hrest'.
  change ("daily_" +:+ t +:+ ".tif")
    with (String "d" (String "a" (String "i" (String "l" (String "y"
            (String "_" (t +:+ ".tif"))))))) in Hrest'.
  cbn [String.length Nat.sub PyStr.split_aux] in Hrest'.
  rewrite split_aux_none in Hrest' by (apply name_tail_chars; cbn [In]; tauto).
  injection Hrest' as <- <-. rewrite append_empty_r. reflexivity.
Qed.

Lemma tail_replace_tif : PyStr.replace ".tif" "" (t +:+ ".tif") = t.
Proof.
  unfold PyStr.replace.
  rewrite replace_aux_plain by (apply name_t_chars; cbn [In]; tauto).
  change (PyStr.replace_aux ".tif" "" 0 ".tif") with "".
  apply append_empty_r.
Qed.

Lemma name_replace_chain :
  PyStr.replace ".tif" ""
    (PyStr.replace "_daily_" "_"
       (PyStr.replace "uganda_" "" ("uganda_" +:+ v +:+ "_daily_" +:+ t +:+ ".tif")))
  = v +:+ String "_" t.
Proof.
  assert (H1 : PyStr.replace "uganda_" ""
                 ("uganda_" +:+ v +:+ "_daily_" +:+ t +:+ ".tif")
               = v +:+ "_daily_" +:+ t +:+ ".tif").
  { unfold PyStr.replace.
    change ("uganda_" +:+ v +:+ "_daily_" +:+ t +:+ ".tif")
      with (String "u" (String "g" (String "a" (String "n" (String "d"
              (String "a" (String "_" (v +:+ "_daily_" +:+ t +:+ ".tif")))))))).
    cbn [PyStr.replace_aux].
    assert (Hp : String.prefix "uganda_"
                   (String "u" (String "g" (String "a" (String "n" (String "d"
                      (String "a" (String "_"
                         (v +:+ "_daily_" +:+ t +:+ ".tif"))))))))
                 = true).
    { exact (prefix_app "uganda_" (v +:+ "_daily_" +:+ t +:+ ".tif")). }
    rewrite Hp. cbn [String.length Nat.sub PyStr.replace_aux].
    change ("" +:+ PyStr.replace_aux "uganda_" "" 0
                     (v +:+ "_daily_" +:+ t +:+ ".tif"))
      with (PyStr.replace_aux "uganda_" "" 0 (v +:+ "_daily_" +:+ t +:+ ".tif")).
    apply replace_aux_none. rewrite !all_chars_app.
    rewrite (name_v_chars "u"), (name_t_chars "u") by (cbn [In]; tauto).
    reflexivity. }
  assert (H2 : PyStr.replace "_daily_" "_" (v +:+ "_daily_" +:+ t +:+ ".tif")
               = v +:+ String "_" (t +:+ ".tif")).
  { unfold PyStr.replace.
    rewrite replace_aux_plain by (apply name_v_chars; cbn [In]; tauto).
    f_equal.
    change ("_daily_" +:+ t +:+ ".tif")
      with (String "_" (String "d" (String "a" (String "i" (String "l"
              (String "y" (String "_" (t +:+ ".tif")))))))).
    cbn [PyStr.replace_aux].
    assert (Hp : String.prefix "_daily_"
                   (String "_" (String "d" (String "a" (String "i" (String "l"
                      (String "y" (String "_" (t +:+ ".tif"))))))))
                 = true).
    { exact (prefix_app "_daily_" (t +:+ ".tif")). }
    rewrite Hp. cbn [String.length Nat.sub PyStr.replace_aux].
    rewrite replace_aux_none by (apply name_tail_chars; cbn [In]; tauto).
    reflexivity. }
  rewrite H1, H2.
  assert (H3 : v +:+ String "_" (t +:+ ".tif") = (v +:+ String "_" t) +:+ ".tif").
  { rewrite append_assoc'. reflexivity. }
  rewrite H3. unfold PyStr.replace. rewrite replace_aux_plain.
  - change (PyStr.replace_aux ".tif" "" 0 ".tif") with "".
    apply append_empty_r.
  - rewrite all_chars_app. cbn [Names.all_chars].
    rewrite (name_v_chars "."), (name_t_chars ".") by (cbn [In]; tauto).
    reflexivity.
Qed.

Lemma name_split_short : PyStr.split "_" (v +:+ String "_" t) = [v; t].
Proof.
  unfold PyStr.split.
  destruct (split_aux_plain "_" "" v (String "_" t))
    as (piece & pieces & Hrest & ->); [apply name_v_chars; cbn [In]; tauto|].
  cbn [PyStr.split_aux] in Hrest.
  assert (Hp : String.prefix "_" (String "_" t) = true).
  { simpl. apply prefix_empty. }
  rewrite Hp in Hrest. cbn [String.length Nat.sub] in Hrest.
  rewrite split_aux_none in Hrest by (apply name_t_chars; cbn [In]; tauto).
  injection Hrest as <- <-. rewrite append_empty_r. reflexivity.
Qed.

(** What steps 3 and 5 read off the path of the daily raster. *)
Lemma daily_path_parts :
  let name := "uganda_" +:+ v +:+ "_daily_" +:+ t +:+ ".tif" in
  let path := Enhanced.join Enhanced.output_dir name in
  PyStr.dirname path = Enhanced.output_dir
  /\ PyStr.basename path = name
  /\ Enhanced.fnmatch_daily name = true
  /\ Enhanced.variable_of_file path = Returned v
  /\ (forall i, Enhanced.catalog_entry (i, path)
                = Returned (Enhanced.BandEntry (i + 1) name v t))
  /\ Enhanced.multi_description path = v +:+ " - " +:+ t
  /\ Enhanced.date_of_file path = t.
Proof.
  intros name path.
  pose proof (basename_join Enhanced.output_dir name name_no_slash) as Hbase.
  fold path in Hbase.
  destruct name_split_underscore as (rest & Hsplit). fold name in Hsplit.
  assert (Hvar : Enhanced.variable_of_file path = Returned v).
  { unfold Enhanced.variable_of_file. rewrite Hbase, Hsplit. reflexivity. }
  split; [apply dirname_join, name_no_slash|]. split; [exact Hbase|].
  split; [apply fnmatch_daily_name|]. split; [exact Hvar|]. split; [|split].
  - intros i. unfold Enhanced.catalog_entry. rewrite Hvar.
    cbn [mbind outcome_bind]. rewrite Hbase. unfold name.
    rewrite name_split_daily.
    cbn [PyStr.index lookup list_lookup mbind outcome_bind].
    rewrite tail_replace_tif. reflexivity.
  - unfold Enhanced.multi_description. cbv zeta.
    rewrite Hbase. unfold name.
    rewrite name_replace_chain, name_split_short. reflexivity.
  - unfold Enhanced.date_of_file. rewrite Hbase. unfold name.
    rewrite name_split_daily.
    cbn [PyStr.last_piece List.last]. apply tail_replace_tif.
Qed.
End DailyName.

(** X24. The name under which step 2 writes the raster of a target
    variable and a day is read back correctly by the later steps: step 5
    collects the file as soon as it is in the output directory, its
    catalog entry names the variable and the day in ISO format, the band
    description of the multi-variable stack is [<variable> - <day>], and
    step 3 describes its band of the variable's stack by the same day. *)
Theorem X24_daily_file_name_read_back :
  forall (variable : string) (d : Enhanced.date),
    In variable Enhanced.target_variables ->
    let f := Enhanced.daily_file variable d in
    (forall fs : gmap string Enhanced.raster,
        is_Some (fs !! f) -> In f (Enhanced.glob_daily fs))
    /\ Enhanced.variable_of_file f = Returned variable
    /\ (forall i,
          Enhanced.catalog_entry (i, f)
          = Returned (Enhanced.BandEntry (i + 1) (PyStr.basename f) variable
                        (Enhanced.date_str d)))
    /\ Enhanced.multi_description f
       = variable +:+ " - " +:+ Enhanced.date_str d
    /\ Enhanced.date_of_file f = Enhanced.date_str d.
Proof.
  intros variable d Hin f.
  assert (Hall : forallb Names.simple_name Enhanced.target_variables = true)
    by reflexivity.
  rewrite forallb_forall in Hall.
  pose proof (daily_path_parts variable (Enhanced.date_str d)
                (Hall variable Hin) (date_str_date d)) as Hparts.
  cbv zeta in Hparts.
  fold (Enhanced.daily_file variable d) in Hparts. fold f in Hparts.
  destruct Hparts as (Hdir & Hbase & Hmatch & Hvar & Hentry & Hdesc & Hdate).
  split; [|split; [exact Hvar|split; [|split; [exact Hdesc | exact Hdate]]]].
  - intros fs Hf. apply glob_daily_spec. split; [exact Hf|].
    split; [exact Hdir|]. rewrite Hbase. exact Hmatch.
  - intros i. rewrite Hbase. apply Hentry.
Qed.

(** X24 at [NDVI] on the first day of the examples. *)
Lemma X24_ndvi_witness :
  let f := Enhanced.daily_file "NDVI" Examples.day1 in
  (forall fs : gmap string Enhanced.raster,
      is_Some (fs !! f) -> In f (Enhanced.glob_daily fs))
  /\ Enhanced.variable_of_file f = Returned "NDVI"
  /\ (forall i,
        Enhanced.catalog_entry (i, f)
        = Returned (Enhanced.BandEntry (i + 1) (PyStr.basename f) "NDVI"
                      (Enhanced.date_str Examples.day1)))
  /\ Enhanced.multi_description f
     = "NDVI" +:+ " - " +:+ Enhanced.date_str Examples.day1
  /\ Enhanced.date_of_file f = Enhanced.date_str Examples.day1.
Proof.
  apply (X24_daily_file_name_read_back "NDVI" Examples.day1).
  left. reflexivity.
Defined.

(** A variable whose name has an underscore would not be read back: the
    catalog would file its raster under the first half of the name. *)
Example underscore_variable_not_read_back :
  Enhanced.catalog_entry
    (0%nat, Enhanced.daily_file "soil_moisture" Examples.day1)
  = Returned (Enhanced.BandEntry 1
                "uganda_soil_moisture_daily_2024-01-15.tif" "soil" "2024-01-15")
  /\ Enhanced.multi_description
       (Enhanced.daily_file "soil_moisture" Examples.day1)
     = "soil - moisture".
Proof. split; vm_compute; reflexivity. Qed.
